(** * DemandRadar: the Reddit niche-research core

    A shallow embedding of [reddit-research-tool/src/niche_analyzer.py] and
    [reddit-research-tool/src/researcher.py] (with the finalize step of
    [research_watermark.py]), and the properties of the classifier, the theme
    extractor, the aggregation step, discovery and the research run.

    Conventions of the embedding.
    - A Python [str] is a [text], a list of characters; the characters are
      the 7-bit ones, so [lower], [strip], [\w] and [\b] are the ASCII
      restrictions of the Python operations.
    - A [dict] read with [.get(key, default)] is a record of optional fields:
      [None] is the absent key, and a field that is present holds a value of
      the type the code uses it at (a string, an integer, a list).  The
      records with [null] under a text key are the [raw_post] of the module
      [Raw], where an operation returns or raises.
    - Counts and limits ([top_n], [max_subreddits], slice bounds) are natural
      numbers.
    - [list(set(xs))] enumerates the distinct elements of [xs] in an order the
      language does not fix; it is a parameter [set_to_list] of the functions
      that use it.
    - The API client is a pair of functions from the request to the decoded
      response. *)

From Stdlib Require Import List Ascii String ZArith Lia Bool Arith.
From Stdlib Require Import Permutation Sorted.
Import ListNotations.

(** ** Characters and strings *)

Definition text := list ascii.

Definition str (s : string) : text := list_ascii_of_string s.

Definition text_eq_dec : forall a b : text, {a = b} + {a <> b} :=
  list_eq_dec ascii_dec.

Definition text_eqb (a b : text) : bool :=
  if text_eq_dec a b then true else false.

Definition code (c : ascii) : nat := nat_of_ascii c.

Definition between (lo hi : nat) (c : ascii) : bool :=
  (lo <=? code c) && (code c <=? hi).

Definition is_upper (c : ascii) : bool := between 65 90 c.
Definition is_lower (c : ascii) : bool := between 97 122 c.
Definition is_alpha (c : ascii) : bool := is_upper c || is_lower c.
Definition is_digit (c : ascii) : bool := between 48 57 c.

(** [\w]: letters, digits and the underscore. *)
Definition is_word (c : ascii) : bool :=
  is_alpha c || is_digit c || (code c =? 95).

(** [str.isspace]: tab, line feed, vertical tab, form feed, carriage
    return, the four separators 28..31 and the space. *)
Definition is_space (c : ascii) : bool :=
  between 9 13 c || between 28 32 c.

Definition lower_char (c : ascii) : ascii :=
  if is_upper c then ascii_of_nat (code c + 32) else c.

(** [s.lower()] *)
Definition lower (s : text) : text := map lower_char s.

Fixpoint drop_while (p : ascii -> bool) (s : text) : text :=
  match s with
  | [] => []
  | c :: s' => if p c then drop_while p s' else s
  end.

Definition lstrip (s : text) : text := drop_while is_space s.
Definition rstrip (s : text) : text := rev (drop_while is_space (rev s)).

(** [s.strip()] *)
Definition strip (s : text) : text := rstrip (lstrip s).

(** [s.startswith(p)], character by character. *)
Fixpoint starts_with (p s : text) : bool :=
  match p, s with
  | [], _ => true
  | a :: p', c :: s' => Ascii.eqb a c && starts_with p' s'
  | _ :: _, [] => false
  end.

(** [p in s] for strings. *)
Fixpoint contains (p s : text) : bool :=
  starts_with p s ||
  match s with
  | [] => false
  | _ :: s' => contains p s'
  end.

(** [s.endswith(p)] *)
Definition ends_with (p s : text) : bool := starts_with (rev p) (rev s).

(** [s.split()]: the maximal runs of characters that are not whitespace. *)
Fixpoint split_ws_aux (cur : text) (s : text) : list text :=
  match s with
  | [] => match cur with [] => [] | _ => [rev cur] end
  | c :: s' =>
      if is_space c
      then match cur with
           | [] => split_ws_aux [] s'
           | _ => rev cur :: split_ws_aux [] s'
           end
      else split_ws_aux (c :: cur) s'
  end.

Definition split_ws (s : text) : list text := split_ws_aux [] s.

(** [sep.join(parts)] *)
Fixpoint join (sep : text) (parts : list text) : text :=
  match parts with
  | [] => []
  | [p] => p
  | p :: ps => p ++ sep ++ join sep ps
  end.

(** ** Regular expressions of the pattern tables

    Every entry of the five tables is [\b(w1|w2|...)\b] over literal
    alternatives, except the last question pattern, [\?$].  All are compiled
    with [re.IGNORECASE] and used with [search]. *)

Inductive pattern : Type :=
| WordAlt (alts : list text)
| QuestionMarkAtEnd.

Definition words (alts : list string) : pattern := WordAlt (map str alts).

Definition opt_word (c : option ascii) : bool :=
  match c with
  | Some c => is_word c
  | None => false
  end.

(** [\b] between the character before the position and the one after. *)
Definition word_boundary (prev next : option ascii) : bool :=
  xorb (opt_word prev) (opt_word next).

(** The literal [lit] at the head of [s], letters compared without case;
    the result is the last character consumed and the rest of [s]. *)
Fixpoint match_literal (lit : text) (prev : option ascii) (s : text)
  : option (option ascii * text) :=
  match lit with
  | [] => Some (prev, s)
  | a :: lit' =>
      match s with
      | c :: s' =>
          if Ascii.eqb (lower_char a) (lower_char c)
          then match_literal lit' (Some c) s'
          else None
      | [] => None
      end
  end.

(** [\b(w1|...)\b] anchored at the current position. *)
Definition match_words_here (alts : list text) (prev : option ascii) (s : text)
  : bool :=
  word_boundary prev (hd_error s) &&
  existsb (fun alt =>
             match match_literal alt prev s with
             | Some (last, rest) => word_boundary last (hd_error rest)
             | None => false
             end) alts.

Fixpoint search_words (alts : list text) (prev : option ascii) (s : text)
  : bool :=
  match_words_here alts prev s ||
  match s with
  | [] => false
  | c :: s' => search_words alts (Some c) s'
  end.

(** [\?$]: a question mark at the end of the string, or just before a final
    line feed. *)
Fixpoint search_question_end (s : text) : bool :=
  match s with
  | [] => false
  | c :: s' =>
      (Ascii.eqb c "?" &&
       match s' with
       | [] => true
       | [n] => Ascii.eqb n "010"
       | _ => false
       end)
      || search_question_end s'
  end.

(** [p.search(s)] as a truth value. *)
Definition search (p : pattern) (s : text) : bool :=
  match p with
  | WordAlt alts => search_words alts None s
  | QuestionMarkAtEnd => search_question_end s
  end.

(** ** niche_analyzer.py: the pattern tables *)

Definition PAIN_PATTERNS : list pattern :=
  [ words ["struggle"; "struggling"; "difficult"; "hard to"; "can't";
           "cannot"; "unable to"];
    words ["frustrated"; "frustrating"; "annoying"; "annoyed"; "hate";
           "hating"];
    words ["problem"; "issue"; "bug"; "broken"; "doesn't work";
           "not working"];
    words ["wish there was"; "if only"; "would be nice if"];
    words ["tired of"; "sick of"; "fed up with"];
    words ["waste of time"; "time consuming"; "takes forever"];
    words ["expensive"; "overpriced"; "costs too much"; "can't afford"];
    words ["complicated"; "confusing"; "complex"; "overwhelming"] ]%string.

Definition QUESTION_PATTERNS : list pattern :=
  [ words ["how do I"; "how can I"; "how to"; "what's the best way"];
    words ["anyone know"; "does anyone"; "has anyone"];
    words ["looking for"; "searching for"; "need help with"; "need a"];
    words ["recommend"; "suggestion"; "advice"; "tips"];
    words ["alternative to"; "replacement for"; "instead of"];
    words ["is there a"; "are there any"];
    QuestionMarkAtEnd ]%string.

Definition REQUEST_PATTERNS : list pattern :=
  [ words ["wish"; "want"; "need"; "require"; "would love"];
    words ["should have"; "must have"; "needs to have"];
    words ["feature request"; "suggestion"; "idea"];
    words ["please add"; "can you add"; "would be great if"] ]%string.

Definition SOLUTION_PATTERNS : list pattern :=
  [ words ["I use"; "I'm using"; "we use"; "currently using"];
    words ["switched to"; "moved to"; "migrated to"];
    words ["recommend"; "love"; "great tool"; "best tool"];
    words ["solved by"; "fixed by"; "helped by"] ]%string.

Definition BELIEF_PATTERNS : list pattern :=
  [ words ["I think"; "I believe"; "in my opinion"; "IMO"; "IMHO"];
    words ["the problem is"; "the issue is"; "the truth is"];
    words ["people don't realize"; "most people think"];
    words ["the best approach"; "the right way"; "should be"] ]%string.

(** The keys of [compiled_patterns]. *)
Inductive pattern_type : Type :=
| pain | question | request | solution | belief.

Definition compiled_patterns (ty : pattern_type) : list pattern :=
  match ty with
  | pain => PAIN_PATTERNS
  | question => QUESTION_PATTERNS
  | request => REQUEST_PATTERNS
  | solution => SOLUTION_PATTERNS
  | belief => BELIEF_PATTERNS
  end.

(** ** niche_analyzer.py: the classifier *)

Definition _matches_patterns (s : text) (ty : pattern_type) : bool :=
  existsb (fun p => search p s) (compiled_patterns ty).

(** The separators of [re.split(r'[.!?\n]', text)]. *)
Definition is_sentence_end (c : ascii) : bool :=
  Ascii.eqb c "." || Ascii.eqb c "!" || Ascii.eqb c "?" || Ascii.eqb c "010".

(** [re.split]: the pieces between separators, empty ones included. *)
Fixpoint re_split (s : text) : list text :=
  match s with
  | [] => [[]]
  | c :: s' =>
      if is_sentence_end c then [] :: re_split s'
      else match re_split s' with
           | p :: ps => (c :: p) :: ps
           | [] => [[c]]
           end
  end.

Definition nonempty (s : text) : bool :=
  match s with [] => false | _ => true end.

Definition _extract_sentence_with_pattern (s : text) (ty : pattern_type)
  : list text :=
  filter (fun sentence => nonempty sentence && _matches_patterns sentence ty)
         (map strip (re_split s)).

(** A post as the analyzer reads it: a dict whose keys may be missing. *)
Record post : Type := Post {
  p_id : option text;
  p_title : option text;
  p_selftext : option text;
  p_body : option text;
  p_score : option Z;
  p_num_comments : option Z;
  p_url : option text;
  p_created_utc : option Z;
  p_subreddit : option text
}.

(** [d.get(key, default)] *)
Definition get {A : Type} (field : option A) (default : A) : A :=
  match field with
  | Some v => v
  | None => default
  end.

(** [a or b] on strings: [a] unless it is empty. *)
Definition or_text (a b : text) : text :=
  match a with [] => b | _ => a end.

(** The dict that [analyze_post] returns. *)
Record insights : Type := Insights {
  i_pain_points : list text;
  i_questions : list text;
  i_requests : list text;
  i_solutions : list text;
  i_beliefs : list text
}.

Definition post_title (p : post) : text := get (p_title p) [].
Definition post_body (p : post) : text :=
  or_text (get (p_selftext p) []) (get (p_body p) []).

Definition analyze_post (p : post) : insights :=
  let title := post_title p in
  let body := post_body p in
  let full_text := title ++ str ". " ++ body in
  {| i_pain_points := _extract_sentence_with_pattern full_text pain;
     i_questions := _extract_sentence_with_pattern full_text question;
     i_requests := _extract_sentence_with_pattern full_text request;
     i_solutions := _extract_sentence_with_pattern full_text solution;
     i_beliefs := _extract_sentence_with_pattern full_text belief |}.

(** The bucket of [analyze_post]'s result that a pattern family fills. *)
Definition bucket (ty : pattern_type) (i : insights) : list text :=
  match ty with
  | pain => i_pain_points i
  | question => i_questions i
  | request => i_requests i
  | solution => i_solutions i
  | belief => i_beliefs i
  end.

(** The segments of a text: the pieces of [re_split], stripped, without the
    empty ones. *)
Definition segments (s : text) : list text :=
  filter nonempty (map strip (re_split s)).

Definition whitespace_only (s : text) : bool := forallb is_space s.


(** The phrases of [categorize_post_by_intent]'s showcase test. *)
Definition showcase_phrases : list text :=
  map str ["i made"; "i built"; "i created"; "check out"; "showcase"]%string.

Definition categorize_post_by_intent (p : post) : text :=
  let title := lower (get (p_title p) []) in
  if contains (str "?") title || _matches_patterns title question
  then str "question"
  else if _matches_patterns title pain then str "complaint"
  else if _matches_patterns title request then str "request"
  else if existsb (fun word => contains word title) showcase_phrases
  then str "showcase"
  else str "discussion".

(** The five intent labels. *)
Definition intent_labels : list text :=
  map str ["question"; "complaint"; "request"; "showcase"; "discussion"]%string.

(** One of the showcase phrases occurs in the title, letters compared
    without case. *)
Definition has_showcase_phrase (title : text) : bool :=
  existsb (fun word => contains word (lower title)) showcase_phrases.

(** A literal ['?'] in the title, or a question pattern found in it. *)
Definition asks_question (title : text) : bool :=
  contains (str "?") title || _matches_patterns title question.

(** A text field that is missing from the record or holds the empty string. *)
Definition absent_or_empty (field : option text) : Prop :=
  field = None \/ field = Some [].

(** The result of [analyze_post] with nothing in any bucket. *)
Definition no_insights : insights :=
  {| i_pain_points := []; i_questions := []; i_requests := [];
     i_solutions := []; i_beliefs := [] |}.

(** ** Sorting and counting as the library does them *)

(** [sorted(xs, key=key, reverse=True)] and [xs.sort(key=key, reverse=True)]:
    descending in the key, elements of equal key in their original order. *)
Fixpoint insert_desc {A : Type} (key : A -> Z) (x : A) (l : list A) : list A :=
  match l with
  | [] => [x]
  | y :: l' =>
      if (key y <=? key x)%Z then x :: l else y :: insert_desc key x l'
  end.

Definition sort_desc {A : Type} (key : A -> Z) (l : list A) : list A :=
  fold_right (insert_desc key) [] l.

(** A [collections.Counter] over strings: the keys in the order of their
    first insertion, each with its count. *)
Definition counter := list (text * nat).

Fixpoint counter_add (w : text) (c : counter) : counter :=
  match c with
  | [] => [(w, 1)]
  | (k, n) :: c' =>
      if text_eqb k w then (k, S n) :: c' else (k, n) :: counter_add w c'
  end.

(** [c.update(ws)] *)
Definition counter_update (c : counter) (ws : list text) : counter :=
  fold_left (fun c w => counter_add w c) ws c.

(** [c.most_common(n)]: the [n] entries of largest count, entries of equal
    count in insertion order. *)
Definition most_common (n : nat) (c : counter) : counter :=
  firstn n (sort_desc (fun e => Z.of_nat (snd e)) c).

(** ** niche_analyzer.py: themes *)

Definition stopwords : list text :=
  map str
  [ "the"; "a"; "an"; "and"; "or"; "but"; "in"; "on"; "at"; "to"; "for";
    "of"; "with"; "by"; "from"; "is"; "are"; "was"; "were"; "be"; "been";
    "being"; "have"; "has"; "had"; "do"; "does"; "did"; "will"; "would";
    "could"; "should"; "may"; "might"; "must"; "can"; "this"; "that";
    "these"; "those"; "i"; "you"; "he"; "she"; "it"; "we"; "they"; "my";
    "your"; "his"; "her"; "its"; "our"; "their"; "what"; "which"; "who";
    "when"; "where"; "why"; "how"; "all"; "each"; "every"; "both"; "few";
    "more"; "most"; "other"; "some"; "such"; "no"; "not"; "only"; "same";
    "so"; "than"; "too"; "very"; "just"; "also"; "now"; "here"; "there";
    "about"; "into"; "over"; "after"; "before"; "up"; "down"; "out"; "off";
    "if"; "then"; "else"; "because"; "as"; "until"; "while"; "during";
    "through"; "again"; "once"; "any"; "get"; "got"; "like"; "know"; "think";
    "want"; "need"; "use"; "using"; "used"; "new"; "first"; "last"; "one";
    "two"; "way"; "even"; "well"; "back"; "still"; "going"; "make"; "made";
    "anyone"; "someone"; "everyone"; "something"; "anything"; "everything";
    "really"; "much"; "many"; "dont"; "don't"; "im"; "i'm"; "ive";
    "i've" ]%string.

Definition is_stopword (w : text) : bool :=
  existsb (text_eqb w) stopwords.

(** The maximal runs of [\w] characters of a string, left to right. *)
Fixpoint word_runs_aux (cur : text) (s : text) : list text :=
  match s with
  | [] => match cur with [] => [] | _ => [rev cur] end
  | c :: s' =>
      if is_word c then word_runs_aux (c :: cur) s'
      else match cur with
           | [] => word_runs_aux [] s'
           | _ => rev cur :: word_runs_aux [] s'
           end
  end.

Definition word_runs (s : text) : list text := word_runs_aux [] s.

(** [re.findall(r'\b[a-zA-Z]{3,}\b', s)].  A match starts and ends at a word
    boundary and holds letters only, so it is a whole maximal run of [\w]
    characters; the matches are the runs made of at least three letters. *)
Definition findall_words (s : text) : list text :=
  filter (fun w => forallb is_alpha w && (3 <=? List.length w))
         (word_runs s).

(** The words one title contributes to the counter. *)
Definition title_words (title : text) : list text :=
  filter (fun w => negb (is_stopword w)) (findall_words (lower title)).

(** The counter after the loop over the posts. *)
Definition word_counts (posts : list post) : counter :=
  fold_left (fun counts p => counter_update counts (title_words (post_title p)))
            posts [].

Definition extract_common_themes (posts : list post) (top_n : nat)
  : list text :=
  map fst (most_common top_n (word_counts posts)).

(** The posts of the theme scenario: a dict with the title only. *)
Definition titled (title : string) : post :=
  Post None (Some (str title)) None None None None None None None.

Definition crm_posts : list post :=
  [ titled "Best CRM for freelancers";
    titled "CRM alternatives for small business";
    titled "Why is CRM software so expensive" ].

(** ** niche_analyzer.py: aggregated insights and opportunities *)

Record InsightCategory : Type := {
  pain_points : list text;
  questions : list text;
  frustrations : list text;
  requests : list text;
  solutions_mentioned : list text;
  beliefs : list text;
  perspectives : list text
}.

(** One dict of [generate_saas_opportunities]'s result. *)
Record opportunity : Type := {
  o_type : text;
  o_signal : text;
  o_opportunity : text
}.

Definition pain_opportunity (pain : text) : opportunity :=
  {| o_type := str "pain_point";
     o_signal := pain;
     o_opportunity := str "Tool to address: " ++ firstn 100 pain ++ str "..." |}.

Definition question_opportunity (q : text) : opportunity :=
  {| o_type := str "question";
     o_signal := q;
     o_opportunity := str "Solution that answers: " ++ firstn 100 q ++ str "..." |}.

Definition request_opportunity (r : text) : opportunity :=
  {| o_type := str "feature_request";
     o_signal := r;
     o_opportunity := str "Build feature: " ++ firstn 100 r ++ str "..." |}.

Definition generate_saas_opportunities (insights : InsightCategory)
  : list opportunity :=
  map pain_opportunity (firstn 10 (pain_points insights)) ++
  map question_opportunity (firstn 10 (questions insights)) ++
  map request_opportunity (firstn 10 (requests insights)).

(** The text that precedes the fragment in the [opportunity] field. *)
Definition opportunity_prefix (type : text) : text :=
  if text_eqb type (str "pain_point") then str "Tool to address: "
  else if text_eqb type (str "question") then str "Solution that answers: "
  else str "Build feature: ".

(** ** researcher.py: data *)

(** The dict of one community in a search response. *)
Record sub_data : Type := {
  sd_display_name : option text;
  sd_name : option text;
  sd_subscribers : option Z;
  sd_public_description : option text
}.

(** An element of the response list: [sub.get('data', sub)] reads the dict
    under its [data] key when there is one, the element itself otherwise. *)
Record sub_entry : Type := {
  se_data : option sub_data;
  se_self : sub_data
}.

Record search_response : Type := {
  sr_error : option text;
  sr_children : option (list sub_entry);
  sr_subreddits : option (list sub_entry)
}.

Record post_entry : Type := {
  pe_data : option post;
  pe_self : post
}.

Record posts_response : Type := {
  pr_error : option text;
  pr_children : option (list post_entry);
  pr_posts : option (list post_entry)
}.

(** A candidate community as discovery records it. *)
Record community : Type := {
  name : text;
  subscribers : Z;
  description : text;
  url : text
}.

(** The dict that [analyze_subreddit] returns. *)
Record analysis : Type := {
  a_subreddit : text;
  a_posts_analyzed : nat;
  a_top_posts : list post;
  a_post_categories : counter;
  a_insights : insights;
  a_themes : list text
}.

Record ResearchReport : Type := {
  r_niche : text;
  r_timestamp : text;
  r_subreddits_found : list community;
  r_total_posts_analyzed : nat;
  r_top_posts : list post;
  r_pain_points : list text;
  r_questions : list text;
  r_frustrations : list text;
  r_requests : list text;
  r_solutions_mentioned : list text;
  r_beliefs : list text;
  r_common_themes : list text;
  r_saas_opportunities : list opportunity
}.

(** [a or b] on lists: [a] unless it is empty. *)
Definition or_list {A : Type} (a b : list A) : list A :=
  match a with [] => b | _ => a end.

Definition is_some {A : Type} (o : option A) : bool :=
  match o with Some _ => true | None => false end.

(** [key in d] for the dict of communities found so far. *)
Definition has_key (k : text) (d : list (text * community)) : bool :=
  existsb (fun e => text_eqb (fst e) k) d.

(** [posts.sort(key=lambda x: x.get('score', 0), reverse=True)] *)
Definition post_score (p : post) : Z := get (p_score p) 0%Z.

(** ** researcher.py: the workflow *)

Section Researcher.

(** [list(set(xs))]: the enumeration order of a set is not fixed. *)
Variable set_to_list : list text -> list text.

(** [self.api]: the decoded responses of the two endpoints. *)
Variable search_subreddits : text -> nat -> search_response.
Variable get_top_posts_year : text -> nat -> posts_response.

(** [datetime.now().isoformat()] *)
Variable now : text.

(** The list that [generate_niche_variations] builds before it removes
    the duplicates. *)
Definition variations_of (niche : text) : list text :=
  let base := strip (lower niche) in
  let words := split_ws base in
  [ base;
    base ++ str " software";
    base ++ str " tool";
    base ++ str " app";
    base ++ str " automation";
    base ++ str " help";
    base ++ str " tips";
    str "best " ++ base;
    base ++ str " for beginners";
    base ++ str " problems" ]
  ++ (if ends_with (str "s") base then [removelast base]
      else [base ++ str "s"])
  ++ (if 1 <? List.length words
      then [ hd [] words; last words []; join (str " ") (rev words) ]
      else []).

Definition generate_niche_variations (niche : text) : list text :=
  set_to_list (variations_of niche).

(** The body of the loop over [subreddits]: one element of a response. *)
Definition add_subreddit (all_subreddits : list (text * community))
           (sub : sub_entry) : list (text * community) :=
  let sub_data := get (se_data sub) (se_self sub) in
  let name := or_text (get (sd_display_name sub_data) [])
                      (get (sd_name sub_data) []) in
  if nonempty name && negb (has_key name all_subreddits)
  then all_subreddits ++
       [ (name,
          {| name := name;
             subscribers := get (sd_subscribers sub_data) 0%Z;
             description :=
               firstn 200 (get (sd_public_description sub_data) []);
             url := str "https://reddit.com/r/" ++ name |}) ]
  else all_subreddits.

(** The elements a response carries: [data.children], or [subreddits]
    when that is missing or empty. *)
Definition response_subreddits (result : search_response) : list sub_entry :=
  or_list (get (sr_children result) []) (get (sr_subreddits result) []).

(** The body of the loop over the variations, on the response received. *)
Definition add_response (all_subreddits : list (text * community))
           (result : search_response) : list (text * community) :=
  if is_some (sr_error result) then all_subreddits
  else fold_left add_subreddit (response_subreddits result) all_subreddits.

(** Discovery from the responses of the queried variations, in query
    order. *)
Definition discover_from (results : list search_response)
           (max_subreddits : nat) : list community :=
  let all_subreddits := fold_left add_response results [] in
  let sorted_subs := sort_desc subscribers (map snd all_subreddits) in
  firstn max_subreddits sorted_subs.

(** The responses to the first five variations. *)
Definition search_results (niche : text) : list search_response :=
  map (fun variation => search_subreddits variation 10)
      (firstn 5 (generate_niche_variations niche)).

Definition discover_subreddits (niche : text) (max_subreddits : nat)
  : list community :=
  discover_from (search_results niche) max_subreddits.

Definition process_post (subreddit : text) (entry : post_entry) : post :=
  let post_data := get (pe_data entry) (pe_self entry) in
  {| p_id := Some (get (p_id post_data) []);
     p_title := Some (get (p_title post_data) []);
     p_selftext := Some (get (p_selftext post_data) []);
     p_body := None;
     p_score := Some (get (p_score post_data) 0%Z);
     p_num_comments := Some (get (p_num_comments post_data) 0%Z);
     p_url := Some (get (p_url post_data) []);
     p_created_utc := Some (get (p_created_utc post_data) 0%Z);
     p_subreddit := Some subreddit |}.

Definition get_top_posts (subreddit : text) (limit : nat) : list post :=
  let result := get_top_posts_year subreddit limit in
  if is_some (pr_error result) then []
  else
    let posts := or_list (get (pr_children result) [])
                         (get (pr_posts result) []) in
    map (process_post subreddit) posts.

Definition extend_insights (acc add : insights) : insights :=
  {| i_pain_points := i_pain_points acc ++ i_pain_points add;
     i_questions := i_questions acc ++ i_questions add;
     i_requests := i_requests acc ++ i_requests add;
     i_solutions := i_solutions acc ++ i_solutions add;
     i_beliefs := i_beliefs acc ++ i_beliefs add |}.

Definition initial_post_categories : counter :=
  map (fun label => (label, 0)) intent_labels.

Definition analyze_subreddit (subreddit : text) (post_limit : nat)
  : analysis :=
  let posts := get_top_posts subreddit post_limit in
  let step (st : counter * insights) (p : post) :=
    (counter_add (categorize_post_by_intent p) (fst st),
     extend_insights (snd st) (analyze_post p)) in
  let st := fold_left step posts (initial_post_categories, no_insights) in
  {| a_subreddit := subreddit;
     a_posts_analyzed := List.length posts;
     a_top_posts := firstn 10 posts;
     a_post_categories := fst st;
     a_insights := snd st;
     a_themes := extract_common_themes posts 20 |}.

(** [list(set(xs))[:cap]] *)
Definition dedup_cap (cap : nat) (xs : list text) : list text :=
  firstn cap (set_to_list xs).

(** Step 3 of [research_niche]. *)
Definition finalize_insights (all_insights : InsightCategory)
  : InsightCategory :=
  {| pain_points := dedup_cap 50 (pain_points all_insights);
     questions := dedup_cap 50 (questions all_insights);
     frustrations := frustrations all_insights;
     requests := dedup_cap 50 (requests all_insights);
     solutions_mentioned := dedup_cap 30 (solutions_mentioned all_insights);
     beliefs := dedup_cap 30 (beliefs all_insights);
     perspectives := perspectives all_insights |}.

(** The deduplication loop of [run_research] in research_watermark.py. *)
Definition finalize_watermark (all_insights : insights) : insights :=
  {| i_pain_points := dedup_cap 30 (i_pain_points all_insights);
     i_questions := dedup_cap 30 (i_questions all_insights);
     i_requests := dedup_cap 30 (i_requests all_insights);
     i_solutions := dedup_cap 30 (i_solutions all_insights);
     i_beliefs := dedup_cap 30 (i_beliefs all_insights) |}.

(** What the loop over the communities of [research_niche] accumulates. *)
Record run_state : Type := {
  all_insights : InsightCategory;
  all_posts : list post;
  all_themes : list text;
  total_posts : nat
}.

Definition initial_run_state : run_state :=
  {| all_insights :=
       {| pain_points := []; questions := []; frustrations := [];
          requests := []; solutions_mentioned := []; beliefs := [];
          perspectives := [] |};
     all_posts := [];
     all_themes := [];
     total_posts := 0 |}.

Definition analyze_step (posts_per_subreddit : nat) (st : run_state)
           (sub : community) : run_state :=
  let analysis := analyze_subreddit (name sub) posts_per_subreddit in
  let insights := a_insights analysis in
  let acc := all_insights st in
  {| all_insights :=
       {| pain_points := pain_points acc ++ i_pain_points insights;
          questions := questions acc ++ i_questions insights;
          frustrations := frustrations acc;
          requests := requests acc ++ i_requests insights;
          solutions_mentioned :=
            solutions_mentioned acc ++ i_solutions insights;
          beliefs := beliefs acc ++ i_beliefs insights;
          perspectives := perspectives acc |};
     all_posts := all_posts st ++ a_top_posts analysis;
     all_themes := all_themes st ++ a_themes analysis;
     total_posts := total_posts st + a_posts_analyzed analysis |}.

(** [research_niche]; [None] is the Python [None] it returns when
    discovery finds nothing. *)
Definition research_niche (niche : text) (max_subreddits : nat)
           (posts_per_subreddit : nat) : option ResearchReport :=
  let subreddits := discover_subreddits niche max_subreddits in
  match subreddits with
  | [] => None
  | _ =>
      let st := fold_left (analyze_step posts_per_subreddit)
                          (firstn max_subreddits subreddits)
                          initial_run_state in
      let insights := finalize_insights (all_insights st) in
      let top_themes :=
        map fst (most_common 20 (counter_update [] (all_themes st))) in
      let opportunities := generate_saas_opportunities insights in
      let sorted_posts := sort_desc post_score (all_posts st) in
      Some {| r_niche := niche;
              r_timestamp := now;
              r_subreddits_found := subreddits;
              r_total_posts_analyzed := total_posts st;
              r_top_posts := firstn 20 sorted_posts;
              r_pain_points := pain_points insights;
              r_questions := questions insights;
              r_frustrations := frustrations insights;
              r_requests := requests insights;
              r_solutions_mentioned := solutions_mentioned insights;
              r_beliefs := beliefs insights;
              r_common_themes := top_themes;
              r_saas_opportunities := opportunities |}
  end.

(** Every post that the run fetches and analyzes, community by
    community. *)
Definition fetched_posts (niche : text) (max_subreddits : nat)
           (posts_per_subreddit : nat) : list post :=
  flat_map (fun sub => get_top_posts (name sub) posts_per_subreddit)
           (firstn max_subreddits
                   (discover_subreddits niche max_subreddits)).

End Researcher.

(** Two aggregated records hold the same elements bucket by bucket. *)
Definition same_elements (a b : InsightCategory) : Prop :=
  Permutation (pain_points a) (pain_points b) /\
  Permutation (questions a) (questions b) /\
  Permutation (requests a) (requests b) /\
  Permutation (solutions_mentioned a) (solutions_mentioned b) /\
  Permutation (beliefs a) (beliefs b).

Definition same_buckets (a b : insights) : Prop :=
  forall ty, Permutation (bucket ty a) (bucket ty b).

(** The number of distinct values of a list. *)
Definition distinct_count (xs : list text) : nat :=
  List.length (nodup text_eq_dec xs).

(** Descending in the key. *)
Definition desc {A : Type} (key : A -> Z) (a b : A) : Prop :=
  (key b <= key a)%Z.

(** The posts the run keeps of each community: the first ten of its
    response. *)
Definition kept_posts (get_top_posts_year : text -> nat -> posts_response)
           (subreddits : list community) (posts_per_subreddit : nat)
  : list post :=
  flat_map (fun sub =>
              firstn 10 (get_top_posts get_top_posts_year (name sub)
                                       posts_per_subreddit))
           subreddits.

(** ** A run with one community of eleven posts *)

(** [list(set(xs))] in one admissible order. *)
Definition distinct_in_order (xs : list text) : list text :=
  nodup text_eq_dec xs.

Definition bare_post (id : string) (score : Z) : post_entry :=
  {| pe_data := None;
     pe_self := Post (Some (str id)) (Some (str "Weekly thread")) (Some [])
                     None (Some score) (Some 0%Z) (Some []) (Some 0%Z)
                     None |}.

Definition one_community (variation : text) (limit : nat) : search_response :=
  {| sr_error := None;
     sr_children := None;
     sr_subreddits :=
       Some [ {| se_data := None;
                 se_self := {| sd_display_name := Some (str "saas");
                               sd_name := None;
                               sd_subscribers := Some 1000%Z;
                               sd_public_description := None |} |} ] |}.

Definition eleven_posts (subreddit : text) (limit : nat) : posts_response :=
  {| pr_error := None;
     pr_children := None;
     pr_posts :=
       Some (map (fun id => bare_post id 1)
                 ["p01"; "p02"; "p03"; "p04"; "p05"; "p06"; "p07"; "p08";
                  "p09"; "p10"]%string
             ++ [bare_post "p11" 100]) |}.

(** The search fails for every variation. *)
Definition search_fails (variation : text) (limit : nat) : search_response :=
  {| sr_error := Some (str "503 Server Error");
     sr_children := None;
     sr_subreddits := None |}.

(** ** Discovery, seen from the responses *)

(** The record that [add_subreddit] builds for an element. *)
Definition candidate_of (sub : sub_entry) : community :=
  let sub_data := get (se_data sub) (se_self sub) in
  let name := or_text (get (sd_display_name sub_data) [])
                      (get (sd_name sub_data) []) in
  {| name := name;
     subscribers := get (sd_subscribers sub_data) 0%Z;
     description := firstn 200 (get (sd_public_description sub_data) []);
     url := str "https://reddit.com/r/" ++ name |}.

(** The named candidates of one response; none when it reports an error. *)
Definition response_candidates (result : search_response) : list community :=
  if is_some (sr_error result) then []
  else filter (fun c => nonempty (name c))
              (map candidate_of (response_subreddits result)).

(** The candidates of the responses, in the order received. *)
Definition candidates (results : list search_response) : list community :=
  flat_map response_candidates results.

(** The first candidate of a list that has the given name. *)
Definition first_named (k : text) (cs : list community) : option community :=
  find (fun c => text_eqb (name c) k) cs.

(** The ranking that [discover_from] truncates. *)
Definition ranked_subreddits (results : list search_response)
  : list community :=
  sort_desc subscribers (map snd (fold_left add_response results [])).

(** ** Themes, seen from the titles *)

(** The words of all the titles, in reading order. *)
Definition all_title_words (posts : list post) : list text :=
  flat_map (fun p => title_words (post_title p)) posts.

(** How often a word occurs in a list of words. *)
Definition occurrences (w : text) (ws : list text) : nat :=
  count_occ text_eq_dec ws w.

(** The position at which a word is first met (the length of the list when
    it is not in it). *)
Fixpoint first_index (w : text) (ws : list text) : nat :=
  match ws with
  | [] => 0
  | v :: ws' => if text_eqb v w then 0 else S (first_index w ws')
  end.

(** [a] is ranked ahead of [b]: it is more frequent, or as frequent and met
    earlier. *)
Definition ranked_ahead (ws : list text) (a b : text) : Prop :=
  occurrences b ws < occurrences a ws \/
  (occurrences a ws = occurrences b ws /\ first_index a ws < first_index b ws).

(** Every word of the counter, most common first: [most_common()]. *)
Definition theme_ranking (posts : list post) : list text :=
  map fst (sort_desc (fun e => Z.of_nat (snd e)) (word_counts posts)).

(** Descending in the key, and in the order [R] among equal keys. *)
Definition key_then {A : Type} (key : A -> Z) (R : A -> A -> Prop) (a b : A)
  : Prop :=
  (key b < key a)%Z \/ (key a = key b /\ R a b).

(** ** Invariants of the two loops *)

(** What the dict of discovery holds about the candidates seen so far. *)
Record discovered (d : list (text * community)) (cs : list community)
  : Prop := {
  keys_are_names : forall e, In e d -> fst e = name (snd e);
  keys_distinct : NoDup (map fst d);
  first_wins :
    forall e, In e d -> first_named (fst e) cs = Some (snd e);
  all_seen : forall c, In c cs -> In (name c) (map fst d)
}.


(** The counter [c] once the words [pre] of [full] have been counted. *)
Record counted (full : list text) (c : counter) (pre : list text) : Prop := {
  counted_NoDup : NoDup (map fst c);
  counted_keys : forall w, In w (map fst c) <-> In w pre;
  counted_order :
    StronglySorted (fun a b => first_index a full < first_index b full)
                   (map fst c);
  counted_counts : forall k n, In (k, n) c -> n = occurrences k pre
}.

(** The ranking of the theme scenario. *)
Definition crm_ranking : list text :=
  map str ["crm"; "best"; "freelancers"; "alternatives"; "small";
           "business"; "software"; "expensive"]%string.

(** A string without uppercase letters: [s.lower() == s]. *)
Definition lowercase (s : text) : Prop := lower s = s.

(** ** The scenarios of the module's self-test *)

Definition invoicing_post : post :=
  Post None
       (Some (str "How do I automate my invoicing? Spending too much time on this"))
       (Some (str "I'm frustrated with the current tools. They're all so complicated and expensive. Does anyone know a better alternative to QuickBooks?"))
       None None None None None None.

(** ** niche_analyzer.py: comments *)

(** A comment as [analyze_comments] reads it. *)
Record comment : Type := Comment {
  c_body : option text;
  c_text : option text
}.

(** [comment.get('body', '') or comment.get('text', '')] *)
Definition comment_body (c : comment) : text :=
  or_text (get (c_body c) []) (get (c_text c) []).

(** The dict built for one comment body. *)
Definition body_insights (body : text) : insights :=
  {| i_pain_points := _extract_sentence_with_pattern body pain;
     i_questions := _extract_sentence_with_pattern body question;
     i_requests := _extract_sentence_with_pattern body request;
     i_solutions := _extract_sentence_with_pattern body solution;
     i_beliefs := _extract_sentence_with_pattern body belief |}.

Definition analyze_comments (comments : list comment) : insights :=
  fold_left
    (fun all_insights c =>
       let body := comment_body c in
       if nonempty body
       then extend_insights all_insights (body_insights body)
       else all_insights)
    comments no_insights.

(** [sub] occurs in [s] as a run of consecutive characters. *)
Definition part_of (sub s : text) : Prop :=
  exists before after, s = before ++ sub ++ after.

(** A post with a title and a [selftext] only. *)
Definition text_post (title body : string) : post :=
  Post None (Some (str title)) (Some (str body)) None None None None None None.

(** ** Analysis of one community, seen from its posts *)

(** How many of the posts have the given intent. *)
Definition intent_count (label : text) (posts : list post) : nat :=
  List.length
    (filter (fun p => text_eqb (categorize_post_by_intent p) label) posts).

(** The analysis of a community from which no post was fetched. *)
Definition empty_analysis (subreddit : text) : analysis :=
  {| a_subreddit := subreddit;
     a_posts_analyzed := 0;
     a_top_posts := [];
     a_post_categories := initial_post_categories;
     a_insights := no_insights;
     a_themes := [] |}.

(** The posts endpoint fails for every community. *)
Definition posts_fail (subreddit : text) (limit : nat) : posts_response :=
  {| pr_error := Some (str "429 Too Many Requests");
     pr_children := None;
     pr_posts := None |}.

(** A listing whose elements wrap the post under [data], with a [body] key
    and no [selftext]. *)
Definition wrapped_posts (subreddit : text) (limit : nat) : posts_response :=
  {| pr_error := None;
     pr_children :=
       Some [ {| pe_data :=
                   Some (Post (Some (str "t3_a")) (Some (str "I made a CRM"))
                              None (Some (str "I hate spreadsheets"))
                              (Some 12%Z) None None None None);
                 pe_self := Post None None None None None None None None
                                 None |} ];
     pr_posts := None |}.

(** ** Discovery, seen from the niche *)

(** Five of the suffixes that [generate_niche_variations] appends. *)
Definition five_suffixes : list text :=
  map str [" software"; " tool"; " app"; " automation"; " help"]%string.

(** The variations that are searched. *)
Definition queried_variations (set_to_list : list text -> list text)
           (niche : text) : list text :=
  firstn 5 (generate_niche_variations set_to_list niche).

(** An element of a search response that gives its name under [name]. *)
Definition named_sub (n : string) (subs : option Z) : sub_entry :=
  {| se_data := None;
     se_self := {| sd_display_name := None;
                   sd_name := Some (str n);
                   sd_subscribers := subs;
                   sd_public_description := Some (str "About CRMs") |} |}.

(** A search response with a repeated name, an element without a name and
    one without a subscriber count. *)
Definition repeated_community (variation : text) (limit : nat)
  : search_response :=
  {| sr_error := None;
     sr_children := Some [];
     sr_subreddits :=
       Some [named_sub "crm" (Some 10%Z); named_sub "" (Some 99%Z);
             named_sub "crm" (Some 500%Z); named_sub "sales" None] |}.

(** ** The report, seen from the fetched posts *)

(** The field of the aggregate that a pattern family fills. *)
Definition category_bucket (ty : pattern_type) (c : InsightCategory)
  : list text :=
  match ty with
  | pain => pain_points c
  | question => questions c
  | request => requests c
  | solution => solutions_mentioned c
  | belief => beliefs c
  end.

(** The field of the report that a pattern family fills. *)
Definition report_bucket (ty : pattern_type) (r : ResearchReport)
  : list text :=
  match ty with
  | pain => r_pain_points r
  | question => r_questions r
  | request => r_requests r
  | solution => r_solutions_mentioned r
  | belief => r_beliefs r
  end.

(** The cap of step 3 of [research_niche] for each family. *)
Definition bucket_cap (ty : pattern_type) : nat :=
  match ty with
  | pain | question | request => 50
  | solution | belief => 30
  end.

(** The fragments of a family in all the given posts, in order. *)
Definition fragments_of (ty : pattern_type) (posts : list post) : list text :=
  flat_map (fun p => bucket ty (analyze_post p)) posts.

(** A listing of three posts, out of score order. *)
Definition three_posts (subreddit : text) (limit : nat) : posts_response :=
  {| pr_error := None;
     pr_children := None;
     pr_posts :=
       Some [ {| pe_data := None;
                 pe_self := Post (Some (str "a"))
                                 (Some (str "I hate my CRM. It is too expensive"))
                                 (Some (str "Any alternative to it?"))
                                 None (Some 3%Z) None None None None |};
              {| pe_data := None;
                 pe_self := Post (Some (str "b"))
                                 (Some (str "I hate my CRM"))
                                 None None (Some 40%Z) None None None None |};
              {| pe_data := None;
                 pe_self := Post (Some (str "c")) (Some (str "CRM tips"))
                                 None None None None None None None |} ] |}.

(** The ranking [Counter(ws).most_common()] of a list of words. *)
Definition word_ranking (ws : list text) : list text :=
  map fst (sort_desc (fun e => Z.of_nat (snd e)) (counter_update [] ws)).

(** The themes of the analyzed communities, community by community. *)
Definition community_themes
           (posts_api : text -> nat -> posts_response)
           (subreddits : list community) (per : nat) : list text :=
  flat_map (fun sub =>
              extract_common_themes
                (get_top_posts posts_api (name sub) per) 20)
           subreddits.

(** In how many of the communities the word is one of the themes. *)
Definition communities_with_theme
           (posts_api : text -> nat -> posts_response)
           (subreddits : list community) (per : nat) (theme : text) : nat :=
  List.length
    (filter (fun sub =>
               existsb (text_eqb theme)
                       (extract_common_themes
                          (get_top_posts posts_api (name sub) per) 20))
            subreddits).

(** ** api_client.py: the requests *)

(** A query parameter: a string or a number. *)
Inductive param : Type :=
| PText (t : text)
| PNat (n : nat).

(** What [_request] hands to [requests.get]: the endpoint and [params]. *)
Record api_request : Type := {
  rq_endpoint : text;
  rq_params : list (text * param)
}.

Section ApiClient.

(** [requests.get(..)], [raise_for_status()] and [.json()]: the decoded
    body, or the message of the [RequestException] raised. *)
Variable http_search : api_request -> text + search_response.
Variable http_posts : api_request -> text + posts_response.

(** The dict [{"error": str(e), "status": "failed"}], as discovery and
    [get_top_posts] read it. *)
Definition search_failure (e : text) : search_response :=
  {| sr_error := Some e; sr_children := None; sr_subreddits := None |}.

Definition posts_failure (e : text) : posts_response :=
  {| pr_error := Some e; pr_children := None; pr_posts := None |}.

Definition _request_search (rq : api_request) : search_response :=
  match http_search rq with
  | inl e => search_failure e
  | inr body => body
  end.

Definition _request_posts (rq : api_request) : posts_response :=
  match http_posts rq with
  | inl e => posts_failure e
  | inr body => body
  end.

(** The request of [search]; [subreddit] is added when it is given and not
    empty. *)
Definition search_request (query search_type : text) (subreddit : option text)
           (sort time_filter : text) (limit : nat) : api_request :=
  {| rq_endpoint := str "/v1/reddit/search";
     rq_params :=
       [ (str "search", PText query);
         (str "type", PText search_type);
         (str "sort", PText sort);
         (str "time", PText time_filter);
         (str "limit", PNat limit) ]
       ++ match subreddit with
          | Some (c :: s) => [(str "subreddit", PText (c :: s))]
          | _ => []
          end |}.

Definition client_search (query search_type : text) (subreddit : option text)
           (sort time_filter : text) (limit : nat) : search_response :=
  _request_search
    (search_request query search_type subreddit sort time_filter limit).

Definition client_search_subreddits (query : text) (limit : nat)
  : search_response :=
  client_search query (str "subreddits") None (str "relevance") (str "all")
                limit.

(** The request of [get_posts]: the URL of the community and the sort. *)
Definition posts_request (subreddit sort : text) : api_request :=
  {| rq_endpoint := str "/v1/reddit/posts";
     rq_params :=
       [ (str "url", PText (str "https://www.reddit.com/r/" ++ subreddit));
         (str "filter", PText sort) ] |}.

Definition client_get_posts (subreddit sort time_filter : text) (limit : nat)
  : posts_response :=
  _request_posts (posts_request subreddit sort).

Definition client_get_top_posts_year (subreddit : text) (limit : nat)
  : posts_response :=
  client_get_posts subreddit (str "top") (str "year") limit.

End ApiClient.

(** A transport on which every call raises. *)
Definition search_unreachable (rq : api_request) : text + search_response :=
  inl (str "Connection refused").

(** A transport that answers the posts endpoint with one post whose title
    is the [filter] parameter sent. *)
Definition echo_filter (rq : api_request) : text + posts_response :=
  inr {| pr_error := None;
         pr_children := None;
         pr_posts :=
           Some [ {| pe_data := None;
                     pe_self :=
                       Post None
                            (match rq_params rq with
                             | [_; (_, PText sort)] => Some sort
                             | _ => None
                             end)
                            None None None None None None None |} ] |}.

(** ** research_watermark.py: the run

    The constant [ad_targeting] block and the niche, timestamp and
    [subreddits_checked] entries of the report are left out: the run does
    not compute them. *)

Definition TARGET_SUBREDDITS : list text :=
  map str
  [ "PhotoshopRequest"; "graphic_design"; "VideoEditing"; "Piracy";
    "photoshop"; "AfterEffects"; "Filmmakers"; "editors"; "shutterstock";
    "ContentCreators"; "NewTubers"; "socialmedia"; "DigitalArt";
    "freelance" ]%string.

Definition watermark_keywords : list text :=
  map str
  [ "watermark"; "remove"; "stock"; "shutterstock"; "getty"; "adobe stock";
    "logo"; "overlay"; "copyright"; "istock"; "stock photo"; "stock image";
    "stock footage" ]%string.

(** An element of a listing: a dict, or any other value. *)
Inductive item : Type :=
| NotDict
| Dict (entry : post_entry).

(** The value under [body], [data] or [posts]: a list, or a dict with an
    optional [children] list. *)
Inductive payload : Type :=
| Items (posts : list item)
| Wrapper (children : option (list item)).

Record listing_response : Type := {
  lr_error : option text;
  lr_body : option payload;
  lr_data : option payload;
  lr_posts : option payload
}.

(** The dict appended to [all_posts]. *)
Record post_info : Type := {
  pi_subreddit : text;
  pi_title : text;
  pi_body : text;
  pi_score : Z;
  pi_comments : Z;
  pi_url : text;
  pi_relevant : bool
}.

(** The computed part of the report of [run_research]. *)
Record watermark_report : Type := {
  w_total_posts : nat;
  w_relevant_posts : nat;
  w_top_relevant_posts : list post_info;
  w_insights : insights
}.

(** The empty dict [{}]. *)
Definition empty_post : post :=
  Post None None None None None None None None None.

(** [post.get('data', post) if isinstance(post, dict) else {}] *)
Definition item_data (it : item) : post :=
  match it with
  | Dict entry => get (pe_data entry) (pe_self entry)
  | NotDict => empty_post
  end.

(** A keyword occurs in the lowercased title or in the lowercased
    [selftext]. *)
Definition is_relevant (post_data : post) : bool :=
  let title := lower (get (p_title post_data) []) in
  let body := lower (get (p_selftext post_data) []) in
  existsb (fun kw => contains kw title || contains kw body) watermark_keywords.

Definition make_post_info (sub : text) (post_data : post) : post_info :=
  {| pi_subreddit := sub;
     pi_title := get (p_title post_data) [];
     pi_body := firstn 300 (get (p_selftext post_data) []);
     pi_score := get (p_score post_data) 0%Z;
     pi_comments := get (p_num_comments post_data) 0%Z;
     pi_url := get (p_url post_data) [];
     pi_relevant := is_relevant post_data |}.

(** [result.get('body', result.get('data', result.get('posts', [])))], then
    [children] when that is a dict. *)
Definition listing_items (result : listing_response) : list item :=
  let posts :=
    match lr_body result with
    | Some p => p
    | None =>
        match lr_data result with
        | Some p => p
        | None => get (lr_posts result) (Items [])
        end
    end in
  match posts with
  | Items l => l
  | Wrapper children => get children []
  end.

Section Watermark.

Variable set_to_list : list text -> list text.

(** [api.get_posts(sub, sort=..)] *)
Variable get_posts : text -> text -> listing_response.

(** The body of the loop over the posts of a listing. *)
Definition watermark_post_step (sub : text)
           (st : list post_info * insights) (it : item)
  : list post_info * insights :=
  let post_data := item_data it in
  let all_posts := fst st ++ [make_post_info sub post_data] in
  if is_relevant post_data
  then (all_posts, extend_insights (snd st) (analyze_post post_data))
  else (all_posts, snd st).

(** The body of the loop over [TARGET_SUBREDDITS]. *)
Definition watermark_sub_step (st : list post_info * insights) (sub : text)
  : list post_info * insights :=
  let result := get_posts sub (str "hot") in
  if is_some (lr_error result) then st
  else fold_left (watermark_post_step sub) (listing_items result) st.

Definition run_research : watermark_report :=
  let st := fold_left watermark_sub_step TARGET_SUBREDDITS ([], no_insights) in
  let all_posts := fst st in
  let all_insights := finalize_watermark set_to_list (snd st) in
  let relevant_posts :=
    sort_desc pi_score (filter pi_relevant all_posts) in
  {| w_total_posts := List.length all_posts;
     w_relevant_posts := List.length relevant_posts;
     w_top_relevant_posts := firstn 20 relevant_posts;
     w_insights := all_insights |}.

(** The elements of all the listings that arrived without an error. *)
Definition listed_items : list (text * item) :=
  flat_map
    (fun sub =>
       let result := get_posts sub (str "hot") in
       if is_some (lr_error result) then []
       else map (fun it => (sub, it)) (listing_items result))
    TARGET_SUBREDDITS.

End Watermark.

(** The keywords that decide relevance on their own: the other six hold
    ["stock"]. *)
Definition core_keywords : list text :=
  map str ["watermark"; "remove"; "stock"; "getty"; "logo"; "overlay";
           "copyright"]%string.

(** A listing for [editors] only, under [body], and an error elsewhere. *)
Definition editors_listing (sub sort : text) : listing_response :=
  if text_eqb sub (str "editors")
  then {| lr_error := None;
          lr_body :=
            Some (Wrapper (Some
              [ Dict {| pe_data := None;
                        pe_self :=
                          Post None (Some (str "How to remove a Getty logo?"))
                               (Some (str "I can't afford the license."))
                               None (Some 7%Z) None None None None |};
                NotDict;
                Dict {| pe_data := None;
                        pe_self :=
                          Post None (Some (str "I hate rendering"))
                               None None (Some 90%Z) None None None None |} ]));
          lr_data := Some (Items []);
          lr_posts := None |}
  else {| lr_error := Some (str "timeout"); lr_body := None;
          lr_data := None; lr_posts := None |}.

(** ** Phrase patterns *)

(** An alternative of a phrase pattern as the tables write them: not
    empty, without any of the four separators, and ending in a word
    character. *)
Definition clean_alt (alt : text) : bool :=
  nonempty alt &&
  forallb (fun x => negb (is_sentence_end (lower_char x))) alt &&
  is_word (last alt " "%char).

Definition clean_alts (alts : list text) : bool := forallb clean_alt alts.

Definition phrase_pattern (p : pattern) : bool :=
  match p with
  | WordAlt alts => clean_alts alts
  | QuestionMarkAtEnd => false
  end.

(** The patterns of a family without [\?$]. *)
Definition phrase_patterns (ty : pattern_type) : list pattern :=
  match ty with
  | question => removelast QUESTION_PATTERNS
  | _ => compiled_patterns ty
  end.

(** Some segment of the text is selected for the family. *)
Definition has_fragment (s : text) (ty : pattern_type) : bool :=
  match _extract_sentence_with_pattern s ty with
  | [] => false
  | _ :: _ => true
  end.

(** The posts [run_research] has recorded when its two loops end: the list
    [all_posts]. *)
Definition recorded_posts (get_posts : text -> text -> listing_response)
  : list post_info :=
  fst (fold_left (watermark_sub_step get_posts) TARGET_SUBREDDITS
                 ([], no_insights)).

(** ** Records with null values *)

(** What the decoded JSON holds under a text key of a post: a string, or
    [null], which Python reads as [None]. *)
Inductive json_value : Type :=
| JNull
| JString (s : text).

(** A post as the classifier receives it: each of the three keys it reads
    is absent or holds a value. *)
Record raw_post : Type := RawPost {
  raw_title : option json_value;
  raw_selftext : option json_value;
  raw_body : option json_value
}.

Inductive exception : Type :=
| AttributeError.

Inductive outcome (A : Type) : Type :=
| Returns (a : A)
| Raises (e : exception).

Arguments Returns {A} a.
Arguments Raises {A} e.

Module Raw.

(** [post.get(key, '')] *)
Definition get (field : option json_value) : json_value :=
  match field with
  | Some v => v
  | None => JString []
  end.

(** The truth value of [x] in [x or y]: [None] and [''] are false. *)
Definition truth (v : json_value) : bool :=
  match v with
  | JNull => false
  | JString s => nonempty s
  end.

Definition or_value (x y : json_value) : json_value :=
  if truth x then x else y.

(** [f"{v}"]: the string itself, and ["None"] for [None]. *)
Definition format (v : json_value) : text :=
  match v with
  | JNull => str "None"
  | JString s => s
  end.

(** [v.lower()]: [None] has no such attribute. *)
Definition lower_method (v : json_value) : outcome text :=
  match v with
  | JNull => Raises AttributeError
  | JString s => Returns (lower s)
  end.

Definition analyze_post (post : raw_post) : outcome insights :=
  let title := get (raw_title post) in
  let body := or_value (get (raw_selftext post)) (get (raw_body post)) in
  let full_text := format title ++ str ". " ++ format body in
  Returns
    {| i_pain_points := _extract_sentence_with_pattern full_text pain;
       i_questions := _extract_sentence_with_pattern full_text question;
       i_requests := _extract_sentence_with_pattern full_text request;
       i_solutions := _extract_sentence_with_pattern full_text solution;
       i_beliefs := _extract_sentence_with_pattern full_text belief |}.

Definition categorize_post_by_intent (post : raw_post) : outcome text :=
  match lower_method (get (raw_title post)) with
  | Raises e => Raises e
  | Returns title =>
      Returns
        (if contains (str "?") title || _matches_patterns title question
         then str "question"
         else if _matches_patterns title pain then str "complaint"
         else if _matches_patterns title request then str "request"
         else if existsb (fun word => contains word title) showcase_phrases
         then str "showcase"
         else str "discussion")
  end.

End Raw.

(** The dict of a post whose present fields are strings. *)
Definition raw_of (p : post) : raw_post :=
  {| raw_title := option_map JString (p_title p);
     raw_selftext := option_map JString (p_selftext p);
     raw_body := option_map JString (p_body p) |}.

(** The record with the empty string under every absent key. *)
Definition with_defaults (r : raw_post) : raw_post :=
  {| raw_title := Some (Raw.get (raw_title r));
     raw_selftext := Some (Raw.get (raw_selftext r));
     raw_body := Some (Raw.get (raw_body r)) |}.

(** A key that is absent, or holds [null] or the empty string. *)
Definition blank (field : option json_value) : Prop :=
  field = None \/ field = Some JNull \/ field = Some (JString []).

(** [{'title': None}] *)
Definition null_title : raw_post :=
  {| raw_title := Some JNull; raw_selftext := None; raw_body := None |}.

(** * Properties *)

(** ** Splitting and stripping *)

Lemma re_split_not_nil (s : text) : re_split s <> [].
Proof.
  destruct s as [|c s]; simpl; [discriminate|].
  destruct (is_sentence_end c); [discriminate|].
  destruct (re_split s); discriminate.
Qed.

Lemma re_split_app_sep (a b : text) (d : ascii) :
  is_sentence_end d = true ->
  re_split (a ++ d :: b) = re_split a ++ re_split b.
Proof.
  intros Hd. induction a as [|c a IH]; simpl.
  - now rewrite Hd.
  - destruct (is_sentence_end c).
    + now rewrite IH.
    + rewrite IH. pose proof (re_split_not_nil a) as Hn.
      destruct (re_split a); [contradiction|reflexivity].
Qed.

Lemma re_split_cons_keep (c : ascii) (b : text) :
  is_sentence_end c = false ->
  exists p ps, re_split b = p :: ps /\ re_split (c :: b) = (c :: p) :: ps.
Proof.
  intros Hc. simpl. rewrite Hc.
  pose proof (re_split_not_nil b) as Hn.
  destruct (re_split b) as [|p ps]; [contradiction|].
  now exists p, ps.
Qed.

Lemma re_split_no_separator (s : text) :
  Forall (fun piece => forallb (fun c => negb (is_sentence_end c)) piece = true)
         (re_split s).
Proof.
  induction s as [|c s IH]; simpl.
  - repeat constructor.
  - destruct (is_sentence_end c) eqn:Hc.
    + constructor; [reflexivity|exact IH].
    + destruct (re_split s) as [|p ps]; [repeat constructor; simpl; now rewrite Hc|].
      inversion IH; subst. constructor; [|assumption].
      simpl. now rewrite Hc.
Qed.

Lemma re_split_length (s : text) :
  List.length (re_split s) = S (List.length (filter is_sentence_end s)).
Proof.
  induction s as [|c s IH]; simpl; [reflexivity|].
  destruct (is_sentence_end c); simpl; [now rewrite IH|].
  pose proof (re_split_not_nil s) as Hn.
  destruct (re_split s); [contradiction|exact IH].
Qed.


Lemma drop_while_all (p : ascii -> bool) (s : text) :
  forallb p s = true -> drop_while p s = [].
Proof.
  induction s as [|c s IH]; simpl; [reflexivity|].
  destruct (p c); simpl; [exact IH|discriminate].
Qed.

Lemma drop_while_nil_all (p : ascii -> bool) (s : text) :
  drop_while p s = [] -> forallb p s = true.
Proof.
  induction s as [|c s IH]; simpl; [reflexivity|].
  destruct (p c); simpl; [exact IH|discriminate].
Qed.

Lemma strip_space_cons (c : ascii) (s : text) :
  is_space c = true -> strip (c :: s) = strip s.
Proof. intros H. unfold strip, lstrip. simpl. now rewrite H. Qed.

Lemma strip_empty_iff (s : text) :
  nonempty (strip s) = false <-> whitespace_only s = true.
Proof.
  unfold strip, rstrip, lstrip, whitespace_only. split.
  - intros H. induction s as [|c s IH]; simpl in *; [reflexivity|].
    destruct (is_space c) eqn:Hc; simpl; [now apply IH|].
    exfalso.
    assert (Hr : rev (c :: s) = rev s ++ [c]) by reflexivity.
    rewrite Hr in H.
    assert (Hd : forall l, drop_while is_space (l ++ [c]) <> []).
    { induction l as [|x l IHl]; simpl.
      - rewrite Hc. discriminate.
      - destruct (is_space x); [exact IHl|discriminate]. }
    specialize (Hd (rev s)).
    destruct (drop_while is_space (rev s ++ [c])) as [|y l] eqn:E; [now apply Hd|].
    simpl in H. destruct (rev l ++ [y]) eqn:E2; [|discriminate].
    now destruct (rev l).
  - intros H. rewrite (drop_while_all _ _ H). reflexivity.
Qed.

Lemma filter_andb {A : Type} (f g : A -> bool) (l : list A) :
  filter (fun x => f x && g x) l = filter g (filter f l).
Proof.
  induction l as [|x l IH]; simpl; [reflexivity|].
  destruct (f x); simpl; [destruct (g x)|]; now rewrite IH.
Qed.

Lemma extract_as_filter (s : text) (ty : pattern_type) :
  _extract_sentence_with_pattern s ty =
  filter (fun seg => _matches_patterns seg ty) (segments s).
Proof. unfold _extract_sentence_with_pattern, segments. apply filter_andb. Qed.

Lemma segments_title_body (title body : text) :
  segments (title ++ str ". " ++ body) = segments title ++ segments body.
Proof.
  unfold segments. simpl.
  rewrite (re_split_app_sep title (" "%char :: body) "."%char eq_refl).
  rewrite map_app, filter_app. f_equal.
  destruct (re_split_cons_keep " "%char body eq_refl) as (p & ps & E1 & E2).
  rewrite E2, E1. simpl. now rewrite (strip_space_cons " "%char p eq_refl).
Qed.

Lemma segments_spec (s seg : text) :
  In seg (segments s) <->
  exists piece, In piece (re_split s) /\ whitespace_only piece = false /\
                seg = strip piece.
Proof.
  unfold segments. rewrite filter_In, in_map_iff. split.
  - intros [(piece & E & Hin) Hne]. exists piece. subst seg.
    repeat split; [assumption|].
    destruct (whitespace_only piece) eqn:Hw; [|reflexivity].
    apply strip_empty_iff in Hw. congruence.
  - intros (piece & Hin & Hw & ->). split; [now exists piece|].
    destruct (nonempty (strip piece)) eqn:Hne; [reflexivity|].
    apply strip_empty_iff in Hne. congruence.
Qed.


Lemma analyze_post_bucket (p : post) (ty : pattern_type) :
  bucket ty (analyze_post p) =
  _extract_sentence_with_pattern (post_title p ++ str ". " ++ post_body p) ty.
Proof. now destruct ty. Qed.

(** ** The classifier *)


(** The post of the self-test at the end of niche_analyzer.py. *)
Example invoicing_post_insights :
  i_pain_points (analyze_post invoicing_post) =
    map str ["I'm frustrated with the current tools";
             "They're all so complicated and expensive"]%string /\
  i_questions (analyze_post invoicing_post) =
    map str ["How do I automate my invoicing";
             "Does anyone know a better alternative to QuickBooks"]%string /\
  i_solutions (analyze_post invoicing_post) = [] /\
  categorize_post_by_intent invoicing_post = str "question".
Proof. vm_compute. repeat split; reflexivity. Qed.

(** ** Matching does not depend on letter case *)

Ltac each_char c :=
  destruct c as [[|] [|] [|] [|] [|] [|] [|] [|]]; reflexivity.

Lemma is_word_lower_char (c : ascii) : is_word (lower_char c) = is_word c.
Proof. each_char c. Qed.

Lemma lower_char_idem (c : ascii) : lower_char (lower_char c) = lower_char c.
Proof. each_char c. Qed.

Lemma is_space_lower_char (c : ascii) : is_space (lower_char c) = is_space c.
Proof. each_char c. Qed.

Lemma is_question_mark_lower_char (c : ascii) :
  Ascii.eqb (lower_char c) "?" = Ascii.eqb c "?".
Proof. each_char c. Qed.

Lemma is_line_feed_lower_char (c : ascii) :
  Ascii.eqb (lower_char c) "010" = Ascii.eqb c "010".
Proof. each_char c. Qed.

Lemma lower_idem (s : text) : lower (lower s) = lower s.
Proof.
  unfold lower. rewrite map_map. apply map_ext. intros c. apply lower_char_idem.
Qed.

Lemma opt_word_lower (c : option ascii) :
  opt_word (option_map lower_char c) = opt_word c.
Proof. destruct c; simpl; [apply is_word_lower_char|reflexivity]. Qed.

Lemma word_boundary_lower (prev next : option ascii) :
  word_boundary (option_map lower_char prev) (option_map lower_char next) =
  word_boundary prev next.
Proof. unfold word_boundary. now rewrite !opt_word_lower. Qed.

Lemma hd_error_lower (s : text) :
  hd_error (lower s) = option_map lower_char (hd_error s).
Proof. now destruct s. Qed.

Lemma match_literal_lower (lit : text) (prev : option ascii) (s : text) :
  match_literal lit (option_map lower_char prev) (lower s) =
  option_map (fun r => (option_map lower_char (fst r), lower (snd r)))
             (match_literal lit prev s).
Proof.
  revert prev s. induction lit as [|a lit IH]; intros prev s; simpl.
  - reflexivity.
  - destruct s as [|c s]; simpl; [reflexivity|].
    rewrite lower_char_idem.
    destruct (Ascii.eqb (lower_char a) (lower_char c)); [|reflexivity].
    apply (IH (Some c) s).
Qed.

Lemma match_words_here_lower (alts : list text) (prev : option ascii) (s : text) :
  match_words_here alts (option_map lower_char prev) (lower s) =
  match_words_here alts prev s.
Proof.
  unfold match_words_here.
  rewrite hd_error_lower, word_boundary_lower. f_equal.
  induction alts as [|alt alts IH]; simpl; [reflexivity|].
  rewrite IH, match_literal_lower. f_equal.
  destruct (match_literal alt prev s) as [[last rest]|]; simpl; [|reflexivity].
  now rewrite hd_error_lower, word_boundary_lower.
Qed.

Lemma search_words_lower (alts : list text) (prev : option ascii) (s : text) :
  search_words alts (option_map lower_char prev) (lower s) =
  search_words alts prev s.
Proof.
  revert prev. induction s as [|c s IH]; intros prev.
  - simpl. rewrite orb_false_r.
    rewrite <- (match_words_here_lower alts prev []). simpl.
    now rewrite orb_false_r.
  - change (lower (c :: s)) with (lower_char c :: lower s).
    cbn [search_words].
    change (lower_char c :: lower s) with (lower (c :: s)).
    rewrite match_words_here_lower. f_equal. apply (IH (Some c)).
Qed.

Lemma search_question_end_lower (s : text) :
  search_question_end (lower s) = search_question_end s.
Proof.
  induction s as [|c s IH]; [reflexivity|].
  change (lower (c :: s)) with (lower_char c :: lower s).
  cbn [search_question_end]. rewrite IH, is_question_mark_lower_char.
  f_equal. f_equal.
  destruct s as [|n [|m s]]; simpl; [reflexivity| |reflexivity].
  apply is_line_feed_lower_char.
Qed.

Lemma search_lower (p : pattern) (s : text) : search p (lower s) = search p s.
Proof.
  destruct p as [alts|]; simpl.
  - apply (search_words_lower alts None).
  - apply search_question_end_lower.
Qed.

Lemma matches_patterns_lower (s : text) (ty : pattern_type) :
  _matches_patterns (lower s) ty = _matches_patterns s ty.
Proof.
  unfold _matches_patterns.
  induction (compiled_patterns ty) as [|p ps IH]; simpl; [reflexivity|].
  now rewrite IH, search_lower.
Qed.

Lemma contains_question_mark_lower (s : text) :
  contains (str "?") (lower s) = contains (str "?") s.
Proof.
  induction s as [|c s IH]; [reflexivity|].
  change (lower (c :: s)) with (lower_char c :: lower s).
  cbn [contains]. rewrite IH. f_equal.
  unfold str. cbn [list_ascii_of_string starts_with].
  rewrite !andb_true_r, !(Ascii.eqb_sym "?"%char).
  apply is_question_mark_lower_char.
Qed.

(** ** Intent of a post *)

Lemma categorize_by_title (p : post) :
  categorize_post_by_intent p =
  let t := post_title p in
  if asks_question t then str "question"
  else if _matches_patterns t pain then str "complaint"
  else if _matches_patterns t request then str "request"
  else if has_showcase_phrase t then str "showcase"
  else str "discussion".
Proof.
  unfold categorize_post_by_intent, asks_question, has_showcase_phrase,
    post_title.
  cbv zeta. now rewrite contains_question_mark_lower, !matches_patterns_lower.
Qed.


(** ** Missing fields *)

Lemma get_absent_or_empty (field : option text) :
  absent_or_empty field -> get field [] = [].
Proof. now intros [-> | ->]. Qed.

(** On a record whose present fields are strings: a missing [title],
    [selftext] or [body] is read as the empty string ([selftext] first,
    [body] when [selftext] is missing or empty); and a record whose title
    and body texts are missing or empty gives five empty buckets and the
    intent [discussion]. *)
Lemma classify_defaults (p : post) :
  (p_title p = None -> post_title p = []) /\
  (p_selftext p = None -> post_body p = get (p_body p) []) /\
  (p_selftext p = None -> p_body p = None -> post_body p = []) /\
  (absent_or_empty (p_title p) ->
   absent_or_empty (p_selftext p) ->
   absent_or_empty (p_body p) ->
   analyze_post p = no_insights /\
   categorize_post_by_intent p = str "discussion").
Proof.
  unfold post_title, post_body.
  split; [now intros ->|]. split; [now intros ->|].
  split; [now intros -> ->|].
  intros Ht Hs Hb. split.
  - unfold analyze_post, post_title, post_body.
    rewrite (get_absent_or_empty _ Ht), (get_absent_or_empty _ Hs),
      (get_absent_or_empty _ Hb).
    reflexivity.
  - unfold categorize_post_by_intent.
    rewrite (get_absent_or_empty _ Ht). reflexivity.
Qed.

(** ** Null values *)

Lemma raw_analyze_typed (p : post) :
  Raw.analyze_post (raw_of p) = Returns (analyze_post p).
Proof.
  unfold Raw.analyze_post, analyze_post, post_title, post_body, raw_of.
  cbn [raw_title raw_selftext raw_body].
  destruct (p_title p) as [t|], (p_selftext p) as [[|c s]|],
    (p_body p) as [b|]; reflexivity.
Qed.

Lemma raw_categorize_typed (p : post) :
  Raw.categorize_post_by_intent (raw_of p) =
  Returns (categorize_post_by_intent p).
Proof.
  unfold Raw.categorize_post_by_intent, categorize_post_by_intent, raw_of.
  cbn [raw_title]. now destruct (p_title p).
Qed.

Lemma raw_categorize_raises (r : raw_post) :
  Raw.categorize_post_by_intent r = Raises AttributeError <->
  raw_title r = Some JNull.
Proof.
  unfold Raw.categorize_post_by_intent.
  destruct (raw_title r) as [[|s]|]; cbn [Raw.get Raw.lower_method];
    split; intros H; try reflexivity; discriminate H.
Qed.

Lemma raw_categorize_label (r : raw_post) :
  raw_title r <> Some JNull ->
  exists label,
    Raw.categorize_post_by_intent r = Returns label /\ In label intent_labels.
Proof.
  intros Hn. unfold Raw.categorize_post_by_intent.
  destruct (raw_title r) as [[|s]|]; [contradiction| |];
    cbn [Raw.get Raw.lower_method]; eexists; (split; [reflexivity|]);
    repeat match goal with
           | |- In (if ?c then _ else _) _ => destruct c
           end;
    unfold intent_labels; cbn [map In]; tauto.
Qed.

Lemma raw_defaults (r : raw_post) :
  Raw.analyze_post (with_defaults r) = Raw.analyze_post r /\
  Raw.categorize_post_by_intent (with_defaults r) =
    Raw.categorize_post_by_intent r.
Proof. split; reflexivity. Qed.

Lemma raw_blank (r : raw_post) :
  blank (raw_title r) -> blank (raw_selftext r) -> blank (raw_body r) ->
  Raw.analyze_post r = Returns no_insights /\
  (raw_title r <> Some JNull ->
   Raw.categorize_post_by_intent r = Returns (str "discussion")).
Proof.
  destruct r as [t s b]. cbn [raw_title raw_selftext raw_body].
  intros [-> | [-> | ->]] [-> | [-> | ->]] [-> | [-> | ->]];
    (split; [reflexivity|]); intros Hn;
    first [reflexivity | now contradiction Hn].
Qed.

(** C3.  The classification raises on a record the collaborator can send:
    with [null] under [title], [categorize_post_by_intent] calls [.lower()]
    on [None] and raises [AttributeError], while [analyze_post] formats the
    same value and returns.  That is the only record on which either
    operation raises: [categorize_post_by_intent] raises exactly when the
    title is [null] and otherwise returns one of the five labels, and
    [analyze_post] always returns.  An absent key behaves as a key holding
    the empty string; on records whose present fields are strings the two
    operations return what the typed classifier computes; and a record
    whose title and body texts are absent, [null] or empty gives five empty
    buckets and, unless the title is [null], the intent [discussion]. *)
Theorem categorize_raises_on_null_title :
  Raw.categorize_post_by_intent null_title = Raises AttributeError /\
  Raw.analyze_post null_title = Returns no_insights /\
  (forall r, Raw.categorize_post_by_intent r = Raises AttributeError <->
             raw_title r = Some JNull) /\
  (forall r, raw_title r <> Some JNull ->
             exists label, Raw.categorize_post_by_intent r = Returns label /\
                           In label intent_labels) /\
  (forall r, exists i, Raw.analyze_post r = Returns i) /\
  (forall r, Raw.analyze_post (with_defaults r) = Raw.analyze_post r /\
             Raw.categorize_post_by_intent (with_defaults r) =
               Raw.categorize_post_by_intent r) /\
  (forall p, Raw.analyze_post (raw_of p) = Returns (analyze_post p) /\
             Raw.categorize_post_by_intent (raw_of p) =
               Returns (categorize_post_by_intent p)) /\
  (forall r, blank (raw_title r) -> blank (raw_selftext r) ->
             blank (raw_body r) ->
             Raw.analyze_post r = Returns no_insights /\
             (raw_title r <> Some JNull ->
              Raw.categorize_post_by_intent r = Returns (str "discussion"))).
Proof.
  split; [reflexivity|]. split; [reflexivity|].
  split; [exact raw_categorize_raises|].
  split; [exact raw_categorize_label|].
  split; [intros r; eexists; reflexivity|].
  split; [exact raw_defaults|].
  split; [intros p; split;
          [apply raw_analyze_typed|apply raw_categorize_typed]|].
  exact raw_blank.
Qed.

(** ** Deduplication and caps *)

Lemma NoDup_firstn_of {A : Type} (n : nat) (l : list A) :
  NoDup l -> NoDup (firstn n l).
Proof.
  revert n. induction l as [|x l IH]; intros [|n] H; simpl; try constructor.
  - inversion H; subst. intros Hin. apply H2.
    eapply (In_nth_error) in Hin. destruct Hin as [i Hi].
    clear -Hi. revert n i Hi. induction l as [|y l IHl]; intros [|n] [|i] Hi;
      simpl in *; try discriminate.
    + injection Hi as ->. now left.
    + right. eapply IHl. exact Hi.
  - inversion H; subst. now apply IH.
Qed.

Lemma In_firstn {A : Type} (n : nat) (l : list A) (x : A) :
  In x (firstn n l) -> In x l.
Proof.
  revert n. induction l as [|y l IH]; intros [|n]; simpl; try tauto.
  intros [->|H]; [now left|right; eauto].
Qed.

Section SetOrder.

Variable set_to_list : list text -> list text.
Hypothesis set_to_list_NoDup : forall xs, NoDup (set_to_list xs).
Hypothesis set_to_list_In :
  forall xs x, In x (set_to_list xs) <-> In x xs.

Lemma set_to_list_distinct (xs : list text) :
  Permutation (set_to_list xs) (nodup text_eq_dec xs).
Proof.
  apply NoDup_Permutation; [apply set_to_list_NoDup|apply NoDup_nodup|].
  intros x. now rewrite set_to_list_In, nodup_In.
Qed.

Lemma set_to_list_of_NoDup (xs : list text) :
  NoDup xs -> Permutation (set_to_list xs) xs.
Proof.
  intros H. apply NoDup_Permutation; [apply set_to_list_NoDup|exact H|].
  intros x. apply set_to_list_In.
Qed.

Lemma dedup_cap_NoDup (cap : nat) (xs : list text) :
  NoDup (dedup_cap set_to_list cap xs).
Proof. apply NoDup_firstn_of, set_to_list_NoDup. Qed.

Lemma dedup_cap_length (cap : nat) (xs : list text) :
  List.length (dedup_cap set_to_list cap xs) = Nat.min cap (distinct_count xs).
Proof.
  unfold dedup_cap, distinct_count.
  rewrite length_firstn.
  now rewrite (Permutation_length (set_to_list_distinct xs)).
Qed.

Lemma dedup_cap_again (cap : nat) (xs : list text) :
  Permutation (dedup_cap set_to_list cap (dedup_cap set_to_list cap xs))
              (dedup_cap set_to_list cap xs).
Proof.
  pose proof (dedup_cap_NoDup cap xs) as Hnd.
  pose proof (set_to_list_of_NoDup _ Hnd) as Hp.
  unfold dedup_cap at 1. rewrite firstn_all2; [exact Hp|].
  rewrite (Permutation_length Hp), dedup_cap_length. apply Nat.le_min_l.
Qed.

(** C4.  Step 3 of the full run replaces [pain_points], [questions] and
    [requests] by [list(set(..))[:50]] and [solutions_mentioned] and
    [beliefs] by [list(set(..))[:30]]; the single-keyword script uses 30 for
    its five buckets.  Whatever order the set is enumerated in, the
    finalized bucket has no duplicates, holds values of the accumulated
    bucket only, has as many elements as there are distinct values up to
    the cap (all of them when they fit), and finalizing it again gives the
    same elements, still without duplicates and within the cap. *)
Theorem finalize_deduplicates_and_caps :
  (forall c,
      pain_points (finalize_insights set_to_list c) =
        dedup_cap set_to_list 50 (pain_points c) /\
      questions (finalize_insights set_to_list c) =
        dedup_cap set_to_list 50 (questions c) /\
      requests (finalize_insights set_to_list c) =
        dedup_cap set_to_list 50 (requests c) /\
      solutions_mentioned (finalize_insights set_to_list c) =
        dedup_cap set_to_list 30 (solutions_mentioned c) /\
      beliefs (finalize_insights set_to_list c) =
        dedup_cap set_to_list 30 (beliefs c)) /\
  (forall i ty,
      bucket ty (finalize_watermark set_to_list i) =
        dedup_cap set_to_list 30 (bucket ty i)) /\
  (forall cap xs,
      NoDup (dedup_cap set_to_list cap xs) /\
      incl (dedup_cap set_to_list cap xs) xs /\
      List.length (dedup_cap set_to_list cap xs) =
        Nat.min cap (distinct_count xs) /\
      (distinct_count xs <= cap -> incl xs (dedup_cap set_to_list cap xs)) /\
      Permutation (dedup_cap set_to_list cap (dedup_cap set_to_list cap xs))
                  (dedup_cap set_to_list cap xs) /\
      NoDup (dedup_cap set_to_list cap (dedup_cap set_to_list cap xs)) /\
      List.length (dedup_cap set_to_list cap (dedup_cap set_to_list cap xs))
        <= cap) /\
  (forall c,
      same_elements
        (finalize_insights set_to_list (finalize_insights set_to_list c))
        (finalize_insights set_to_list c)) /\
  (forall i,
      same_buckets
        (finalize_watermark set_to_list (finalize_watermark set_to_list i))
        (finalize_watermark set_to_list i)).
Proof.
  split; [intros c; repeat split|].
  split; [intros i ty; now destruct ty|].
  split; [|split].
  - intros cap xs. repeat split.
    + apply dedup_cap_NoDup.
    + intros x Hx. unfold dedup_cap in Hx. apply In_firstn in Hx.
      apply (proj1 (set_to_list_In xs x) Hx).
    + apply dedup_cap_length.
    + intros Hle x Hx. unfold dedup_cap. rewrite firstn_all2.
      * now apply set_to_list_In.
      * now rewrite (Permutation_length (set_to_list_distinct xs)).
    + apply dedup_cap_again.
    + apply dedup_cap_NoDup.
    + rewrite dedup_cap_length. apply Nat.le_min_l.
  - intros c. repeat split; simpl; apply dedup_cap_again.
  - intros i ty. destruct ty; simpl; apply dedup_cap_again.
Qed.

End SetOrder.

Lemma finalize_deduplicates_and_caps_witness :
  Permutation
    (dedup_cap (nodup text_eq_dec) 2
       (dedup_cap (nodup text_eq_dec) 2
          [str "slow"; str "pricey"; str "slow"; str "buggy"]))
    (dedup_cap (nodup text_eq_dec) 2
       [str "slow"; str "pricey"; str "slow"; str "buggy"]).
Proof.
  apply (finalize_deduplicates_and_caps
           (nodup text_eq_dec)
           (fun xs => NoDup_nodup text_eq_dec xs)
           (fun xs x => nodup_In text_eq_dec xs x)).
Defined.

(** ** Opportunities *)

Lemma opportunity_shape (o : opportunity) (i : InsightCategory) :
  In o (generate_saas_opportunities i) ->
  In (o_type o) (map str ["pain_point"; "question"; "feature_request"]%string)
  /\ o_opportunity o =
     opportunity_prefix (o_type o) ++ firstn 100 (o_signal o) ++ str "...".
Proof.
  unfold generate_saas_opportunities. intros H.
  rewrite !in_app_iff, !in_map_iff in H.
  destruct H as [(x & <- & _) | [(x & <- & _) | (x & <- & _)]];
    (split; [simpl; auto|reflexivity]).
Qed.

(** C5.  The result is the records of the first ten pain points, then of
    the first ten questions, then of the first ten requests: one record per
    fragment, of type [pain_point], [question] and [feature_request]
    respectively, whose [signal] is the fragment and whose [opportunity] is
    the type's fixed prefix, the first 100 characters of the fragment and
    ["..."]; there are at most 30 records. *)
Theorem generate_saas_opportunities_first_ten (i : InsightCategory) :
  map o_signal (generate_saas_opportunities i) =
    firstn 10 (pain_points i) ++ firstn 10 (questions i) ++
    firstn 10 (requests i) /\
  map o_type (generate_saas_opportunities i) =
    repeat (str "pain_point") (Nat.min 10 (List.length (pain_points i))) ++
    repeat (str "question") (Nat.min 10 (List.length (questions i))) ++
    repeat (str "feature_request") (Nat.min 10 (List.length (requests i))) /\
  (forall o, In o (generate_saas_opportunities i) ->
             o_opportunity o =
             opportunity_prefix (o_type o) ++ firstn 100 (o_signal o) ++
             str "...") /\
  opportunity_prefix (str "pain_point") = str "Tool to address: " /\
  opportunity_prefix (str "question") = str "Solution that answers: " /\
  opportunity_prefix (str "feature_request") = str "Build feature: " /\
  List.length (generate_saas_opportunities i) =
    Nat.min 10 (List.length (pain_points i)) +
    Nat.min 10 (List.length (questions i)) +
    Nat.min 10 (List.length (requests i)) /\
  List.length (generate_saas_opportunities i) <= 30.
Proof.
  assert (Hlen : List.length (generate_saas_opportunities i) =
                 Nat.min 10 (List.length (pain_points i)) +
                 Nat.min 10 (List.length (questions i)) +
                 Nat.min 10 (List.length (requests i))).
  { unfold generate_saas_opportunities.
    rewrite !length_app, !length_map, !length_firstn. lia. }
  assert (Hty : forall (f : text -> opportunity) (t : text) (l : list text),
             (forall x, o_type (f x) = t) ->
             map o_type (map f l) = repeat t (List.length l)).
  { intros f t l Hf. induction l as [|x l IH]; simpl; [reflexivity|].
    now rewrite Hf, IH. }
  repeat split.
  - unfold generate_saas_opportunities. rewrite !map_app, !map_map. simpl.
    now rewrite !map_id.
  - unfold generate_saas_opportunities. rewrite !map_app.
    rewrite (Hty pain_opportunity (str "pain_point")),
      (Hty question_opportunity (str "question")),
      (Hty request_opportunity (str "feature_request")); try reflexivity.
    now rewrite !length_firstn.
  - intros o Ho. now apply (opportunity_shape o i).
  - exact Hlen.
  - rewrite Hlen. lia.
Qed.

(** ** The descending stable sort *)

Section SortDesc.

Context {A : Type} (key : A -> Z).

Lemma insert_desc_perm (x : A) (l : list A) :
  Permutation (insert_desc key x l) (x :: l).
Proof.
  induction l as [|y l IH]; simpl; [reflexivity|].
  destruct (key y <=? key x)%Z; [reflexivity|].
  rewrite IH. apply perm_swap.
Qed.

Lemma sort_desc_perm (l : list A) : Permutation (sort_desc key l) l.
Proof.
  induction l as [|x l IH]; simpl; [reflexivity|].
  rewrite insert_desc_perm. now constructor.
Qed.

Lemma insert_desc_sorted (x : A) (l : list A) :
  StronglySorted (desc key) l ->
  StronglySorted (desc key) (insert_desc key x l).
Proof.
  induction l as [|y l IH]; intros Hs; simpl.
  - repeat constructor.
  - inversion Hs as [|? ? Hl Hall]; subst.
    destruct (key y <=? key x)%Z eqn:E.
    + apply Z.leb_le in E. constructor; [exact Hs|].
      constructor; [exact E|].
      eapply Forall_impl; [|exact Hall]. unfold desc. intros; lia.
    + apply Z.leb_gt in E. constructor; [now apply IH|].
      apply (Permutation_Forall (Permutation_sym (insert_desc_perm x l))).
      constructor; [unfold desc; lia|exact Hall].
Qed.

Lemma sort_desc_sorted (l : list A) :
  StronglySorted (desc key) (sort_desc key l).
Proof.
  induction l as [|x l IH]; simpl; [constructor|].
  now apply insert_desc_sorted.
Qed.

(** Stability: the elements of any one key keep their order. *)
Lemma insert_desc_stable (k : Z) (x : A) (l : list A) :
  StronglySorted (desc key) l ->
  filter (fun y => (key y =? k)%Z) (insert_desc key x l) =
  filter (fun y => (key y =? k)%Z) (x :: l).
Proof.
  induction l as [|y l IH]; intros Hs; [reflexivity|].
  cbn [insert_desc]. destruct (key y <=? key x)%Z eqn:E; [reflexivity|].
  apply Z.leb_gt in E. inversion Hs; subst.
  cbn [filter]. rewrite (IH H1). cbn [filter].
  destruct (key x =? k)%Z eqn:Ex, (key y =? k)%Z eqn:Ey; try reflexivity.
  apply Z.eqb_eq in Ex, Ey. lia.
Qed.

Lemma sort_desc_stable (k : Z) (l : list A) :
  filter (fun y => (key y =? k)%Z) (sort_desc key l) =
  filter (fun y => (key y =? k)%Z) l.
Proof.
  induction l as [|x l IH]; [reflexivity|].
  cbn [sort_desc fold_right].
  change (fold_right (insert_desc key) [] l) with (sort_desc key l).
  rewrite insert_desc_stable by apply sort_desc_sorted.
  cbn [filter]. now rewrite IH.
Qed.

Lemma sort_desc_length (l : list A) :
  List.length (sort_desc key l) = List.length l.
Proof. apply Permutation_length, sort_desc_perm. Qed.

Lemma sort_desc_In (l : list A) (x : A) :
  In x (sort_desc key l) <-> In x l.
Proof.
  split; apply Permutation_in;
    [apply sort_desc_perm|apply Permutation_sym, sort_desc_perm].
Qed.

End SortDesc.

Lemma insert_desc_map {A B : Type} (f : A -> B) (key : A -> Z) (key' : B -> Z)
      (x : A) (l : list A) :
  key x = key' (f x) ->
  (forall y, In y l -> key y = key' (f y)) ->
  map f (insert_desc key x l) = insert_desc key' (f x) (map f l).
Proof.
  intros Hx. induction l as [|y l IH]; intros Hl; simpl; [reflexivity|].
  rewrite <- Hx, <- (Hl y (or_introl eq_refl)).
  destruct (key y <=? key x)%Z; simpl; [reflexivity|].
  f_equal. apply IH. intros z Hz. apply Hl. now right.
Qed.

Lemma sort_desc_map {A B : Type} (f : A -> B) (key : A -> Z) (key' : B -> Z)
      (l : list A) :
  (forall y, In y l -> key y = key' (f y)) ->
  map f (sort_desc key l) = sort_desc key' (map f l).
Proof.
  induction l as [|x l IH]; intros Hl; simpl; [reflexivity|].
  change (fold_right (insert_desc key) [] l) with (sort_desc key l).
  rewrite (insert_desc_map f key key').
  - f_equal. apply IH. intros y Hy. apply Hl. now right.
  - apply Hl. now left.
  - intros y Hy. apply Hl. right. now apply sort_desc_In in Hy.
Qed.

Lemma sort_desc_ext {A : Type} (key key' : A -> Z) (l : list A) :
  (forall y, In y l -> key y = key' y) ->
  sort_desc key l = sort_desc key' l.
Proof.
  intros H. rewrite <- (map_id (sort_desc key l)).
  rewrite (sort_desc_map (fun y => y) key key' l H). now rewrite map_id.
Qed.

(** ** The posts of the report *)

Lemma analyze_steps_posts
      (posts_api : text -> nat -> posts_response) (per : nat)
      (subs : list community) (st : run_state) :
  all_posts (fold_left (analyze_step posts_api per) subs st) =
    all_posts st ++ kept_posts posts_api subs per /\
  total_posts (fold_left (analyze_step posts_api per) subs st) =
    total_posts st +
    List.length (flat_map (fun sub => get_top_posts posts_api (name sub) per)
                          subs).
Proof.
  revert st. induction subs as [|sub subs IH]; intros st; simpl.
  - now rewrite app_nil_r, Nat.add_0_r.
  - destruct (IH (analyze_step posts_api per st sub)) as [E1 E2].
    rewrite E1, E2. simpl. rewrite <- app_assoc, length_app. split; [reflexivity|lia].
Qed.

(** C6, as the claim states it, fails: a community answers with eleven
    posts, the last of them with the highest score; the report's
    [top_posts] are the sorted first ten, not the sorted corpus. *)
Lemma top_posts_not_the_corpus :
  exists report,
    research_niche distinct_in_order one_community eleven_posts
                   (str "2026-01-01T00:00:00") (str "saas") 5 50
    = Some report /\
    r_top_posts report <>
    firstn 20 (sort_desc post_score
                 (fetched_posts distinct_in_order one_community eleven_posts
                                (str "saas") 5 50)).
Proof.
  eexists. split; [reflexivity|].
  intros H. apply (f_equal (@List.length post)) in H.
  vm_compute in H. discriminate.
Qed.

Lemma research_niche_report
      (set_to_list : list text -> list text)
      (search_api : text -> nat -> search_response)
      (posts_api : text -> nat -> posts_response)
      (now niche : text) (max_subreddits per : nat)
      (report : ResearchReport) :
  research_niche set_to_list search_api posts_api now niche max_subreddits per
    = Some report ->
  let st :=
    fold_left (analyze_step posts_api per)
      (firstn max_subreddits
         (discover_subreddits set_to_list search_api niche max_subreddits))
      initial_run_state in
  r_top_posts report = firstn 20 (sort_desc post_score (all_posts st)) /\
  r_total_posts_analyzed report = total_posts st.
Proof.
  unfold research_niche.
  destruct (discover_subreddits set_to_list search_api niche max_subreddits);
    [discriminate|].
  intros H. injection H as <-. split; reflexivity.
Qed.

Lemma StronglySorted_firstn {A : Type} (R : A -> A -> Prop) (n : nat)
      (l : list A) :
  StronglySorted R l -> StronglySorted R (firstn n l).
Proof.
  revert n. induction l as [|x l IH]; intros [|n] Hl; simpl; try constructor.
  - inversion Hl; subst. now apply IH.
  - inversion Hl; subst. rewrite Forall_forall in *.
    intros y Hy. apply H2. revert Hy. apply In_firstn.
Qed.

(** C6, amended.  When the run produces a report, its [top_posts] are the
    posts kept of each analyzed community (the first ten of its response, in
    the order of the communities) sorted by score, highest first, posts of
    equal score in the order kept, and cut to 20; [total_posts_analyzed]
    counts every fetched post. *)
Theorem top_posts_of_kept
        (set_to_list : list text -> list text)
        (search_api : text -> nat -> search_response)
        (posts_api : text -> nat -> posts_response)
        (now niche : text) (max_subreddits per : nat)
        (report : ResearchReport) :
  research_niche set_to_list search_api posts_api now niche max_subreddits per
    = Some report ->
  let subreddits :=
    firstn max_subreddits
           (discover_subreddits set_to_list search_api niche max_subreddits) in
  let kept := kept_posts posts_api subreddits per in
  r_top_posts report = firstn 20 (sort_desc post_score kept) /\
  StronglySorted (desc post_score) (r_top_posts report) /\
  (forall k, filter (fun p => (post_score p =? k)%Z) (sort_desc post_score kept)
             = filter (fun p => (post_score p =? k)%Z) kept) /\
  List.length (r_top_posts report) <= 20 /\
  r_total_posts_analyzed report =
    List.length (fetched_posts set_to_list search_api posts_api niche
                               max_subreddits per).
Proof.
  intros H. cbv zeta.
  destruct (research_niche_report _ _ _ _ _ _ _ _ H) as [Et Ec]. cbv zeta in Et, Ec.
  destruct (analyze_steps_posts posts_api per
              (firstn max_subreddits
                 (discover_subreddits set_to_list search_api niche
                                      max_subreddits))
              initial_run_state) as [E1 E2].
  change (all_posts initial_run_state) with (@nil post) in E1.
  change (total_posts initial_run_state) with 0 in E2.
  rewrite E1, app_nil_l in Et. rewrite E2, Nat.add_0_l in Ec.
  rewrite Et, Ec.
  split; [reflexivity|].
  split; [apply StronglySorted_firstn, sort_desc_sorted|].
  split; [intros k; apply sort_desc_stable|].
  split; [rewrite length_firstn; apply Nat.le_min_l|].
  reflexivity.
Qed.

Lemma top_posts_of_kept_witness :
  exists report,
    research_niche distinct_in_order one_community eleven_posts
                   (str "2026-01-01T00:00:00") (str "saas") 5 50
    = Some report /\
    List.length (r_top_posts report) = 10 /\
    r_total_posts_analyzed report = 11.
Proof.
  eexists. split; [reflexivity|].
  pose proof (top_posts_of_kept distinct_in_order one_community eleven_posts
                (str "2026-01-01T00:00:00") (str "saas") 5 50 _ eq_refl) as H.
  cbv zeta in H. destruct H as (E & _ & _ & _ & T).
  split; [rewrite E|rewrite T]; reflexivity.
Defined.

(** ** Discovery *)

Lemma text_eqb_eq (a b : text) : text_eqb a b = true <-> a = b.
Proof. unfold text_eqb. destruct (text_eq_dec a b); split; congruence. Qed.

Lemma text_eqb_refl (a : text) : text_eqb a a = true.
Proof. now apply text_eqb_eq. Qed.

Lemma text_eqb_neq (a b : text) : text_eqb a b = false <-> a <> b.
Proof. unfold text_eqb. destruct (text_eq_dec a b); split; congruence. Qed.

Lemma has_key_In (k : text) (d : list (text * community)) :
  has_key k d = true <-> In k (map fst d).
Proof.
  unfold has_key. rewrite existsb_exists, in_map_iff. split.
  - intros (e & He & Hk). apply text_eqb_eq in Hk. now exists e.
  - intros (e & Hk & He). exists e. split; [exact He|now apply text_eqb_eq].
Qed.

Lemma first_named_app_found (k : text) (cs cs' : list community) (c : community) :
  first_named k cs = Some c -> first_named k (cs ++ cs') = Some c.
Proof.
  unfold first_named. induction cs as [|x cs IH]; simpl; [discriminate|].
  destruct (text_eqb (name x) k); auto.
Qed.

Lemma first_named_app_new (k : text) (cs : list community) (c : community) :
  (forall x, In x cs -> name x <> k) -> name c = k ->
  first_named k (cs ++ [c]) = Some c.
Proof.
  unfold first_named. intros Hcs Hc. induction cs as [|x cs IH]; simpl.
  - subst k. now rewrite text_eqb_refl.
  - destruct (text_eqb (name x) k) eqn:E.
    + apply text_eqb_eq in E. exfalso. apply (Hcs x); [now left|exact E].
    + apply IH. intros y Hy. apply Hcs. now right.
Qed.

Lemma discovered_nil : discovered [] [].
Proof. split; simpl; try tauto. constructor. Qed.

Lemma add_subreddit_candidate (d : list (text * community)) (sub : sub_entry) :
  add_subreddit d sub =
  if nonempty (name (candidate_of sub)) &&
     negb (has_key (name (candidate_of sub)) d)
  then d ++ [(name (candidate_of sub), candidate_of sub)]
  else d.
Proof. reflexivity. Qed.

Lemma add_subreddit_discovered (d : list (text * community))
      (cs : list community) (sub : sub_entry) :
  discovered d cs ->
  discovered (add_subreddit d sub)
             (cs ++ filter (fun c => nonempty (name c)) [candidate_of sub]).
Proof.
  intros [Hk Hd Hf Hs].
  rewrite add_subreddit_candidate.
  set (c := candidate_of sub). cbn [filter].
  destruct (nonempty (name c)) eqn:Hn; cbn [andb].
  - destruct (has_key (name c) d) eqn:Hh; cbn [negb].
    + apply has_key_In in Hh. split; auto.
      * intros e He. now apply first_named_app_found, Hf.
      * intros x Hx. apply in_app_iff in Hx.
        destruct Hx as [Hx|[<-|[]]]; auto.
    + assert (Hnew : ~ In (name c) (map fst d)).
      { intros Hin. apply has_key_In in Hin. congruence. }
      split.
      * intros e He. apply in_app_iff in He.
        destruct He as [He|[<-|[]]]; auto.
      * rewrite map_app. cbn [map fst].
        apply NoDup_app; [exact Hd|repeat constructor; simpl; tauto|].
        intros k Hk1 [<-|[]]. exact (Hnew Hk1).
      * intros e He. apply in_app_iff in He. destruct He as [He|[<-|[]]].
        -- now apply first_named_app_found, Hf.
        -- cbn [fst snd]. apply first_named_app_new; [|reflexivity].
           intros x Hx Heq. apply Hnew. rewrite <- Heq. now apply Hs.
      * intros x Hx. rewrite map_app, in_app_iff. apply in_app_iff in Hx.
        destruct Hx as [Hx|[<-|[]]]; [left; now apply Hs|right; now left].
  - rewrite app_nil_r. now split.
Qed.

Lemma add_subreddits_discovered (subs : list sub_entry)
      (d : list (text * community)) (cs : list community) :
  discovered d cs ->
  discovered (fold_left add_subreddit subs d)
             (cs ++ filter (fun c => nonempty (name c))
                           (map candidate_of subs)).
Proof.
  revert d cs. induction subs as [|sub subs IH]; intros d cs H.
  - simpl. now rewrite app_nil_r.
  - cbn [fold_left map].
    change (candidate_of sub :: map candidate_of subs)
      with ([candidate_of sub] ++ map candidate_of subs).
    rewrite filter_app, app_assoc.
    apply IH. now apply add_subreddit_discovered.
Qed.

Lemma add_response_discovered (d : list (text * community))
      (cs : list community) (result : search_response) :
  discovered d cs ->
  discovered (add_response d result) (cs ++ response_candidates result).
Proof.
  intros H. unfold add_response, response_candidates.
  destruct (is_some (sr_error result)).
  - now rewrite app_nil_r.
  - now apply add_subreddits_discovered.
Qed.

Lemma add_responses_discovered (results : list search_response)
      (d : list (text * community)) (cs : list community) :
  discovered d cs ->
  discovered (fold_left add_response results d) (cs ++ candidates results).
Proof.
  revert d cs. induction results as [|r results IH]; intros d cs H.
  - simpl. now rewrite app_nil_r.
  - cbn [fold_left candidates flat_map]. rewrite app_assoc.
    apply IH. now apply add_response_discovered.
Qed.

Lemma discovered_all (results : list search_response) :
  discovered (fold_left add_response results []) (candidates results).
Proof. apply (add_responses_discovered results [] [] discovered_nil). Qed.

Lemma ranked_subreddits_first_wins (results : list search_response)
      (c : community) :
  In c (ranked_subreddits results) ->
  first_named (name c) (candidates results) = Some c.
Proof.
  unfold ranked_subreddits. rewrite sort_desc_In, in_map_iff.
  intros (e & <- & He). destruct (discovered_all results) as [Hk _ Hf _].
  rewrite <- (Hk e He). now apply Hf.
Qed.

Lemma ranked_subreddits_names (results : list search_response) :
  NoDup (map name (ranked_subreddits results)).
Proof.
  destruct (discovered_all results) as [Hk Hd _ _].
  assert (E : map name (map snd (fold_left add_response results []))
              = map fst (fold_left add_response results [])).
  { rewrite map_map. apply map_ext_in. intros e He. symmetry. now apply Hk. }
  eapply Permutation_NoDup; [|exact Hd]. rewrite <- E.
  apply Permutation_map, Permutation_sym, sort_desc_perm.
Qed.

Lemma ranked_subreddits_complete (results : list search_response)
      (c : community) :
  In c (candidates results) ->
  In (name c) (map name (ranked_subreddits results)).
Proof.
  intros Hc. destruct (discovered_all results) as [Hk _ _ Hs].
  apply Hs in Hc. apply in_map_iff in Hc. destruct Hc as (e & Hn & He).
  apply in_map_iff. exists (snd e). split.
  - now rewrite <- (Hk e He).
  - apply sort_desc_In, in_map_iff. now exists e.
Qed.

Lemma NoDup_map_firstn {A B : Type} (f : A -> B) (n : nat) (l : list A) :
  NoDup (map f l) -> NoDup (map f (firstn n l)).
Proof. rewrite <- firstn_map. apply NoDup_firstn_of. Qed.

(** C7.  Whatever the enumeration order of the variation set and whatever
    the search answers, the communities returned carry pairwise different
    names; each is the first candidate of that name among the candidates of
    the responses in query order, with the subscriber count and description
    received then; the sequence is in descending subscriber count and no
    longer than the requested maximum.  It is the first [max_subreddits]
    entries of a ranking in which every candidate name occurs. *)
Theorem discover_subreddits_unique_sorted
        (set_to_list : list text -> list text)
        (search_api : text -> nat -> search_response)
        (niche : text) (max_subreddits : nat) :
  NoDup (map name
             (discover_subreddits set_to_list search_api niche max_subreddits))
  /\
  (forall c,
      In c (discover_subreddits set_to_list search_api niche max_subreddits) ->
      first_named (name c)
                  (candidates (search_results set_to_list search_api niche))
      = Some c) /\
  StronglySorted (desc subscribers)
    (discover_subreddits set_to_list search_api niche max_subreddits) /\
  List.length
    (discover_subreddits set_to_list search_api niche max_subreddits)
  <= max_subreddits /\
  discover_subreddits set_to_list search_api niche max_subreddits =
    firstn max_subreddits
      (ranked_subreddits (search_results set_to_list search_api niche)) /\
  (forall c,
      In c (candidates (search_results set_to_list search_api niche)) ->
      In (name c)
         (map name
              (ranked_subreddits
                 (search_results set_to_list search_api niche)))).
Proof.
  set (results := search_results set_to_list search_api niche).
  assert (E : discover_subreddits set_to_list search_api niche max_subreddits
              = firstn max_subreddits (ranked_subreddits results))
    by reflexivity.
  rewrite E.
  split; [apply NoDup_map_firstn, ranked_subreddits_names|].
  split; [intros c Hc; apply ranked_subreddits_first_wins;
          revert Hc; apply In_firstn|].
  split; [apply StronglySorted_firstn, sort_desc_sorted|].
  split; [rewrite length_firstn; apply Nat.le_min_l|].
  split; [reflexivity|].
  intros c. apply ranked_subreddits_complete.
Qed.

(** ** Failed searches *)

Lemma discover_from_skips_error (rs1 rs2 : list search_response)
      (r : search_response) (max_subreddits : nat) :
  is_some (sr_error r) = true ->
  discover_from (rs1 ++ r :: rs2) max_subreddits =
  discover_from (rs1 ++ rs2) max_subreddits.
Proof.
  intros He. unfold discover_from. rewrite !fold_left_app. cbn [fold_left].
  unfold add_response at 2. now rewrite He.
Qed.

Lemma no_candidates_nothing_found (results : list search_response) :
  candidates results = [] -> fold_left add_response results [] = [].
Proof.
  intros Hc. destruct (discovered_all results) as [_ _ Hf _].
  destruct (fold_left add_response results []) as [|e d]; [reflexivity|].
  specialize (Hf e (or_introl eq_refl)). rewrite Hc in Hf. discriminate.
Qed.

Lemma candidates_nil (results : list search_response) :
  (forall r, In r results ->
             is_some (sr_error r) = true \/ response_subreddits r = []) ->
  candidates results = [].
Proof.
  induction results as [|r results IH]; intros H; [reflexivity|].
  cbn [candidates flat_map]. fold (candidates results).
  rewrite IH by (intros r' Hr'; apply H; now right).
  rewrite app_nil_r. unfold response_candidates.
  destruct (H r (or_introl eq_refl)) as [-> | ->]; [reflexivity|].
  now destruct (is_some (sr_error r)).
Qed.

(** C8.  A response that carries an error leaves the communities found so
    far unchanged, and discovery goes on with the other responses as if the
    failed query had not been made.  When every queried variation fails or
    returns no community, discovery returns the empty sequence; and the
    research run returns [None], not a report, exactly when discovery
    returns the empty sequence. *)
Theorem failed_searches_give_no_report
        (set_to_list : list text -> list text)
        (search_api : text -> nat -> search_response)
        (posts_api : text -> nat -> posts_response)
        (now niche : text) (max_subreddits per : nat) :
  (forall found r, is_some (sr_error r) = true -> add_response found r = found)
  /\
  (forall rs1 r rs2 m,
      is_some (sr_error r) = true ->
      discover_from (rs1 ++ r :: rs2) m = discover_from (rs1 ++ rs2) m) /\
  ((forall r, In r (search_results set_to_list search_api niche) ->
              is_some (sr_error r) = true \/ response_subreddits r = []) ->
   discover_subreddits set_to_list search_api niche max_subreddits = []) /\
  (discover_subreddits set_to_list search_api niche max_subreddits = [] <->
   research_niche set_to_list search_api posts_api now niche max_subreddits
                  per = None).
Proof.
  split; [intros found r He; unfold add_response; now rewrite He|].
  split; [intros; now apply discover_from_skips_error|].
  split.
  - intros H. unfold discover_subreddits, discover_from.
    rewrite (no_candidates_nothing_found _ (candidates_nil _ H)).
    now destruct max_subreddits.
  - unfold research_niche.
    destruct (discover_subreddits set_to_list search_api niche max_subreddits);
      split; congruence.
Qed.

Lemma failed_searches_give_no_report_witness :
  discover_subreddits distinct_in_order search_fails (str "email marketing") 5
    = [] /\
  research_niche distinct_in_order search_fails eleven_posts
                 (str "2026-01-01T00:00:00") (str "email marketing") 5 50
    = None.
Proof.
  destruct (failed_searches_give_no_report
              distinct_in_order search_fails eleven_posts
              (str "2026-01-01T00:00:00") (str "email marketing") 5 50)
    as (_ & _ & Hd & Hr).
  assert (E : discover_subreddits distinct_in_order search_fails
                                  (str "email marketing") 5 = []).
  { apply Hd. intros r Hr'. unfold search_results in Hr'.
    apply in_map_iff in Hr'. destruct Hr' as (v & <- & _). now left. }
  split; [exact E|]. apply Hr, E.
Defined.

(** ** Counting words *)

Lemma first_index_app (w : text) (pre rest : list text) :
  In w pre -> first_index w (pre ++ rest) = first_index w pre.
Proof.
  induction pre as [|v pre IH]; simpl; [tauto|].
  intros [->|H]; [now rewrite text_eqb_refl|].
  destruct (text_eqb v w); [reflexivity|]. now rewrite IH.
Qed.

Lemma first_index_lt (w : text) (ws : list text) :
  In w ws -> first_index w ws < List.length ws.
Proof.
  induction ws as [|v ws IH]; simpl; [tauto|].
  intros H. destruct (text_eqb v w) eqn:E; [lia|].
  apply text_eqb_neq in E. destruct H as [H|H]; [congruence|].
  apply IH in H. lia.
Qed.

Lemma first_index_new (w : text) (pre rest : list text) :
  ~ In w pre -> first_index w (pre ++ w :: rest) = List.length pre.
Proof.
  induction pre as [|v pre IH]; simpl; intros H.
  - now rewrite text_eqb_refl.
  - destruct (text_eqb v w) eqn:E.
    + apply text_eqb_eq in E. tauto.
    + rewrite IH; tauto.
Qed.

Lemma occurrences_app (w : text) (a b : list text) :
  occurrences w (a ++ b) = occurrences w a + occurrences w b.
Proof. apply count_occ_app. Qed.

Lemma occurrences_single (w v : text) :
  occurrences w [v] = if text_eqb v w then 1 else 0.
Proof.
  unfold occurrences, text_eqb. simpl. now destruct (text_eq_dec v w).
Qed.

Lemma counter_add_keys (w : text) (c : counter) :
  map fst (counter_add w c) =
  if existsb (text_eqb w) (map fst c) then map fst c else map fst c ++ [w].
Proof.
  induction c as [|[k n] c IH]; simpl; [reflexivity|].
  destruct (text_eqb k w) eqn:E.
  - apply text_eqb_eq in E. subst k. now rewrite text_eqb_refl.
  - assert (E' : text_eqb w k = false).
    { apply text_eqb_neq. apply text_eqb_neq in E. congruence. }
    rewrite E'. simpl. rewrite IH. now destruct (existsb _ _).
Qed.

Lemma counter_add_In (w : text) (c : counter) (k : text) (n : nat) :
  NoDup (map fst c) ->
  In (k, n) (counter_add w c) ->
  (k = w /\ ~ In w (map fst c) /\ n = 1) \/
  (k = w /\ exists m, In (w, m) c /\ n = S m) \/
  (k <> w /\ In (k, n) c).
Proof.
  induction c as [|[k0 n0] c IH]; intros Hnd; simpl.
  - intros [E|[]]. injection E as <- <-. left. tauto.
  - inversion Hnd as [|? ? Hk0 Hnd1]; subst.
    destruct (text_eqb k0 w) eqn:E.
    + apply text_eqb_eq in E. subst k0. intros [H|H].
      * injection H as <- <-. right. left. split; [reflexivity|].
        exists n0. split; [now left|reflexivity].
      * right. right. split; [|now right].
        intros ->. apply Hk0. apply in_map_iff. now exists (w, n).
    + apply text_eqb_neq in E. intros [H|H].
      * injection H as <- <-. right. right. split; [exact E|now left].
      * destruct (IH Hnd1 H) as [(-> & Hw & ->)|[(-> & m & Hm & ->)|(Hk & Hin)]].
        -- left. split; [reflexivity|]. split; [|reflexivity].
           simpl. intros [?|?]; [congruence|tauto].
        -- right. left. split; [reflexivity|]. exists m. split; [now right|reflexivity].
        -- right. right. split; [exact Hk|now right].
Qed.

Lemma StronglySorted_snoc {A : Type} (R : A -> A -> Prop) (l : list A) (x : A) :
  StronglySorted R l -> Forall (fun a => R a x) l ->
  StronglySorted R (l ++ [x]).
Proof.
  induction l as [|a l IH]; intros Hs Hx; simpl.
  - repeat constructor.
  - inversion Hs; subst. inversion Hx; subst.
    constructor; [now apply IH|].
    apply Forall_app. split; [assumption|now constructor].
Qed.

Section Counting.

(** All the words that will be counted. *)
Variable full : list text.

Lemma counted_nil : counted full [] [].
Proof. split; simpl; try tauto; constructor. Qed.

Lemma counter_add_counted (c : counter) (pre rest : list text) (w : text) :
  full = pre ++ w :: rest ->
  counted full c pre -> counted full (counter_add w c) (pre ++ [w]).
Proof.
  intros Hfull [Hnd Hkeys Hord Hcnt].
  assert (Hmem : existsb (text_eqb w) (map fst c) = true <-> In w pre).
  { rewrite existsb_exists, <- Hkeys. split.
    - intros (x & Hx & E). apply text_eqb_eq in E. now subst.
    - intros H. exists w. split; [exact H|apply text_eqb_refl]. }
  split.
  - rewrite counter_add_keys.
    destruct (existsb (text_eqb w) (map fst c)) eqn:E; [exact Hnd|].
    apply NoDup_app; [exact Hnd|repeat constructor; simpl; tauto|].
    intros k Hk [<-|[]].
    apply Hkeys, Hmem in Hk. congruence.
  - intros v. rewrite counter_add_keys, in_app_iff.
    destruct (existsb (text_eqb w) (map fst c)) eqn:E.
    + rewrite Hkeys. split; [tauto|].
      intros [H|[<-|[]]]; [exact H|now apply Hmem].
    + rewrite in_app_iff, Hkeys. reflexivity.
  - rewrite counter_add_keys.
    destruct (existsb (text_eqb w) (map fst c)) eqn:E; [exact Hord|].
    apply StronglySorted_snoc; [exact Hord|].
    apply Forall_forall. intros a Ha. apply Hkeys in Ha.
    assert (Hw : ~ In w pre) by (intros Hw; apply Hmem in Hw; congruence).
    rewrite Hfull, (first_index_app a pre (w :: rest) Ha),
      (first_index_new w pre rest Hw).
    now apply first_index_lt.
  - intros k n Hin. rewrite occurrences_app, occurrences_single.
    destruct (counter_add_In w c k n Hnd Hin)
      as [(-> & Hw & ->)|[(-> & m & Hm & ->)|(Hk & Hin1)]].
    + rewrite text_eqb_refl.
      assert (Hz : occurrences w pre = 0).
      { apply count_occ_not_In. now rewrite <- Hkeys. }
      now rewrite Hz.
    + rewrite text_eqb_refl, <- (Hcnt w m Hm). lia.
    + assert (E : text_eqb w k = false) by (apply text_eqb_neq; congruence).
      rewrite E, Nat.add_0_r. now apply Hcnt.
Qed.

Lemma counter_update_counted (rest : list text) (c : counter)
      (pre : list text) :
  full = pre ++ rest ->
  counted full c pre -> counted full (counter_update c rest) full.
Proof.
  revert c pre. induction rest as [|w rest IH]; intros c pre Hfull Hc.
  - rewrite app_nil_r in Hfull. now subst.
  - cbn [counter_update fold_left].
    apply (IH (counter_add w c) (pre ++ [w])).
    + now rewrite <- app_assoc.
    + now apply (counter_add_counted c pre rest w).
Qed.

End Counting.

Lemma counter_update_all (ws : list text) : counted ws (counter_update [] ws) ws.
Proof. apply (counter_update_counted ws ws [] [] eq_refl), counted_nil. Qed.

Lemma counter_update_app (c : counter) (a b : list text) :
  counter_update c (a ++ b) = counter_update (counter_update c a) b.
Proof. apply fold_left_app. Qed.

Lemma word_counts_flat (posts : list post) :
  word_counts posts = counter_update [] (all_title_words posts).
Proof.
  unfold word_counts, all_title_words. generalize (@nil (text * nat)).
  induction posts as [|p posts IH]; intros c; simpl; [reflexivity|].
  now rewrite IH, counter_update_app.
Qed.

(** Sorting a list that is already in some order [R]: equal keys stay in
    that order. *)
Section SortTies.

Context {A : Type} (key : A -> Z) (R : A -> A -> Prop).

Lemma key_then_desc (l : list A) :
  StronglySorted (key_then key R) l -> StronglySorted (desc key) l.
Proof.
  induction 1 as [|a l Hs IH Hall]; constructor; [exact IH|].
  eapply Forall_impl; [|exact Hall]. unfold key_then, desc. intros; lia.
Qed.

Lemma insert_desc_ties (x : A) (l : list A) :
  StronglySorted (key_then key R) l -> Forall (R x) l ->
  StronglySorted (key_then key R) (insert_desc key x l).
Proof.
  induction l as [|y l IH]; intros Hs Hx; simpl.
  - repeat constructor.
  - inversion Hs as [|? ? Hl Hall]; subst.
    inversion Hx as [|? ? Hxy Hxl]; subst.
    destruct (key y <=? key x)%Z eqn:E.
    + apply Z.leb_le in E. constructor; [exact Hs|].
      pose proof (key_then_desc _ Hs) as Hd.
      inversion Hd as [|? ? _ Hdl]; subst.
      rewrite Forall_forall in *. intros z [<-|Hz].
      * unfold key_then. destruct (Z.eq_dec (key x) (key y)); [right|left]; 
          [tauto|lia].
      * specialize (Hdl z Hz). specialize (Hxl z Hz). unfold key_then, desc in *.
        destruct (Z.eq_dec (key x) (key z)); [right; tauto|left; lia].
    + apply Z.leb_gt in E. constructor; [now apply IH|].
      apply (Permutation_Forall (Permutation_sym (insert_desc_perm key x l))).
      constructor; [left; lia|exact Hall].
Qed.

Lemma sort_desc_ties (l : list A) :
  StronglySorted R l -> StronglySorted (key_then key R) (sort_desc key l).
Proof.
  induction 1 as [|x l Hs IH Hall]; simpl; [constructor|].
  apply insert_desc_ties; [exact IH|].
  apply (Permutation_Forall (Permutation_sym (sort_desc_perm key l))).
  exact Hall.
Qed.

End SortTies.

(** ** Words of a title *)

Lemma word_runs_aux_app_sep (cur a b : text) (sep : ascii) :
  is_word sep = false ->
  word_runs_aux cur (a ++ sep :: b) = word_runs_aux cur a ++ word_runs b.
Proof.
  intros Hsep. revert cur. induction a as [|c a IH]; intros cur; simpl.
  - rewrite Hsep. now destruct cur.
  - destruct (is_word c); [apply IH|].
    destruct cur; simpl; now rewrite IH.
Qed.

Lemma word_runs_app_sep (a b : text) (sep : ascii) :
  is_word sep = false -> word_runs (a ++ sep :: b) = word_runs a ++ word_runs b.
Proof. apply word_runs_aux_app_sep. Qed.

Lemma word_runs_aux_whole (cur r : text) :
  forallb is_word r = true -> rev cur ++ r <> [] ->
  word_runs_aux cur r = [rev cur ++ r].
Proof.
  revert cur. induction r as [|c r IH]; intros cur Hall Hne; simpl.
  - rewrite app_nil_r in *. destruct cur; [contradiction|reflexivity].
  - simpl in Hall. apply andb_prop in Hall. destruct Hall as [Hc Hr].
    rewrite Hc, (IH (c :: cur) Hr); simpl; rewrite <- app_assoc; simpl.
    + reflexivity.
    + now destruct (rev cur).
Qed.

Lemma word_runs_whole (r : text) :
  r <> [] -> forallb is_word r = true -> word_runs r = [r].
Proof. intros Hne Hall. now apply (word_runs_aux_whole [] r). Qed.

Lemma word_runs_aux_chars (cur s w : text) (c : ascii) :
  In w (word_runs_aux cur s) -> In c w -> In c cur \/ In c s.
Proof.
  revert cur. induction s as [|x s IH]; intros cur; simpl.
  - destruct cur as [|y cur]; [tauto|]. intros [<-|[]] Hc.
    left. now apply in_rev.
  - destruct (is_word x).
    + intros Hw Hc. destruct (IH _ Hw Hc) as [[<-|H]|H]; auto.
    + destruct cur as [|y cur].
      * intros Hw Hc. destruct (IH _ Hw Hc) as [[]|H]; auto.
      * intros [<-|Hw] Hc; [left; now apply in_rev|].
        destruct (IH _ Hw Hc) as [[]|H]; auto.
Qed.

Lemma not_upper_lower_char (c : ascii) : is_upper (lower_char c) = false.
Proof. each_char c. Qed.

Lemma lower_run_letters (s w : text) :
  In w (word_runs (lower s)) -> forallb is_alpha w = forallb is_lower w.
Proof.
  intros Hw. assert (H : forall c, In c w -> is_upper c = false).
  { intros c Hc. destruct (word_runs_aux_chars [] _ w c Hw Hc) as [[]|H].
    apply in_map_iff in H. destruct H as (x & <- & _).
    apply not_upper_lower_char. }
  clear Hw. induction w as [|c w IH]; simpl; [reflexivity|].
  unfold is_alpha at 1. rewrite (H c (or_introl eq_refl)), IH; [reflexivity|].
  intros x Hx. apply H. now right.
Qed.

Lemma title_words_spec (title w : text) :
  In w (title_words title) <->
  In w (word_runs (lower title)) /\ forallb is_lower w = true /\
  3 <= List.length w /\ is_stopword w = false.
Proof.
  unfold title_words, findall_words. rewrite !filter_In, andb_true_iff.
  rewrite negb_true_iff, Nat.leb_le. split.
  - intros [[Hr [Ha Hl]] Hs]. rewrite (lower_run_letters title w Hr) in Ha. tauto.
  - intros (Hr & Ha & Hl & Hs). rewrite (lower_run_letters title w Hr). tauto.
Qed.

(** ** The theme ranking *)

Lemma theme_ranking_sorted_keys (posts : list post) :
  theme_ranking posts =
  sort_desc (fun w => Z.of_nat (occurrences w (all_title_words posts)))
            (map fst (counter_update [] (all_title_words posts))).
Proof.
  unfold theme_ranking. rewrite word_counts_flat.
  apply sort_desc_map. intros [k n] Hin. simpl.
  now rewrite (counted_counts _ _ _ (counter_update_all _) k n Hin).
Qed.

Lemma StronglySorted_weaken {A : Type} (R R' : A -> A -> Prop) (l : list A) :
  (forall a b, R a b -> R' a b) -> StronglySorted R l -> StronglySorted R' l.
Proof.
  intros H. induction 1 as [|a l Hs IH Hall]; constructor; [exact IH|].
  eapply Forall_impl; [|exact Hall]. intros b. apply H.
Qed.

Lemma theme_ranking_order (posts : list post) :
  StronglySorted (ranked_ahead (all_title_words posts)) (theme_ranking posts).
Proof.
  rewrite theme_ranking_sorted_keys.
  set (ws := all_title_words posts).
  eapply StronglySorted_weaken;
    [|apply (sort_desc_ties
               (fun w => Z.of_nat (occurrences w ws))
               (fun a b => first_index a ws < first_index b ws));
      apply (counted_order _ _ _ (counter_update_all ws))].
  unfold key_then, ranked_ahead. intros a b [H|[H1 H2]]; [left; lia|right].
  split; [lia|exact H2].
Qed.

Lemma theme_ranking_words (posts : list post) (w : text) :
  In w (theme_ranking posts) <-> In w (all_title_words posts).
Proof.
  rewrite theme_ranking_sorted_keys, sort_desc_In.
  apply (counted_keys _ _ _ (counter_update_all _)).
Qed.

Lemma theme_ranking_NoDup (posts : list post) : NoDup (theme_ranking posts).
Proof.
  rewrite theme_ranking_sorted_keys.
  eapply Permutation_NoDup; [apply Permutation_sym, sort_desc_perm|].
  apply (counted_NoDup _ _ _ (counter_update_all _)).
Qed.

Lemma extract_common_themes_prefix (posts : list post) (n : nat) :
  extract_common_themes posts n = firstn n (theme_ranking posts).
Proof.
  unfold extract_common_themes, most_common, theme_ranking.
  symmetry. apply firstn_map.
Qed.

(** C9.  The words of a title are the maximal runs of word characters of
    the lowercased title that are made of at least three lowercase letters
    and are not stopwords.  The result is the first [top_n] entries of the
    ranking of the counted words: every counted word once, a more frequent
    word ahead of a less frequent one, and of two words of equal frequency
    the one met first ahead.  For the three titles of the scenario the
    ranking starts with [crm], counted three times, ahead of the seven words
    counted once. *)
Theorem extract_common_themes_most_frequent (posts : list post) (top_n : nat) :
  extract_common_themes posts top_n = firstn top_n (theme_ranking posts) /\
  NoDup (theme_ranking posts) /\
  (forall w, In w (theme_ranking posts) <-> In w (all_title_words posts)) /\
  StronglySorted (ranked_ahead (all_title_words posts)) (theme_ranking posts) /\
  (forall title w,
      In w (title_words title) <->
      In w (word_runs (lower title)) /\ forallb is_lower w = true /\
      3 <= List.length w /\ is_stopword w = false) /\
  (forall a b sep, is_word sep = false ->
                   word_runs (a ++ sep :: b) = word_runs a ++ word_runs b) /\
  (forall r, r <> [] -> forallb is_word r = true -> word_runs r = [r]) /\
  word_runs [] = [] /\
  (forall n, extract_common_themes crm_posts n = firstn n crm_ranking) /\
  map (fun w => occurrences w (all_title_words crm_posts)) crm_ranking =
    [3; 1; 1; 1; 1; 1; 1; 1].
Proof.
  split; [apply extract_common_themes_prefix|].
  split; [apply theme_ranking_NoDup|].
  split; [apply theme_ranking_words|].
  split; [apply theme_ranking_order|].
  split; [apply title_words_spec|].
  split; [intros a b sep; apply word_runs_app_sep|].
  split; [apply word_runs_whole|].
  split; [reflexivity|].
  split; [|vm_compute; reflexivity].
  intros n. rewrite extract_common_themes_prefix.
  change (theme_ranking crm_posts) with crm_ranking. reflexivity.
Qed.

(** ** Normalizing the niche *)

Lemma drop_while_app (p : ascii -> bool) (a b : text) :
  drop_while p (a ++ b) =
  if forallb p a then drop_while p b else drop_while p a ++ b.
Proof.
  induction a as [|c a IH]; simpl; [reflexivity|].
  destruct (p c); simpl; [exact IH|reflexivity].
Qed.

Lemma drop_while_idem (p : ascii -> bool) (s : text) :
  drop_while p (drop_while p s) = drop_while p s.
Proof.
  induction s as [|c s IH]; simpl; [reflexivity|].
  destruct (p c) eqn:E; [exact IH|]. simpl. now rewrite E.
Qed.

Lemma drop_while_head (p : ascii -> bool) (s : text) :
  drop_while p s = [] \/
  exists c u, drop_while p s = c :: u /\ p c = false.
Proof.
  induction s as [|c s IH]; simpl; [now left|].
  destruct (p c) eqn:E; [exact IH|]. right. now exists c, s.
Qed.

Lemma drop_while_map (s : text) :
  drop_while is_space (lower s) = lower (drop_while is_space s).
Proof.
  induction s as [|c s IH]; simpl; [reflexivity|].
  rewrite is_space_lower_char. now destruct (is_space c).
Qed.

Lemma rstrip_idem (s : text) : rstrip (rstrip s) = rstrip s.
Proof. unfold rstrip. now rewrite rev_involutive, drop_while_idem. Qed.

Lemma rstrip_keeps_head (c : ascii) (s : text) :
  is_space c = false -> exists u, rstrip (c :: s) = c :: u.
Proof.
  intros Hc. unfold rstrip. simpl. rewrite drop_while_app.
  destruct (forallb is_space (rev s)); simpl.
  - rewrite Hc. now exists [].
  - rewrite rev_app_distr. simpl. eexists. reflexivity.
Qed.

Lemma lstrip_strip (s : text) : lstrip (strip s) = strip s.
Proof.
  unfold strip. destruct (drop_while_head is_space s) as [E|(c & u & E & Hc)];
    unfold lstrip at 2 3; rewrite E.
  - reflexivity.
  - destruct (rstrip_keeps_head c u Hc) as [v Ev]. rewrite Ev.
    unfold lstrip. simpl. now rewrite Hc.
Qed.

Lemma strip_idem (s : text) : strip (strip s) = strip s.
Proof.
  unfold strip at 1. rewrite lstrip_strip. unfold strip. apply rstrip_idem.
Qed.

Lemma strip_lower (s : text) : strip (lower s) = lower (strip s).
Proof.
  unfold strip, rstrip, lstrip.
  rewrite (drop_while_map s). unfold lower at 1. rewrite <- map_rev.
  fold (lower (rev (drop_while is_space s))).
  rewrite (drop_while_map (rev (drop_while is_space s))).
  unfold lower. now rewrite map_rev.
Qed.

Lemma base_normalized (niche : text) :
  strip (lower (strip (lower niche))) = strip (lower niche).
Proof. now rewrite <- strip_lower, strip_idem, lower_idem. Qed.

Lemma forallb_rev_eq (p : ascii -> bool) (s : text) :
  forallb p (rev s) = forallb p s.
Proof.
  induction s as [|c s IH]; simpl; [reflexivity|].
  rewrite forallb_app, IH. simpl. rewrite andb_true_r. apply andb_comm.
Qed.

Lemma strip_surrounding (pre s post : text) :
  whitespace_only pre = true -> whitespace_only post = true ->
  strip (pre ++ s ++ post) = strip s.
Proof.
  unfold whitespace_only, strip, lstrip. intros Hpre Hpost.
  rewrite drop_while_app, Hpre, drop_while_app.
  destruct (forallb is_space s) eqn:Hs.
  - now rewrite (drop_while_all _ _ Hpost), (drop_while_all _ _ Hs).
  - unfold rstrip. rewrite rev_app_distr, drop_while_app.
    now rewrite forallb_rev_eq, Hpost.
Qed.

Lemma lowercase_chars (s : text) :
  lowercase s <-> forall c, In c s -> lower_char c = c.
Proof.
  unfold lowercase, lower. induction s as [|x s IH]; simpl.
  - split; [tauto|reflexivity].
  - split.
    + intros H c [<-|Hc]; injection H as Hx Hs; [exact Hx|]. now apply IH.
    + intros H. f_equal; [apply H; now left|]. apply IH. intros c Hc.
      apply H. now right.
Qed.

Lemma lowercase_app (a b : text) :
  lowercase a -> lowercase b -> lowercase (a ++ b).
Proof. unfold lowercase, lower. intros Ha Hb. now rewrite map_app, Ha, Hb. Qed.

Lemma lowercase_base (niche : text) : lowercase (strip (lower niche)).
Proof. unfold lowercase. now rewrite <- strip_lower, lower_idem. Qed.

Lemma split_ws_aux_chars (cur s w : text) (c : ascii) :
  In w (split_ws_aux cur s) -> In c w -> In c cur \/ In c s.
Proof.
  revert cur. induction s as [|x s IH]; intros cur; simpl.
  - destruct cur as [|y cur]; [tauto|]. intros [<-|[]] Hc.
    left. now apply in_rev.
  - destruct (is_space x).
    + destruct cur as [|y cur].
      * intros Hw Hc. destruct (IH _ Hw Hc) as [[]|H]; auto.
      * intros [<-|Hw] Hc; [left; now apply in_rev|].
        destruct (IH _ Hw Hc) as [[]|H]; auto.
    + intros Hw Hc. destruct (IH _ Hw Hc) as [[<-|H]|H]; auto.
Qed.

Lemma split_ws_lowercase (s w : text) :
  lowercase s -> In w (split_ws s) -> lowercase w.
Proof.
  rewrite !lowercase_chars. intros Hs Hw c Hc.
  destruct (split_ws_aux_chars [] s w c Hw Hc) as [[]|H]. now apply Hs.
Qed.

Lemma join_lowercase (sep : text) (parts : list text) :
  lowercase sep -> (forall p, In p parts -> lowercase p) ->
  lowercase (join sep parts).
Proof.
  intros Hsep. induction parts as [|p parts IH]; intros Hp; [reflexivity|].
  cbn [join]. destruct parts as [|q parts]; [apply Hp; now left|].
  apply lowercase_app; [apply Hp; now left|].
  apply lowercase_app; [exact Hsep|]. apply IH. intros r Hr. apply Hp. now right.
Qed.

Lemma removelast_lowercase (s : text) : lowercase s -> lowercase (removelast s).
Proof.
  rewrite !lowercase_chars. intros H c Hc. apply H.
  clear H. induction s as [|x s IH]; [exact Hc|].
  simpl in Hc. destruct s as [|y s]; [destruct Hc|].
  destruct Hc as [<-|Hc]; [now left|right; now apply IH].
Qed.

Lemma hd_lowercase (ws : list text) :
  (forall w, In w ws -> lowercase w) -> lowercase (hd [] ws).
Proof. destruct ws; intros H; [reflexivity|apply H; now left]. Qed.

Lemma last_lowercase (ws : list text) :
  (forall w, In w ws -> lowercase w) -> lowercase (last ws []).
Proof.
  induction ws as [|w ws IH]; intros H; [reflexivity|].
  simpl. destruct ws as [|v ws]; [apply H; now left|].
  apply IH. intros x Hx. apply H. now right.
Qed.

Lemma variations_lowercase (niche v : text) :
  In v (variations_of niche) -> lowercase v.
Proof.
  unfold variations_of. cbv zeta.
  pose proof (lowercase_base niche) as Hb.
  set (base := strip (lower niche)) in *.
  assert (Hw : forall w, In w (split_ws base) -> lowercase w)
    by (intros w; now apply split_ws_lowercase).
  rewrite !in_app_iff. intros [H|[H|H]].
  - cbn [In] in H.
    repeat (destruct H as [<-|H];
            [first [exact Hb | apply lowercase_app;
                               first [exact Hb | reflexivity]]|]).
    destruct H.
  - destruct (ends_with (str "s") base); destruct H as [<-|[]].
    + now apply removelast_lowercase.
    + apply lowercase_app; [exact Hb|reflexivity].
  - destruct (1 <? List.length (split_ws base)); [|destruct H].
    destruct H as [<-|[<-|[<-|[]]]].
    + now apply hd_lowercase.
    + now apply last_lowercase.
    + apply join_lowercase; [reflexivity|].
      intros p Hp. apply Hw. now apply in_rev.
Qed.

Lemma whitespace_only_lower (s : text) :
  whitespace_only (lower s) = whitespace_only s.
Proof.
  unfold whitespace_only, lower. induction s as [|c s IH]; simpl; [reflexivity|].
  now rewrite is_space_lower_char, IH.
Qed.

Lemma variations_normalized (niche : text) :
  variations_of (strip (lower niche)) = variations_of niche.
Proof. unfold variations_of. now rewrite base_normalized. Qed.

(** The variations of ["email marketing"], before the duplicates go. *)
Example email_marketing_variations :
  variations_of (str " Email Marketing") =
  map str ["email marketing"; "email marketing software";
           "email marketing tool"; "email marketing app";
           "email marketing automation"; "email marketing help";
           "email marketing tips"; "best email marketing";
           "email marketing for beginners"; "email marketing problems";
           "email marketings"; "email"; "marketing";
           "marketing email"]%string.
Proof. vm_compute. reflexivity. Qed.

(** C10.  The variations depend on the niche only through
    [niche.lower().strip()]: the list built for a niche is the list built for
    its lowercased and trimmed form, so whatever the enumeration orders of
    the two sets, the variations of a niche and those of its normal form are
    the same set, and so are those of two niches with the same normal form,
    such as two spellings that differ in letter case and in surrounding
    whitespace; every variation is lowercase. *)
Theorem niche_variations_normalized
        (set_to_list set_to_list' : list text -> list text)
        (set_to_list_In :
           forall xs x, In x (set_to_list xs) <-> In x xs)
        (set_to_list'_In :
           forall xs x, In x (set_to_list' xs) <-> In x xs)
        (niche : text) :
  variations_of (strip (lower niche)) = variations_of niche /\
  (forall v, In v (generate_niche_variations set_to_list niche) <->
             In v (generate_niche_variations set_to_list'
                                             (strip (lower niche)))) /\
  (forall other,
      strip (lower other) = strip (lower niche) ->
      forall v, In v (generate_niche_variations set_to_list niche) <->
                In v (generate_niche_variations set_to_list' other)) /\
  (forall pre post other,
      whitespace_only pre = true -> whitespace_only post = true ->
      lower other = lower niche ->
      forall v, In v (generate_niche_variations set_to_list niche) <->
                In v (generate_niche_variations set_to_list'
                                                (pre ++ other ++ post))) /\
  (forall v, In v (generate_niche_variations set_to_list niche) ->
             lowercase v).
Proof.
  assert (Hsame : forall other,
             strip (lower other) = strip (lower niche) ->
             forall v, In v (generate_niche_variations set_to_list niche) <->
                       In v (generate_niche_variations set_to_list' other)).
  { intros other E v. unfold generate_niche_variations.
    rewrite set_to_list_In, set_to_list'_In.
    rewrite <- (variations_normalized other), E, variations_normalized.
    reflexivity. }
  split; [apply variations_normalized|].
  split; [apply Hsame, base_normalized|].
  split; [exact Hsame|].
  split.
  - intros pre post other Hpre Hpost E. apply Hsame.
    unfold lower. rewrite !map_app. fold (lower pre) (lower other) (lower post).
    rewrite strip_surrounding, E;
      [reflexivity|now rewrite whitespace_only_lower..].
  - intros v Hv. unfold generate_niche_variations in Hv.
    apply (proj1 (set_to_list_In _ _)) in Hv.
    exact (variations_lowercase niche v Hv).
Qed.

Lemma niche_variations_normalized_witness :
  (In (str "marketing email")
      (generate_niche_variations distinct_in_order (str "email marketing")) <->
   In (str "marketing email")
      (generate_niche_variations (fun xs => rev (distinct_in_order xs))
                                 (str "  Email Marketing "))) /\
  lowercase (str "marketing email").
Proof.
  assert (H1 : forall xs x, In x (distinct_in_order xs) <-> In x xs)
    by (intros xs x; apply nodup_In).
  assert (H2 : forall xs x, In x (rev (distinct_in_order xs)) <-> In x xs)
    by (intros xs x; rewrite <- in_rev; apply nodup_In).
  destruct (niche_variations_normalized
              distinct_in_order (fun xs => rev (distinct_in_order xs))
              H1 H2 (str "email marketing"))
    as (_ & _ & Hsame & _ & Hlow).
  split.
  - apply Hsame. reflexivity.
  - apply Hlow. apply H1. vm_compute. tauto.
Defined.

(** * Further properties of the analyzer *)

(** ** Fragments *)

Lemma bucket_extend (ty : pattern_type) (a b : insights) :
  bucket ty (extend_insights a b) = bucket ty a ++ bucket ty b.
Proof. now destruct ty. Qed.

Lemma insights_eq (a b : insights) :
  (forall ty, bucket ty a = bucket ty b) -> a = b.
Proof.
  intros H. destruct a, b.
  pose proof (H pain). pose proof (H question). pose proof (H request).
  pose proof (H solution). pose proof (H belief). simpl in *. congruence.
Qed.

Lemma extend_insights_assoc (a b c : insights) :
  extend_insights (extend_insights a b) c =
  extend_insights a (extend_insights b c).
Proof.
  apply insights_eq. intros ty. now rewrite !bucket_extend, app_assoc.
Qed.

Lemma extend_no_insights_l (a : insights) : extend_insights no_insights a = a.
Proof. apply insights_eq. intros ty. rewrite bucket_extend. now destruct ty. Qed.

Lemma extend_no_insights_r (a : insights) : extend_insights a no_insights = a.
Proof.
  apply insights_eq. intros ty. rewrite bucket_extend.
  destruct ty; apply app_nil_r.
Qed.

Lemma part_of_refl (s : text) : part_of s s.
Proof. exists [], []. now rewrite app_nil_r. Qed.

Lemma part_of_trans (a b c : text) : part_of a b -> part_of b c -> part_of a c.
Proof.
  intros (x & y & ->) (u & v & ->). exists (u ++ x), (y ++ v).
  now rewrite <- !app_assoc.
Qed.

Lemma drop_while_suffix (p : ascii -> bool) (s : text) :
  exists dropped, s = dropped ++ drop_while p s /\ forallb p dropped = true.
Proof.
  induction s as [|c s (d & E & Hd)]; simpl.
  - now exists [].
  - destruct (p c) eqn:Hc.
    + exists (c :: d). simpl. rewrite Hc, Hd. split; [now f_equal|reflexivity].
    + now exists [].
Qed.

Lemma strip_part_of (s : text) : part_of (strip s) s.
Proof.
  unfold strip, rstrip, lstrip.
  destruct (drop_while_suffix is_space s) as (l & El & _).
  destruct (drop_while_suffix is_space (rev (drop_while is_space s)))
    as (r & Er & _).
  exists l, (rev r).
  apply (f_equal (@rev ascii)) in Er.
  rewrite rev_involutive, rev_app_distr in Er.
  rewrite <- Er. exact El.
Qed.

Lemma part_of_cons (c : ascii) (q s : text) : part_of q s -> part_of q (c :: s).
Proof. intros (a & b & ->). now exists (c :: a), b. Qed.

Lemma re_split_parts (s : text) :
  match re_split s with
  | [] => False
  | p :: ps => (exists b, s = p ++ b) /\ forall q, In q ps -> part_of q s
  end.
Proof.
  induction s as [|c s IH]; simpl.
  - split; [now exists []|intros q []].
  - destruct (re_split s) as [|p ps]; [contradiction|].
    destruct IH as [(b & E) Hps].
    destruct (is_sentence_end c).
    + split; [now exists (c :: s)|].
      intros q [<-|Hq]; apply part_of_cons.
      * exists [], b. exact E.
      * now apply Hps.
    + split; [exists b; simpl; now f_equal|].
      intros q Hq. apply part_of_cons. now apply Hps.
Qed.

Lemma re_split_part_of (s piece : text) :
  In piece (re_split s) -> part_of piece s.
Proof.
  pose proof (re_split_parts s) as H.
  destruct (re_split s) as [|p ps]; [contradiction|].
  destruct H as [(b & E) Hps]. intros [<-|Hq]; [|now apply Hps].
  exists [], b. exact E.
Qed.

Lemma part_of_In (sub s : text) (c : ascii) : part_of sub s -> In c sub -> In c s.
Proof. intros (a & b & ->) H. rewrite !in_app_iff. tauto. Qed.

Lemma segment_shape (s seg : text) :
  In seg (segments s) ->
  seg <> [] /\ strip seg = seg /\
  (forall c, In c seg -> is_sentence_end c = false) /\ part_of seg s.
Proof.
  intros H. pose proof H as H'. apply segments_spec in H'.
  destruct H' as (piece & Hin & Hw & ->).
  unfold segments in H. apply filter_In in H. destruct H as [_ Hne].
  split; [intros E; now rewrite E in Hne|].
  split; [apply strip_idem|].
  split.
  - intros c Hc. apply (part_of_In _ _ c (strip_part_of piece)) in Hc.
    pose proof (re_split_no_separator s) as Hall.
    rewrite Forall_forall in Hall. specialize (Hall piece Hin).
    rewrite forallb_forall in Hall. specialize (Hall c Hc).
    now apply negb_true_iff in Hall.
  - eapply part_of_trans; [apply strip_part_of|now apply re_split_part_of].
Qed.

(** X1.  Every fragment that [_extract_sentence_with_pattern] returns is a
    non-empty run of consecutive characters of the text, holds none of the
    four separators, has no whitespace at either end, and is matched by a
    pattern of the family. *)
Theorem extracted_fragment_shape (s : text) (ty : pattern_type) (seg : text) :
  In seg (_extract_sentence_with_pattern s ty) ->
  seg <> [] /\ strip seg = seg /\
  (forall c, In c seg -> is_sentence_end c = false) /\
  part_of seg s /\ _matches_patterns seg ty = true.
Proof.
  rewrite extract_as_filter, filter_In. intros [Hs Hm].
  destruct (segment_shape s seg Hs) as (H1 & H2 & H3 & H4). tauto.
Qed.

Lemma extracted_fragment_shape_witness :
  strip (str "need a better CRM") = str "need a better CRM" /\
  part_of (str "need a better CRM") (str "Hi all!  need a better CRM . Thanks").
Proof.
  destruct (extracted_fragment_shape
              (str "Hi all!  need a better CRM . Thanks") request
              (str "need a better CRM"))
    as (_ & H2 & _ & H4 & _).
  - vm_compute. tauto.
  - split; assumption.
Defined.

(** X2.  The fragments of a post come from its title or from its body: each
    one is a run of consecutive characters of one of the two, never a text
    that spans both. *)
Theorem analyze_post_fragment_origin (p : post) (ty : pattern_type) (seg : text) :
  In seg (bucket ty (analyze_post p)) ->
  part_of seg (post_title p) \/ part_of seg (post_body p).
Proof.
  rewrite analyze_post_bucket, extract_as_filter, segments_title_body.
  rewrite filter_In, in_app_iff. intros [[H|H] _]; [left|right];
    now apply segment_shape in H.
Qed.

Lemma analyze_post_fragment_origin_witness :
  part_of (str "Is there a cheaper plan")
          (post_title (text_post "Pricing? Is there a cheaper plan" "")) \/
  part_of (str "Is there a cheaper plan")
          (post_body (text_post "Pricing? Is there a cheaper plan" "")).
Proof.
  apply (analyze_post_fragment_origin
           (text_post "Pricing? Is there a cheaper plan" "") question).
  vm_compute. tauto.
Defined.

(** ** Comments *)

Lemma analyze_comments_from (cs : list comment) (acc : insights) :
  fold_left
    (fun all_insights c =>
       let body := comment_body c in
       if nonempty body
       then extend_insights all_insights (body_insights body)
       else all_insights)
    cs acc
  = extend_insights acc (analyze_comments cs).
Proof.
  unfold analyze_comments. revert acc.
  induction cs as [|c cs IH]; intros acc; cbn [fold_left].
  - now rewrite extend_no_insights_r.
  - rewrite IH.
    rewrite (IH (if nonempty (comment_body c)
                 then extend_insights no_insights
                        (body_insights (comment_body c))
                 else no_insights)).
    destruct (nonempty (comment_body c)).
    + now rewrite extend_no_insights_l, extend_insights_assoc.
    + now rewrite extend_no_insights_l.
Qed.

Lemma body_insights_bucket (body : text) (ty : pattern_type) :
  bucket ty (body_insights body) = _extract_sentence_with_pattern body ty.
Proof. now destruct ty. Qed.

Lemma analyze_comments_bucket (cs : list comment) (ty : pattern_type) :
  bucket ty (analyze_comments cs) =
  flat_map (fun c => _extract_sentence_with_pattern (comment_body c) ty) cs.
Proof.
  induction cs as [|c cs IH]; [now destruct ty|].
  unfold analyze_comments. cbn [fold_left flat_map].
  rewrite analyze_comments_from, bucket_extend, IH. f_equal.
  destruct (comment_body c) eqn:E; cbn [nonempty].
  - now destruct ty.
  - apply body_insights_bucket.
Qed.

(** X3.  [analyze_comments] reads [body], or [text] when [body] is missing
    or empty; a comment with neither contributes nothing; the buckets of a
    list of comments are the fragments of each comment in turn, so analyzing
    two lists one after the other and extending gives the analysis of their
    concatenation; and a lone comment gives the buckets of a post that has
    its text as body and no title. *)
Theorem analyze_comments_concatenates (cs cs' : list comment) :
  analyze_comments (cs ++ cs') =
    extend_insights (analyze_comments cs) (analyze_comments cs') /\
  (forall ty,
      bucket ty (analyze_comments cs) =
      flat_map (fun c => _extract_sentence_with_pattern (comment_body c) ty)
               cs) /\
  analyze_comments (filter (fun c => nonempty (comment_body c)) cs) =
    analyze_comments cs /\
  (forall c, c_body c = None -> comment_body c = get (c_text c) []) /\
  (forall body,
      analyze_comments [Comment (Some body) None] =
      analyze_post (Post None None (Some body) None None None None None None)).
Proof.
  split; [|split; [|split; [|split]]].
  - unfold analyze_comments at 1. rewrite fold_left_app.
    fold (analyze_comments cs). apply analyze_comments_from.
  - intros ty. apply analyze_comments_bucket.
  - apply insights_eq. intros ty. rewrite !analyze_comments_bucket.
    induction cs as [|c cs IH]; [reflexivity|]. cbn [filter flat_map].
    destruct (comment_body c) eqn:E; cbn [nonempty].
    + rewrite IH. now destruct ty.
    + cbn [flat_map]. now rewrite E, IH.
  - intros c E. unfold comment_body. now rewrite E.
  - intros body. apply insights_eq. intros ty.
    rewrite analyze_comments_bucket, analyze_post_bucket, !extract_as_filter.
    cbn [flat_map]. rewrite app_nil_r, extract_as_filter.
    unfold post_title, post_body. cbn [p_title p_selftext p_body get].
    rewrite (segments_title_body [] _).
    unfold comment_body. cbn [c_body c_text get].
    assert (E : or_text body [] = body) by now destruct body.
    now rewrite E.
Qed.

(** * Further properties of the researcher *)

(** ** The posts of a community *)

Lemma categorize_in_labels (p : post) :
  In (categorize_post_by_intent p) intent_labels.
Proof.
  rewrite categorize_by_title. cbv zeta.
  destruct (asks_question _); [simpl; auto|].
  destruct (_matches_patterns _ pain); [simpl; auto|].
  destruct (_matches_patterns _ request); [simpl; auto|].
  destruct (has_showcase_phrase _); simpl; auto 6.
Qed.

Lemma process_post_reads (subreddit : text) (entry : post_entry) :
  post_title (process_post subreddit entry) =
    get (p_title (get (pe_data entry) (pe_self entry))) [] /\
  post_body (process_post subreddit entry) =
    get (p_selftext (get (pe_data entry) (pe_self entry))) [] /\
  post_score (process_post subreddit entry) =
    get (p_score (get (pe_data entry) (pe_self entry))) 0%Z.
Proof.
  unfold post_title, post_body, post_score, process_post. cbn.
  repeat split. now destruct (get (p_selftext _) []).
Qed.

(** X4.  [get_top_posts] returns one post per element of the listing, in
    order, each with every key present and [subreddit] set to the community
    asked for; the title, the score and [selftext] are those of the element
    (of the dict under [data] when the element has one), but a [body] key
    of the element is dropped, so the analysis of a fetched post never reads
    [body]; an error response gives no post. *)
Theorem get_top_posts_normalizes
        (posts_api : text -> nat -> posts_response)
        (subreddit : text) (limit : nat) :
  (is_some (pr_error (posts_api subreddit limit)) = true ->
   get_top_posts posts_api subreddit limit = []) /\
  (is_some (pr_error (posts_api subreddit limit)) = false ->
   get_top_posts posts_api subreddit limit =
   map (process_post subreddit)
       (or_list (get (pr_children (posts_api subreddit limit)) [])
                (get (pr_posts (posts_api subreddit limit)) []))) /\
  (forall p, In p (get_top_posts posts_api subreddit limit) ->
             p_subreddit p = Some subreddit /\ p_body p = None /\
             is_some (p_id p) = true /\ is_some (p_title p) = true /\
             is_some (p_selftext p) = true /\ is_some (p_score p) = true /\
             is_some (p_num_comments p) = true /\ is_some (p_url p) = true /\
             is_some (p_created_utc p) = true) /\
  (forall entry,
      post_title (process_post subreddit entry) =
        get (p_title (get (pe_data entry) (pe_self entry))) [] /\
      post_body (process_post subreddit entry) =
        get (p_selftext (get (pe_data entry) (pe_self entry))) [] /\
      post_score (process_post subreddit entry) =
        get (p_score (get (pe_data entry) (pe_self entry))) 0%Z).
Proof.
  unfold get_top_posts. cbv zeta.
  split; [now intros ->|]. split; [now intros ->|].
  split; [|apply process_post_reads].
  intros p Hp. destruct (is_some (pr_error _)); [destruct Hp|].
  apply in_map_iff in Hp. destruct Hp as (entry & <- & _).
  repeat split.
Qed.

Lemma get_top_posts_normalizes_witness :
  get_top_posts posts_fail (str "saas") 50 = [] /\
  map post_body (get_top_posts wrapped_posts (str "saas") 50) = [[]] /\
  map post_title (get_top_posts wrapped_posts (str "saas") 50) =
    [str "I made a CRM"].
Proof.
  destruct (get_top_posts_normalizes posts_fail (str "saas") 50)
    as (Hfail & _).
  split; [now apply Hfail|]. split; reflexivity.
Defined.

Lemma analyze_fold_split (posts : list post) (c : counter) (i : insights) :
  fold_left
    (fun (st : counter * insights) (p : post) =>
       (counter_add (categorize_post_by_intent p) (fst st),
        extend_insights (snd st) (analyze_post p)))
    posts (c, i)
  = (fold_left (fun c p => counter_add (categorize_post_by_intent p) c)
               posts c,
     fold_left (fun i p => extend_insights i (analyze_post p)) posts i).
Proof.
  revert c i. induction posts as [|p posts IH]; intros c i; [reflexivity|].
  cbn [fold_left fst snd]. apply IH.
Qed.

Lemma counter_add_total (w : text) (c : counter) :
  list_sum (map snd (counter_add w c)) = S (list_sum (map snd c)).
Proof.
  induction c as [|[k n] c IH]; simpl; [reflexivity|].
  destruct (text_eqb k w); simpl; [reflexivity|]. rewrite IH. lia.
Qed.

Lemma counter_rebuild (c : counter) (f : text -> nat) :
  (forall k n, In (k, n) c -> n = f k) ->
  c = map (fun k => (k, f k)) (map fst c).
Proof.
  induction c as [|[k n] c IH]; intros H; [reflexivity|]. simpl.
  rewrite <- (H k n (or_introl eq_refl)). f_equal.
  apply IH. intros k' n' Hin. apply H. now right.
Qed.

Lemma intent_count_snoc (label : text) (posts : list post) (p : post) :
  intent_count label (posts ++ [p]) =
  intent_count label posts +
  (if text_eqb (categorize_post_by_intent p) label then 1 else 0).
Proof.
  unfold intent_count. rewrite filter_app, length_app. simpl.
  now destruct (text_eqb (categorize_post_by_intent p) label).
Qed.

Lemma intent_labels_NoDup : NoDup intent_labels.
Proof.
  unfold intent_labels.
  repeat (constructor; [simpl; intuition discriminate|]). constructor.
Qed.

Lemma categories_counted (rest done : list post) (c : counter) :
  map fst c = intent_labels ->
  (forall k n, In (k, n) c -> n = intent_count k done) ->
  let c' := fold_left (fun c p => counter_add (categorize_post_by_intent p) c)
                      rest c in
  map fst c' = intent_labels /\
  forall k n, In (k, n) c' -> n = intent_count k (done ++ rest).
Proof.
  revert done c. induction rest as [|p rest IH]; intros done c Hk Hn; cbv zeta.
  - rewrite app_nil_r. now split.
  - cbn [fold_left].
    replace (done ++ p :: rest) with ((done ++ [p]) ++ rest)
      by now rewrite <- app_assoc.
    assert (Hin : existsb (text_eqb (categorize_post_by_intent p)) (map fst c)
                  = true).
    { rewrite Hk. apply existsb_exists.
      exists (categorize_post_by_intent p).
      split; [apply categorize_in_labels|apply text_eqb_refl]. }
    apply IH.
    + now rewrite counter_add_keys, Hin.
    + intros k n Hkn. rewrite intent_count_snoc.
      assert (Hnd : NoDup (map fst c)) by (rewrite Hk; apply intent_labels_NoDup).
      destruct (counter_add_In _ c k n Hnd Hkn)
        as [(-> & Hw & ->)|[(-> & m & Hm & ->)|(Hne & Hin')]].
      * exfalso. apply Hw. rewrite Hk. apply categorize_in_labels.
      * rewrite text_eqb_refl, <- (Hn _ m Hm). lia.
      * assert (E : text_eqb (categorize_post_by_intent p) k = false)
          by (apply text_eqb_neq; congruence).
        rewrite E, Nat.add_0_r. now apply Hn.
Qed.

Lemma categories_total (posts : list post) (c : counter) :
  list_sum (map snd
              (fold_left
                 (fun c p => counter_add (categorize_post_by_intent p) c)
                 posts c))
  = list_sum (map snd c) + List.length posts.
Proof.
  revert c. induction posts as [|p posts IH]; intros c; simpl; [lia|].
  rewrite IH, counter_add_total. lia.
Qed.

Lemma insights_fold (posts : list post) (i : insights) (ty : pattern_type) :
  bucket ty (fold_left (fun i p => extend_insights i (analyze_post p)) posts i)
  = bucket ty i ++ flat_map (fun p => bucket ty (analyze_post p)) posts.
Proof.
  revert i. induction posts as [|p posts IH]; intros i; simpl.
  - now rewrite app_nil_r.
  - now rewrite IH, bucket_extend, app_assoc.
Qed.

Lemma analyze_subreddit_bucket
      (posts_api : text -> nat -> posts_response)
      (subreddit : text) (post_limit : nat) (ty : pattern_type) :
  bucket ty (a_insights (analyze_subreddit posts_api subreddit post_limit)) =
  flat_map (fun p => bucket ty (analyze_post p))
           (get_top_posts posts_api subreddit post_limit).
Proof.
  unfold analyze_subreddit. cbv zeta. cbn [a_insights].
  rewrite analyze_fold_split. cbn [snd]. rewrite insights_fold.
  now destruct ty.
Qed.

(** X5.  The category counts of [analyze_subreddit] always list the five
    intents in the same order, each with the number of fetched posts of that
    intent, so the counts add up to [posts_analyzed]; every bucket is the
    fragments of the posts in fetch order; and [top_posts] is the first ten
    of the fetched posts. *)
Theorem analyze_subreddit_counts
        (posts_api : text -> nat -> posts_response)
        (subreddit : text) (post_limit : nat) :
  let posts := get_top_posts posts_api subreddit post_limit in
  let analysis := analyze_subreddit posts_api subreddit post_limit in
  a_post_categories analysis =
    map (fun label => (label, intent_count label posts)) intent_labels /\
  list_sum (map snd (a_post_categories analysis)) = a_posts_analyzed analysis /\
  a_posts_analyzed analysis = List.length posts /\
  (forall ty, bucket ty (a_insights analysis) =
              flat_map (fun p => bucket ty (analyze_post p)) posts) /\
  a_top_posts analysis = firstn 10 posts.
Proof.
  cbv zeta.
  set (posts := get_top_posts posts_api subreddit post_limit).
  assert (Ec : a_post_categories
                 (analyze_subreddit posts_api subreddit post_limit) =
               fold_left
                 (fun c p => counter_add (categorize_post_by_intent p) c)
                 posts initial_post_categories).
  { unfold analyze_subreddit. cbv zeta. cbn [a_post_categories].
    now rewrite analyze_fold_split. }
  destruct (categories_counted posts [] initial_post_categories)
    as [Hk Hn]; [reflexivity|intros k n Hin| ].
  { unfold initial_post_categories in Hin. apply in_map_iff in Hin.
    destruct Hin as (l & E & _). now injection E as <- <-. }
  split; [|split; [|split; [|split]]].
  - rewrite Ec, (counter_rebuild _ (fun k => intent_count k posts) Hn).
    now rewrite Hk.
  - rewrite Ec, categories_total. reflexivity.
  - reflexivity.
  - intros ty. apply analyze_subreddit_bucket.
  - reflexivity.
Qed.

(** When the fetch of a community fails, its analysis is the empty one. *)
Lemma analyze_subreddit_failed_fetch
        (posts_api : text -> nat -> posts_response)
        (subreddit : text) (post_limit : nat) :
  is_some (pr_error (posts_api subreddit post_limit)) = true ->
  analyze_subreddit posts_api subreddit post_limit = empty_analysis subreddit.
Proof.
  intros He. unfold analyze_subreddit, get_top_posts. cbv zeta.
  rewrite He. reflexivity.
Qed.

(** ** The searches of discovery *)

Lemma NoDup_prepend (base : text) (l : list text) :
  NoDup l -> NoDup (map (fun sfx => base ++ sfx) l).
Proof.
  induction 1 as [|x l Hx Hl IH]; simpl; constructor; [|exact IH].
  rewrite in_map_iff. intros (y & E & Hy). apply app_inv_head in E.
  now subst.
Qed.

Lemma five_suffixes_varied (niche : text) :
  NoDup (map (fun sfx => strip (lower niche) ++ sfx) five_suffixes) /\
  incl (map (fun sfx => strip (lower niche) ++ sfx) five_suffixes)
       (variations_of niche).
Proof.
  split.
  - apply NoDup_prepend. unfold five_suffixes.
    repeat (constructor; [simpl; intuition discriminate|]). constructor.
  - intros v Hv. unfold variations_of. cbv zeta.
    apply in_or_app. left. simpl in Hv. simpl. tauto.
Qed.

(** X6.  Discovery always searches exactly five variations, whatever the
    niche (even the empty one): the variation set never has fewer than five
    elements.  The five are pairwise different when the set enumeration has
    no repetition, every one of them is a variation of the niche, and each
    search asks for ten communities. *)
Theorem discovery_searches_five
        (set_to_list : list text -> list text)
        (set_to_list_In : forall xs x, In x (set_to_list xs) <-> In x xs)
        (search_api : text -> nat -> search_response)
        (niche : text) :
  List.length (queried_variations set_to_list niche) = 5 /\
  List.length (search_results set_to_list search_api niche) = 5 /\
  search_results set_to_list search_api niche =
    map (fun v => search_api v 10) (queried_variations set_to_list niche) /\
  (forall v, In v (queried_variations set_to_list niche) ->
             In v (variations_of niche)) /\
  ((forall xs, NoDup (set_to_list xs)) ->
   NoDup (queried_variations set_to_list niche)).
Proof.
  assert (H5 : List.length (queried_variations set_to_list niche) = 5).
  { unfold queried_variations, generate_niche_variations.
    rewrite length_firstn. apply Nat.min_l.
    destruct (five_suffixes_varied niche) as [Hnd Hincl].
    change 5 with
      (List.length (map (fun sfx => strip (lower niche) ++ sfx) five_suffixes)).
    apply NoDup_incl_length; [exact Hnd|].
    intros v Hv. apply set_to_list_In. now apply Hincl. }
  split; [exact H5|].
  split; [unfold search_results; rewrite length_map; exact H5|].
  split; [reflexivity|].
  split.
  - intros v Hv. unfold queried_variations, generate_niche_variations in Hv.
    apply In_firstn in Hv. exact (proj1 (set_to_list_In _ _) Hv).
  - intros Hnd. apply NoDup_firstn_of, Hnd.
Qed.

Lemma discovery_searches_five_witness :
  List.length (search_results distinct_in_order one_community []) = 5.
Proof.
  apply (discovery_searches_five distinct_in_order
           (fun xs x => nodup_In text_eq_dec xs x) one_community []).
Defined.

Lemma candidates_shape (results : list search_response) (c : community) :
  In c (candidates results) ->
  name c <> [] /\ url c = str "https://reddit.com/r/" ++ name c /\
  List.length (description c) <= 200.
Proof.
  unfold candidates. rewrite in_flat_map. intros (r & _ & Hc).
  unfold response_candidates in Hc.
  destruct (is_some (sr_error r)); [destruct Hc|].
  apply filter_In in Hc. destruct Hc as [Hc Hne].
  apply in_map_iff in Hc. destruct Hc as (sub & <- & _).
  split; [intros E; now rewrite E in Hne|].
  split; [reflexivity|].
  unfold candidate_of. cbn [description]. rewrite length_firstn.
  apply Nat.le_min_l.
Qed.

Lemma first_named_In (k : text) (cs : list community) (c : community) :
  first_named k cs = Some c -> In c cs.
Proof. unfold first_named. intros H. now apply find_some in H. Qed.

(** X7.  Every community that discovery returns has a non-empty name, the
    URL [https://reddit.com/r/<name>] and a description of at most 200
    characters; elements without a name are never returned.  Asking for
    fewer communities gives a prefix of what asking for more gives. *)
Theorem discovered_community_shape
        (set_to_list : list text -> list text)
        (search_api : text -> nat -> search_response)
        (niche : text) (max_subreddits : nat) :
  (forall c,
      In c (discover_subreddits set_to_list search_api niche max_subreddits) ->
      name c <> [] /\ url c = str "https://reddit.com/r/" ++ name c /\
      List.length (description c) <= 200) /\
  (forall fewer,
      fewer <= max_subreddits ->
      discover_subreddits set_to_list search_api niche fewer =
      firstn fewer
        (discover_subreddits set_to_list search_api niche max_subreddits)).
Proof.
  split.
  - intros c Hc. apply (candidates_shape
                          (search_results set_to_list search_api niche)).
    unfold discover_subreddits, discover_from in Hc. apply In_firstn in Hc.
    apply ranked_subreddits_first_wins in Hc.
    now apply first_named_In in Hc.
  - intros fewer Hle. unfold discover_subreddits, discover_from. cbv zeta.
    now rewrite firstn_firstn, Nat.min_l.
Qed.

Lemma discovered_community_shape_witness :
  map (fun c => (name c, subscribers c))
      (discover_subreddits distinct_in_order repeated_community (str "crm") 5)
  = [(str "crm", 10%Z); (str "sales", 0%Z)] /\
  discover_subreddits distinct_in_order repeated_community (str "crm") 1 =
    firstn 1
      (discover_subreddits distinct_in_order repeated_community (str "crm") 5).
Proof.
  split; [reflexivity|].
  apply (discovered_community_shape distinct_in_order repeated_community
           (str "crm") 5). lia.
Defined.

(** ** The report *)

Lemma flat_map_flat_map {A B C : Type} (f : B -> list C) (g : A -> list B)
      (l : list A) :
  flat_map f (flat_map g l) = flat_map (fun x => flat_map f (g x)) l.
Proof.
  induction l as [|x l IH]; simpl; [reflexivity|].
  now rewrite flat_map_app, IH.
Qed.

Lemma analyze_steps_insights
      (posts_api : text -> nat -> posts_response) (per : nat)
      (subs : list community) (st : run_state) (ty : pattern_type) :
  category_bucket ty
    (all_insights (fold_left (analyze_step posts_api per) subs st)) =
  category_bucket ty (all_insights st) ++
  fragments_of ty
    (flat_map (fun sub => get_top_posts posts_api (name sub) per) subs).
Proof.
  revert st. induction subs as [|sub subs IH]; intros st; cbn [fold_left flat_map].
  - unfold fragments_of. simpl. now rewrite app_nil_r.
  - rewrite IH. unfold fragments_of. rewrite flat_map_app, app_assoc. f_equal.
    rewrite <- (analyze_subreddit_bucket posts_api (name sub) per ty).
    now destruct ty.
Qed.

Lemma analyze_steps_untouched
      (posts_api : text -> nat -> posts_response) (per : nat)
      (subs : list community) (st : run_state) :
  frustrations (all_insights (fold_left (analyze_step posts_api per) subs st))
    = frustrations (all_insights st) /\
  perspectives (all_insights (fold_left (analyze_step posts_api per) subs st))
    = perspectives (all_insights st).
Proof.
  revert st. induction subs as [|sub subs IH]; intros st; [now split|].
  cbn [fold_left]. destruct (IH (analyze_step posts_api per st sub)) as [-> ->].
  now split.
Qed.

Lemma research_niche_fields
      (set_to_list : list text -> list text)
      (search_api : text -> nat -> search_response)
      (posts_api : text -> nat -> posts_response)
      (now niche : text) (max_subreddits per : nat)
      (report : ResearchReport) :
  research_niche set_to_list search_api posts_api now niche max_subreddits per
    = Some report ->
  let subreddits :=
    discover_subreddits set_to_list search_api niche max_subreddits in
  let st :=
    fold_left (analyze_step posts_api per)
              (firstn max_subreddits subreddits) initial_run_state in
  let insights := finalize_insights set_to_list (all_insights st) in
  subreddits <> [] /\
  r_niche report = niche /\ r_timestamp report = now /\
  r_subreddits_found report = subreddits /\
  (forall ty, report_bucket ty report = category_bucket ty insights) /\
  r_frustrations report = frustrations insights /\
  r_common_themes report =
    map fst (most_common 20 (counter_update [] (all_themes st))) /\
  r_saas_opportunities report = generate_saas_opportunities insights.
Proof.
  unfold research_niche.
  destruct (discover_subreddits set_to_list search_api niche max_subreddits);
    [discriminate|].
  intros H. injection H as <-. cbv zeta.
  split; [discriminate|]. repeat split.
Qed.

Lemma finalize_bucket (set_to_list : list text -> list text)
      (c : InsightCategory) (ty : pattern_type) :
  category_bucket ty (finalize_insights set_to_list c) =
  dedup_cap set_to_list (bucket_cap ty) (category_bucket ty c).
Proof. now destruct ty. Qed.

Lemma fetched_fragments
      (set_to_list : list text -> list text)
      (search_api : text -> nat -> search_response)
      (posts_api : text -> nat -> posts_response)
      (niche : text) (max_subreddits per : nat) (ty : pattern_type) :
  category_bucket ty
    (all_insights
       (fold_left (analyze_step posts_api per)
          (firstn max_subreddits
             (discover_subreddits set_to_list search_api niche max_subreddits))
          initial_run_state))
  = fragments_of ty
      (fetched_posts set_to_list search_api posts_api niche max_subreddits per).
Proof.
  rewrite analyze_steps_insights. unfold fetched_posts. now destruct ty.
Qed.

(** X8.  The fragments of a report come from all the fetched posts, not only
    from the ten kept of each community: every fragment reported for a
    family was extracted for that family from some fetched post, so a
    pattern of the family matches it; a bucket holds no fragment twice and
    at most its cap; and when the distinct fragments of a family fit in the
    cap, every one of them is reported. *)
Theorem report_fragments_from_fetched_posts
        (set_to_list : list text -> list text)
        (set_to_list_NoDup : forall xs, NoDup (set_to_list xs))
        (set_to_list_In : forall xs x, In x (set_to_list xs) <-> In x xs)
        (search_api : text -> nat -> search_response)
        (posts_api : text -> nat -> posts_response)
        (now niche : text) (max_subreddits per : nat)
        (report : ResearchReport) (ty : pattern_type) :
  research_niche set_to_list search_api posts_api now niche max_subreddits per
    = Some report ->
  let fetched :=
    fetched_posts set_to_list search_api posts_api niche max_subreddits per in
  (forall x, In x (report_bucket ty report) ->
             _matches_patterns x ty = true /\
             exists p, In p fetched /\ In x (bucket ty (analyze_post p))) /\
  NoDup (report_bucket ty report) /\
  List.length (report_bucket ty report) =
    Nat.min (bucket_cap ty) (distinct_count (fragments_of ty fetched)) /\
  (distinct_count (fragments_of ty fetched) <= bucket_cap ty ->
   forall p x, In p fetched -> In x (bucket ty (analyze_post p)) ->
               In x (report_bucket ty report)).
Proof.
  intros H. cbv zeta.
  destruct (research_niche_fields _ _ _ _ _ _ _ _ H)
    as (_ & _ & _ & _ & Hb & _).
  cbv zeta in Hb. rewrite (Hb ty), finalize_bucket, fetched_fragments.
  set (fetched := fetched_posts set_to_list search_api posts_api niche
                                max_subreddits per).
  split; [|split; [|split]].
  - intros x Hx. unfold dedup_cap in Hx. apply In_firstn in Hx.
    apply (proj1 (set_to_list_In _ _)) in Hx.
    unfold fragments_of in Hx. apply in_flat_map in Hx.
    destruct Hx as (p & Hp & Hx). split; [|now exists p].
    rewrite analyze_post_bucket, extract_as_filter in Hx.
    now apply filter_In in Hx.
  - now apply dedup_cap_NoDup.
  - now apply dedup_cap_length.
  - intros Hle p x Hp Hx. unfold dedup_cap. rewrite firstn_all2.
    + apply set_to_list_In. unfold fragments_of. apply in_flat_map.
      now exists p.
    + now rewrite (Permutation_length
                     (set_to_list_distinct set_to_list set_to_list_NoDup
                                           set_to_list_In _)).
Qed.

Lemma report_fragments_from_fetched_posts_witness :
  option_map (fun report => List.length (report_bucket pain report))
    (research_niche distinct_in_order one_community three_posts
                    (str "2026-01-01T00:00:00") (str "crm") 5 50)
  = Some 2.
Proof.
  destruct (research_niche distinct_in_order one_community three_posts
                           (str "2026-01-01T00:00:00") (str "crm") 5 50)
    as [report|] eqn:E.
  - destruct (report_fragments_from_fetched_posts
                distinct_in_order
                (fun xs => NoDup_nodup text_eq_dec xs)
                (fun xs x => nodup_In text_eq_dec xs x)
                one_community three_posts
                (str "2026-01-01T00:00:00") (str "crm") 5 50 report pain E)
      as (_ & _ & Hlen & _).
    cbn [option_map]. rewrite Hlen. reflexivity.
  - vm_compute in E. discriminate.
Defined.

(** X9.  A report carries the niche and the timestamp it was given and the
    communities that discovery returned, of which there is at least one and
    at most [max_subreddits]; its [frustrations] are always empty, since no
    step of the run fills them; and its opportunities are generated from
    the deduplicated and capped buckets of the report itself, pain points
    first, so solutions and beliefs never produce one. *)
Theorem report_header_and_opportunities
        (set_to_list : list text -> list text)
        (search_api : text -> nat -> search_response)
        (posts_api : text -> nat -> posts_response)
        (now niche : text) (max_subreddits per : nat)
        (report : ResearchReport) :
  research_niche set_to_list search_api posts_api now niche max_subreddits per
    = Some report ->
  r_niche report = niche /\ r_timestamp report = now /\
  r_subreddits_found report =
    discover_subreddits set_to_list search_api niche max_subreddits /\
  1 <= List.length (r_subreddits_found report) <= max_subreddits /\
  r_frustrations report = [] /\
  map o_signal (r_saas_opportunities report) =
    firstn 10 (r_pain_points report) ++ firstn 10 (r_questions report) ++
    firstn 10 (r_requests report).
Proof.
  intros H.
  destruct (research_niche_fields _ _ _ _ _ _ _ _ H)
    as (Hne & Hn & Ht & Hs & Hb & Hf & _ & Ho).
  cbv zeta in *.
  split; [exact Hn|]. split; [exact Ht|]. split; [exact Hs|].
  split; [|split].
  - rewrite Hs. split.
    + destruct (discover_subreddits _ _ _ _); [contradiction|simpl; lia].
    + unfold discover_subreddits, discover_from. rewrite length_firstn.
      apply Nat.le_min_l.
  - rewrite Hf. cbn [finalize_insights frustrations].
    now rewrite (proj1 (analyze_steps_untouched _ _ _ _)).
  - rewrite Ho, (Hb pain : r_pain_points report = _),
      (Hb question : r_questions report = _),
      (Hb request : r_requests report = _).
    unfold generate_saas_opportunities. rewrite !map_app, !map_map.
    cbn [o_signal pain_opportunity question_opportunity request_opportunity
         category_bucket].
    now rewrite !map_id.
Qed.

Lemma report_header_and_opportunities_witness :
  option_map r_frustrations
    (research_niche distinct_in_order one_community three_posts
                    (str "2026-01-01T00:00:00") (str "crm") 5 50)
  = Some [].
Proof.
  destruct (research_niche distinct_in_order one_community three_posts
                           (str "2026-01-01T00:00:00") (str "crm") 5 50)
    as [report|] eqn:E.
  - destruct (report_header_and_opportunities
                distinct_in_order one_community three_posts
                (str "2026-01-01T00:00:00") (str "crm") 5 50 report E)
      as (_ & _ & _ & _ & Hf & _).
    cbn [option_map]. now rewrite Hf.
  - vm_compute in E. discriminate.
Defined.

(** ** The posts and the themes of the report *)

Lemma In_skipn_In {A : Type} (n : nat) (l : list A) (x : A) :
  In x (skipn n l) -> In x l.
Proof.
  revert n. induction l as [|y l IH]; intros [|n]; simpl; try tauto.
  intros H. right. now apply (IH n).
Qed.

Lemma sorted_split {A : Type} (R : A -> A -> Prop) (n : nat) (l : list A) :
  StronglySorted R l ->
  forall a b, In a (firstn n l) -> In b (skipn n l) -> R a b.
Proof.
  revert n. induction l as [|x l IH]; intros [|n] Hs a b Ha Hb;
    simpl in *; try contradiction.
  inversion Hs as [|? ? Hl Hall]; subst.
  destruct Ha as [<-|Ha].
  - rewrite Forall_forall in Hall. apply Hall. now apply In_skipn_In in Hb.
  - now apply (IH n Hl).
Qed.

(** X10.  The posts left out of [top_posts] never outscore a post in it:
    the kept posts are the reported ones together with the posts left out,
    and every post left out has a score no higher than every reported post;
    with at most 20 kept posts, all of them are reported. *)
Theorem top_posts_are_the_highest
        (set_to_list : list text -> list text)
        (search_api : text -> nat -> search_response)
        (posts_api : text -> nat -> posts_response)
        (now niche : text) (max_subreddits per : nat)
        (report : ResearchReport) :
  research_niche set_to_list search_api posts_api now niche max_subreddits per
    = Some report ->
  let kept :=
    kept_posts posts_api
      (firstn max_subreddits
         (discover_subreddits set_to_list search_api niche max_subreddits))
      per in
  exists left_out,
    Permutation (r_top_posts report ++ left_out) kept /\
    (forall a b, In a (r_top_posts report) -> In b left_out ->
                 (post_score b <= post_score a)%Z) /\
    List.length (r_top_posts report) = Nat.min 20 (List.length kept) /\
    (List.length kept <= 20 -> left_out = []).
Proof.
  intros H. cbv zeta.
  destruct (research_niche_report _ _ _ _ _ _ _ _ H) as [Et _].
  cbv zeta in Et.
  destruct (analyze_steps_posts posts_api per
              (firstn max_subreddits
                 (discover_subreddits set_to_list search_api niche
                                      max_subreddits))
              initial_run_state) as [E1 _].
  change (all_posts initial_run_state) with (@nil post) in E1.
  rewrite E1, app_nil_l in Et. rewrite Et.
  set (kept := kept_posts _ _ _).
  exists (skipn 20 (sort_desc post_score kept)).
  split; [|split; [|split]].
  - rewrite firstn_skipn. apply sort_desc_perm.
  - intros a b Ha Hb.
    apply (sorted_split (desc post_score) 20 (sort_desc post_score kept));
      [apply sort_desc_sorted|exact Ha|exact Hb].
  - now rewrite length_firstn, sort_desc_length.
  - intros Hle. apply skipn_all2. now rewrite sort_desc_length.
Qed.

Lemma top_posts_are_the_highest_witness :
  option_map (fun report => List.length (r_top_posts report))
    (research_niche distinct_in_order one_community three_posts
                    (str "2026-01-01T00:00:00") (str "crm") 5 50)
  = Some 3.
Proof.
  destruct (research_niche distinct_in_order one_community three_posts
                           (str "2026-01-01T00:00:00") (str "crm") 5 50)
    as [report|] eqn:E.
  - destruct (top_posts_are_the_highest
                distinct_in_order one_community three_posts
                (str "2026-01-01T00:00:00") (str "crm") 5 50 report E)
      as (left_out & _ & _ & Hlen & _).
    cbn [option_map]. rewrite Hlen. reflexivity.
  - vm_compute in E. discriminate.
Defined.

Lemma word_ranking_sorted_keys (ws : list text) :
  word_ranking ws =
  sort_desc (fun w => Z.of_nat (occurrences w ws))
            (map fst (counter_update [] ws)).
Proof.
  unfold word_ranking. apply sort_desc_map. intros [k n] Hin. simpl.
  now rewrite (counted_counts _ _ _ (counter_update_all ws) k n Hin).
Qed.

Lemma word_ranking_spec (ws : list text) :
  NoDup (word_ranking ws) /\
  (forall w, In w (word_ranking ws) <-> In w ws) /\
  StronglySorted (ranked_ahead ws) (word_ranking ws).
Proof.
  rewrite word_ranking_sorted_keys. split; [|split].
  - eapply Permutation_NoDup; [apply Permutation_sym, sort_desc_perm|].
    apply (counted_NoDup _ _ _ (counter_update_all ws)).
  - intros w. rewrite sort_desc_In.
    apply (counted_keys _ _ _ (counter_update_all ws)).
  - eapply StronglySorted_weaken;
      [|apply (sort_desc_ties
                 (fun w => Z.of_nat (occurrences w ws))
                 (fun a b => first_index a ws < first_index b ws));
        apply (counted_order _ _ _ (counter_update_all ws))].
    unfold key_then, ranked_ahead. intros a b [H|[H1 H2]]; [left; lia|right].
    split; [lia|exact H2].
Qed.

Lemma analyze_steps_themes
      (posts_api : text -> nat -> posts_response) (per : nat)
      (subs : list community) (st : run_state) :
  all_themes (fold_left (analyze_step posts_api per) subs st) =
  all_themes st ++ community_themes posts_api subs per.
Proof.
  revert st. induction subs as [|sub subs IH]; intros st; simpl.
  - now rewrite app_nil_r.
  - rewrite IH. cbn [analyze_step all_themes]. now rewrite <- app_assoc.
Qed.

Lemma occurrences_NoDup (w : text) (l : list text) :
  NoDup l -> occurrences w l = if existsb (text_eqb w) l then 1 else 0.
Proof.
  unfold occurrences. induction 1 as [|x l Hx Hl IH]; simpl; [reflexivity|].
  destruct (text_eq_dec x w) as [->|Hne].
  - rewrite text_eqb_refl. simpl.
    now rewrite (proj1 (count_occ_not_In text_eq_dec l w) Hx).
  - assert (E : text_eqb w x = false) by (apply text_eqb_neq; congruence).
    now rewrite E.
Qed.

Lemma extract_common_themes_NoDup (posts : list post) (n : nat) :
  NoDup (extract_common_themes posts n).
Proof.
  rewrite extract_common_themes_prefix.
  apply NoDup_firstn_of, theme_ranking_NoDup.
Qed.

Lemma community_themes_count
      (posts_api : text -> nat -> posts_response)
      (subs : list community) (per : nat) (theme : text) :
  occurrences theme (community_themes posts_api subs per) =
  communities_with_theme posts_api subs per theme.
Proof.
  unfold community_themes, communities_with_theme.
  induction subs as [|sub subs IH]; [reflexivity|].
  cbn [flat_map filter]. rewrite occurrences_app, IH.
  rewrite (occurrences_NoDup _ _ (extract_common_themes_NoDup _ 20)).
  now destruct (existsb _ _).
Qed.

(** X11.  The themes of a report are not ranked by how often a word occurs
    in titles: each analyzed community contributes its own (at most 20)
    themes once, and the report lists the first 20 words of the ranking by
    the number of communities that have the word among their themes, words
    of equal count in the order of the communities; no theme is listed
    twice and every listed theme is a theme of some analyzed community. *)
Theorem report_themes_by_community
        (set_to_list : list text -> list text)
        (search_api : text -> nat -> search_response)
        (posts_api : text -> nat -> posts_response)
        (now niche : text) (max_subreddits per : nat)
        (report : ResearchReport) :
  research_niche set_to_list search_api posts_api now niche max_subreddits per
    = Some report ->
  let subreddits :=
    firstn max_subreddits
      (discover_subreddits set_to_list search_api niche max_subreddits) in
  let themes := community_themes posts_api subreddits per in
  r_common_themes report = firstn 20 (word_ranking themes) /\
  NoDup (r_common_themes report) /\
  (forall t, In t (r_common_themes report) -> In t themes) /\
  StronglySorted (ranked_ahead themes) (r_common_themes report) /\
  (forall t, occurrences t themes =
             communities_with_theme posts_api subreddits per t).
Proof.
  intros H. cbv zeta.
  destruct (research_niche_fields _ _ _ _ _ _ _ _ H)
    as (_ & _ & _ & _ & _ & _ & Ht & _).
  cbv zeta in Ht. rewrite analyze_steps_themes in Ht.
  change (all_themes initial_run_state) with (@nil text) in Ht.
  rewrite app_nil_l in Ht.
  set (themes := community_themes posts_api _ per) in *.
  assert (E : r_common_themes report = firstn 20 (word_ranking themes)).
  { rewrite Ht. unfold most_common, word_ranking. symmetry. apply firstn_map. }
  destruct (word_ranking_spec themes) as (Hnd & Hin & Hs).
  rewrite E.
  split; [reflexivity|].
  split; [now apply NoDup_firstn_of|].
  split; [intros t Ht'; apply Hin; revert Ht'; apply In_firstn|].
  split; [now apply StronglySorted_firstn|].
  intros t. apply community_themes_count.
Qed.

Lemma report_themes_by_community_witness :
  option_map r_common_themes
    (research_niche distinct_in_order one_community three_posts
                    (str "2026-01-01T00:00:00") (str "crm") 5 50)
  = Some (map str ["crm"; "hate"; "expensive"; "tips"]%string).
Proof.
  destruct (research_niche distinct_in_order one_community three_posts
                           (str "2026-01-01T00:00:00") (str "crm") 5 50)
    as [report|] eqn:E.
  - destruct (report_themes_by_community
                distinct_in_order one_community three_posts
                (str "2026-01-01T00:00:00") (str "crm") 5 50 report E)
      as (Ht & _).
    cbn [option_map]. rewrite Ht. reflexivity.
  - vm_compute in E. discriminate.
Defined.

(** ** Failed fetches *)

Lemma get_top_posts_failed
      (posts_api : text -> nat -> posts_response)
      (subreddit : text) (limit : nat) :
  is_some (pr_error (posts_api subreddit limit)) = true ->
  get_top_posts posts_api subreddit limit = [].
Proof. intros He. unfold get_top_posts. cbv zeta. now rewrite He. Qed.

Lemma flat_map_all_nil {A B : Type} (f : A -> list B) (l : list A) :
  (forall x, In x l -> f x = []) -> flat_map f l = [].
Proof.
  induction l as [|x l IH]; intros H; [reflexivity|]. simpl.
  rewrite (H x (or_introl eq_refl)), IH; [reflexivity|].
  intros y Hy. apply H. now right.
Qed.

Lemma dedup_cap_nil (set_to_list : list text -> list text) (cap : nat) :
  (forall xs x, In x (set_to_list xs) <-> In x xs) ->
  dedup_cap set_to_list cap [] = [].
Proof.
  intros H. unfold dedup_cap.
  destruct (set_to_list []) as [|x l] eqn:E; [now destruct cap|].
  exfalso. apply (proj1 (H [] x)). rewrite E. now left.
Qed.

(** X12.  Communities were found but every fetch of their posts failed:
    the run still returns a report, not [None]; the report counts no post
    and has no top post, no fragment in any bucket, no theme and no
    opportunity. *)
Theorem failed_fetches_give_empty_report
        (set_to_list : list text -> list text)
        (set_to_list_In : forall xs x, In x (set_to_list xs) <-> In x xs)
        (search_api : text -> nat -> search_response)
        (posts_api : text -> nat -> posts_response)
        (now niche : text) (max_subreddits per : nat) :
  discover_subreddits set_to_list search_api niche max_subreddits <> [] ->
  (forall sub,
      In sub (discover_subreddits set_to_list search_api niche max_subreddits)
      -> is_some (pr_error (posts_api (name sub) per)) = true) ->
  exists report,
    research_niche set_to_list search_api posts_api now niche max_subreddits
                   per = Some report /\
    r_total_posts_analyzed report = 0 /\
    r_top_posts report = [] /\
    (forall ty, report_bucket ty report = []) /\
    r_common_themes report = [] /\
    r_saas_opportunities report = [].
Proof.
  intros Hne Hfail.
  destruct (research_niche set_to_list search_api posts_api now niche
                           max_subreddits per) as [report|] eqn:E.
  2:{ exfalso. unfold research_niche in E.
      destruct (discover_subreddits set_to_list search_api niche
                                    max_subreddits);
        [contradiction|discriminate]. }
  exists report. split; [reflexivity|].
  set (subs := firstn max_subreddits
                 (discover_subreddits set_to_list search_api niche
                                      max_subreddits)).
  assert (Hposts : forall sub, In sub subs ->
                               get_top_posts posts_api (name sub) per = []).
  { intros sub Hs. apply get_top_posts_failed, Hfail.
    revert Hs. apply In_firstn. }
  assert (Hfetched :
            flat_map (fun sub => get_top_posts posts_api (name sub) per) subs
            = []) by now apply flat_map_all_nil.
  destruct (research_niche_report _ _ _ _ _ _ _ _ E) as [Et Ec].
  destruct (research_niche_fields _ _ _ _ _ _ _ _ E)
    as (_ & _ & _ & _ & Hb & _ & Hth & Ho).
  cbv zeta in Et, Ec, Hb, Hth, Ho. fold subs in Et, Ec, Hb, Hth, Ho.
  destruct (analyze_steps_posts posts_api per subs initial_run_state)
    as [E1 E2].
  assert (Hbuckets : forall ty, report_bucket ty report = []).
  { intros ty. rewrite (Hb ty), finalize_bucket, analyze_steps_insights.
    rewrite Hfetched.
    replace (category_bucket ty (all_insights initial_run_state)) with
      (@nil text) by now destruct ty.
    now apply dedup_cap_nil. }
  split; [|split; [|split; [|split]]].
  - rewrite Ec, E2, Hfetched. reflexivity.
  - rewrite Et, E1. unfold kept_posts.
    rewrite flat_map_all_nil; [reflexivity|].
    intros sub Hs. now rewrite (Hposts sub Hs).
  - exact Hbuckets.
  - rewrite Hth, analyze_steps_themes. unfold community_themes.
    rewrite flat_map_all_nil; [reflexivity|].
    intros sub Hs. now rewrite (Hposts sub Hs).
  - rewrite Ho. unfold generate_saas_opportunities.
    pose proof (Hb pain) as Hp. pose proof (Hb question) as Hq.
    pose proof (Hb request) as Hr.
    rewrite Hbuckets in Hp, Hq, Hr. cbn [category_bucket] in Hp, Hq, Hr.
    now rewrite <- Hp, <- Hq, <- Hr.
Qed.

Lemma failed_fetches_give_empty_report_witness :
  exists report,
    research_niche distinct_in_order one_community posts_fail
                   (str "2026-01-01T00:00:00") (str "crm") 5 50
    = Some report /\
    r_total_posts_analyzed report = 0.
Proof.
  destruct (failed_fetches_give_empty_report
              distinct_in_order (fun xs x => nodup_In text_eq_dec xs x)
              one_community posts_fail
              (str "2026-01-01T00:00:00") (str "crm") 5 50)
    as (report & E & Hz & _).
  - vm_compute. discriminate.
  - intros sub _. reflexivity.
  - now exists report.
Defined.

(** * Properties of the client *)

Lemma get_top_posts_ext
      (api api' : text -> nat -> posts_response)
      (subreddit : text) (limit limit' : nat) :
  api subreddit limit = api' subreddit limit' ->
  get_top_posts api subreddit limit = get_top_posts api' subreddit limit'.
Proof. intros E. unfold get_top_posts. cbv zeta. now rewrite E. Qed.

Lemma analyze_subreddit_ext
      (api api' : text -> nat -> posts_response)
      (subreddit : text) (limit limit' : nat) :
  api subreddit limit = api' subreddit limit' ->
  analyze_subreddit api subreddit limit =
  analyze_subreddit api' subreddit limit'.
Proof.
  intros E. unfold analyze_subreddit. cbv zeta.
  now rewrite (get_top_posts_ext api api' subreddit limit limit' E).
Qed.

Lemma analyze_steps_ext
      (api api' : text -> nat -> posts_response) (per per' : nat)
      (subs : list community) (st : run_state) :
  (forall s, api s per = api' s per') ->
  fold_left (analyze_step api per) subs st =
  fold_left (analyze_step api' per') subs st.
Proof.
  intros E. revert st. induction subs as [|sub subs IH]; intros st;
    [reflexivity|].
  cbn [fold_left]. rewrite IH. f_equal. unfold analyze_step. cbv zeta.
  now rewrite (analyze_subreddit_ext api api' (name sub) per per' (E _)).
Qed.

(** X13.  [get_posts] sends the URL of the community and the sort only:
    neither [time_filter] nor [limit] reaches the request.  So with this
    client the posts fetched for a community, its analysis and the whole
    research report are the same for every [posts_per_subreddit]. *)
Theorem posts_limit_has_no_effect
        (set_to_list : list text -> list text)
        (http_search : api_request -> text + search_response)
        (http_posts : api_request -> text + posts_response)
        (now niche : text) (max_subreddits per per' : nat) :
  (forall subreddit sort time_filter time_filter' limit limit',
      client_get_posts http_posts subreddit sort time_filter limit =
      client_get_posts http_posts subreddit sort time_filter' limit') /\
  (forall subreddit,
      analyze_subreddit (client_get_top_posts_year http_posts) subreddit per =
      analyze_subreddit (client_get_top_posts_year http_posts) subreddit per')
  /\
  research_niche set_to_list (client_search_subreddits http_search)
                 (client_get_top_posts_year http_posts)
                 now niche max_subreddits per =
  research_niche set_to_list (client_search_subreddits http_search)
                 (client_get_top_posts_year http_posts)
                 now niche max_subreddits per'.
Proof.
  split; [reflexivity|].
  split; [intros subreddit; now apply analyze_subreddit_ext|].
  unfold research_niche.
  destruct (discover_subreddits set_to_list
              (client_search_subreddits http_search) niche max_subreddits)
    as [|sub subs]; [reflexivity|].
  cbv zeta.
  now rewrite (analyze_steps_ext
                 (client_get_top_posts_year http_posts)
                 (client_get_top_posts_year http_posts) per per').
Qed.

Lemma client_search_failure
      (http_search : api_request -> text + search_response)
      (query : text) (limit : nat) (e : text) :
  http_search (search_request query (str "subreddits") None
                              (str "relevance") (str "all") limit) = inl e ->
  client_search_subreddits http_search query limit = search_failure e.
Proof.
  intros H. unfold client_search_subreddits, client_search, _request_search.
  now rewrite H.
Qed.

(** X14.  An exception raised by the transport never leaves the client: the
    search returns a dict with the message under [error], discovery skips
    it, and a fetch that raises gives no post.  When every search raises,
    discovery finds nothing and the research run returns [None]. *)
Theorem transport_failures_are_absorbed
        (set_to_list : list text -> list text)
        (http_search : api_request -> text + search_response)
        (http_posts : api_request -> text + posts_response)
        (now niche : text) (max_subreddits per : nat) :
  (forall query limit e,
      http_search (search_request query (str "subreddits") None
                                  (str "relevance") (str "all") limit)
      = inl e ->
      sr_error (client_search_subreddits http_search query limit) = Some e /\
      forall found,
        add_response found (client_search_subreddits http_search query limit)
        = found) /\
  (forall subreddit limit e,
      http_posts (posts_request subreddit (str "top")) = inl e ->
      get_top_posts (client_get_top_posts_year http_posts) subreddit limit
      = []) /\
  ((forall rq, exists e, http_search rq = inl e) ->
   discover_subreddits set_to_list (client_search_subreddits http_search)
                       niche max_subreddits = [] /\
   research_niche set_to_list (client_search_subreddits http_search)
                  (client_get_top_posts_year http_posts)
                  now niche max_subreddits per = None).
Proof.
  split; [|split].
  - intros query limit e H.
    rewrite (client_search_failure http_search query limit e H).
    split; reflexivity.
  - intros subreddit limit e H. apply get_top_posts_failed.
    unfold client_get_top_posts_year, client_get_posts, _request_posts.
    now rewrite H.
  - intros Hall.
    assert (E : discover_subreddits set_to_list
                  (client_search_subreddits http_search) niche max_subreddits
                = []).
    { unfold discover_subreddits, discover_from.
      rewrite no_candidates_nothing_found; [now destruct max_subreddits|].
      apply candidates_nil. intros r Hr. left.
      unfold search_results in Hr. apply in_map_iff in Hr.
      destruct Hr as (v & <- & _).
      destruct (Hall (search_request v (str "subreddits") None
                                     (str "relevance") (str "all") 10))
        as (e & He).
      now rewrite (client_search_failure http_search v 10 e He). }
    split; [exact E|]. unfold research_niche. now rewrite E.
Qed.

Lemma transport_failures_are_absorbed_witness :
  research_niche distinct_in_order
                 (client_search_subreddits search_unreachable)
                 (client_get_top_posts_year echo_filter)
                 (str "2026-01-01T00:00:00") (str "crm") 5 50 = None.
Proof.
  apply (transport_failures_are_absorbed
           distinct_in_order search_unreachable echo_filter
           (str "2026-01-01T00:00:00") (str "crm") 5 50).
  intros rq. now exists (str "Connection refused").
Defined.

(** * Properties of the watermark run *)

(** The fragments that a listed element contributes: those of its post when
    it is relevant, none otherwise. *)
Lemma watermark_posts_fold (sub : text) (items : list item)
      (st : list post_info * insights) :
  fst (fold_left (watermark_post_step sub) items st) =
    fst st ++ map (fun it => make_post_info sub (item_data it)) items /\
  forall ty,
    bucket ty (snd (fold_left (watermark_post_step sub) items st)) =
    bucket ty (snd st) ++
    flat_map (fun it => if is_relevant (item_data it)
                        then bucket ty (analyze_post (item_data it))
                        else []) items.
Proof.
  revert st. induction items as [|it items IH]; intros st.
  - simpl. split; [now rewrite app_nil_r|intros ty; now rewrite app_nil_r].
  - cbn [fold_left map flat_map].
    destruct (IH (watermark_post_step sub st it)) as [E1 E2].
    split.
    + rewrite E1. unfold watermark_post_step. cbv zeta.
      destruct (is_relevant (item_data it)); cbn [fst];
        now rewrite <- app_assoc.
    + intros ty. rewrite E2. unfold watermark_post_step. cbv zeta.
      destruct (is_relevant (item_data it)); cbn [snd].
      * now rewrite bucket_extend, app_assoc.
      * reflexivity.
Qed.

Lemma flat_map_of_map {A B C : Type} (f : B -> list C) (g : A -> B)
      (l : list A) :
  flat_map f (map g l) = flat_map (fun x => f (g x)) l.
Proof. induction l as [|x l IH]; simpl; [reflexivity|]. now rewrite IH. Qed.

Lemma watermark_sub_step_spec (get_posts : text -> text -> listing_response)
      (sub : text) (st : list post_info * insights) :
  let listed :=
    if is_some (lr_error (get_posts sub (str "hot"))) then []
    else map (fun it => (sub, it))
             (listing_items (get_posts sub (str "hot"))) in
  fst (watermark_sub_step get_posts st sub) =
    fst st ++
    map (fun si => make_post_info (fst si) (item_data (snd si))) listed /\
  forall ty,
    bucket ty (snd (watermark_sub_step get_posts st sub)) =
    bucket ty (snd st) ++
    flat_map (fun si => if is_relevant (item_data (snd si))
                        then bucket ty (analyze_post (item_data (snd si)))
                        else []) listed.
Proof.
  cbv zeta. unfold watermark_sub_step. cbv zeta.
  destruct (is_some (lr_error (get_posts sub (str "hot")))).
  - simpl. split; [now rewrite app_nil_r|intros ty; now rewrite app_nil_r].
  - destruct (watermark_posts_fold sub
                (listing_items (get_posts sub (str "hot"))) st) as [F1 F2].
    split.
    + rewrite F1, map_map. reflexivity.
    + intros ty. rewrite F2, flat_map_of_map. reflexivity.
Qed.

Lemma watermark_subs_fold (get_posts : text -> text -> listing_response)
      (subs : list text) (st : list post_info * insights) :
  let listed :=
    flat_map
      (fun sub =>
         if is_some (lr_error (get_posts sub (str "hot"))) then []
         else map (fun it => (sub, it))
                  (listing_items (get_posts sub (str "hot"))))
      subs in
  fst (fold_left (watermark_sub_step get_posts) subs st) =
    fst st ++
    map (fun si => make_post_info (fst si) (item_data (snd si))) listed /\
  forall ty,
    bucket ty (snd (fold_left (watermark_sub_step get_posts) subs st)) =
    bucket ty (snd st) ++
    flat_map (fun si => if is_relevant (item_data (snd si))
                        then bucket ty (analyze_post (item_data (snd si)))
                        else []) listed.
Proof.
  cbv zeta. revert st. induction subs as [|sub subs IH]; intros st.
  - simpl. split; [now rewrite app_nil_r|intros ty; now rewrite app_nil_r].
  - cbn [fold_left flat_map].
    destruct (IH (watermark_sub_step get_posts st sub)) as [E1 E2].
    destruct (watermark_sub_step_spec get_posts sub st) as [S1 S2].
    cbv zeta in S1, S2. split.
    + now rewrite E1, S1, map_app, app_assoc.
    + intros ty. now rewrite E2, S2, flat_map_app, app_assoc.
Qed.

Lemma run_research_state (get_posts : text -> text -> listing_response) :
  let st := fold_left (watermark_sub_step get_posts) TARGET_SUBREDDITS
                      ([], no_insights) in
  fst st =
    map (fun si => make_post_info (fst si) (item_data (snd si)))
        (listed_items get_posts) /\
  forall ty,
    bucket ty (snd st) =
    flat_map (fun si => if is_relevant (item_data (snd si))
                        then bucket ty (analyze_post (item_data (snd si)))
                        else []) (listed_items get_posts).
Proof.
  cbv zeta.
  destruct (watermark_subs_fold get_posts TARGET_SUBREDDITS ([], no_insights))
    as [E1 E2].
  split; [exact E1|]. intros ty. rewrite E2. now destruct ty.
Qed.

Lemma listed_items_subreddit (get_posts : text -> text -> listing_response)
      (si : text * item) :
  In si (listed_items get_posts) -> In (fst si) TARGET_SUBREDDITS.
Proof.
  unfold listed_items. rewrite in_flat_map. intros (sub & Hsub & Hsi).
  cbv zeta in Hsi. destruct (is_some _); [destruct Hsi|].
  apply in_map_iff in Hsi. destruct Hsi as (it & <- & _). exact Hsub.
Qed.

Lemma filter_length_le {A : Type} (f : A -> bool) (l : list A) :
  List.length (filter f l) <= List.length l.
Proof.
  induction l as [|x l IH]; simpl; [lia|]. destruct (f x); simpl; lia.
Qed.

Lemma filter_map_length {A B : Type} (f : B -> bool) (g : A -> B)
      (l : list A) :
  List.length (filter f (map g l)) =
  List.length (filter (fun x => f (g x)) l).
Proof.
  induction l as [|x l IH]; [reflexivity|]. cbn [map filter].
  destruct (f (g x)); cbn [List.length]; now rewrite IH.
Qed.

Lemma watermark_run_posts_counts
      (set_to_list : list text -> list text)
      (get_posts : text -> text -> listing_response) :
  w_relevant_posts (run_research set_to_list get_posts) =
    List.length (filter (fun si => is_relevant (item_data (snd si)))
                        (listed_items get_posts)) /\
  List.length (w_top_relevant_posts (run_research set_to_list get_posts)) =
    Nat.min 20 (w_relevant_posts (run_research set_to_list get_posts)).
Proof.
  unfold run_research. cbv zeta.
  cbn [w_relevant_posts w_top_relevant_posts].
  destruct (run_research_state get_posts) as [E1 _]. cbv zeta in E1.
  rewrite E1. split; [|now rewrite length_firstn].
  rewrite sort_desc_length, filter_map_length. reflexivity.
Qed.

(** X15.  [run_research] records one post per element of every listing
    that arrived without an error, relevant or not, and nothing for a
    community whose request failed.  [top_relevant_posts] is the first 20 of
    the recorded relevant posts sorted by score, highest first, posts of
    equal score in the order recorded: the relevant posts are the reported
    ones together with the posts left out, no post left out outscores a
    reported one, and nothing is left out when there are at most 20.  Each
    reported post is a recorded one, is relevant, comes from a target
    community and carries at most 300 characters of body. *)
Theorem watermark_run_posts
        (set_to_list : list text -> list text)
        (get_posts : text -> text -> listing_response) :
  let report := run_research set_to_list get_posts in
  let listed := listed_items get_posts in
  let recorded := recorded_posts get_posts in
  recorded =
    map (fun si => make_post_info (fst si) (item_data (snd si))) listed /\
  w_total_posts report = List.length listed /\
  w_relevant_posts report =
    List.length (filter (fun si => is_relevant (item_data (snd si))) listed) /\
  w_relevant_posts report = List.length (filter pi_relevant recorded) /\
  w_relevant_posts report <= w_total_posts report /\
  w_top_relevant_posts report =
    firstn 20 (sort_desc pi_score (filter pi_relevant recorded)) /\
  (exists left_out,
      Permutation (w_top_relevant_posts report ++ left_out)
                  (filter pi_relevant recorded) /\
      (forall k,
          filter (fun p => (pi_score p =? k)%Z)
                 (w_top_relevant_posts report ++ left_out) =
          filter (fun p => (pi_score p =? k)%Z)
                 (filter pi_relevant recorded)) /\
      (forall a b, In a (w_top_relevant_posts report) -> In b left_out ->
                   (pi_score b <= pi_score a)%Z) /\
      (w_relevant_posts report <= 20 -> left_out = [])) /\
  List.length (w_top_relevant_posts report) =
    Nat.min 20 (w_relevant_posts report) /\
  StronglySorted (desc pi_score) (w_top_relevant_posts report) /\
  (forall p, In p (w_top_relevant_posts report) ->
             In p recorded /\
             pi_relevant p = true /\ In (pi_subreddit p) TARGET_SUBREDDITS /\
             List.length (pi_body p) <= 300).
Proof.
  cbv zeta. unfold run_research, recorded_posts. cbv zeta.
  cbn [w_total_posts w_relevant_posts w_top_relevant_posts].
  destruct (run_research_state get_posts) as [E1 _]. cbv zeta in E1.
  set (recorded := fst (fold_left (watermark_sub_step get_posts)
                                  TARGET_SUBREDDITS ([], no_insights))) in *.
  set (listed := listed_items get_posts) in *.
  set (relevant := filter pi_relevant recorded).
  assert (Hrel : List.length relevant =
                 List.length
                   (filter (fun si => is_relevant (item_data (snd si)))
                           listed)).
  { unfold relevant. rewrite E1, filter_map_length. reflexivity. }
  split; [exact E1|].
  split; [rewrite E1; now rewrite length_map|].
  split; [now rewrite sort_desc_length|].
  split; [now rewrite sort_desc_length|].
  split; [rewrite sort_desc_length; apply filter_length_le|].
  split; [reflexivity|].
  split.
  { exists (skipn 20 (sort_desc pi_score relevant)).
    rewrite firstn_skipn.
    split; [apply sort_desc_perm|].
    split; [intros k; apply sort_desc_stable|].
    split.
    - intros a b Ha Hb.
      apply (sorted_split (desc pi_score) 20 (sort_desc pi_score relevant));
        [apply sort_desc_sorted|exact Ha|exact Hb].
    - intros Hle. apply skipn_all2. now rewrite sort_desc_length in *. }
  split; [now rewrite length_firstn|].
  split; [apply StronglySorted_firstn, sort_desc_sorted|].
  intros p Hp. apply In_firstn in Hp. apply sort_desc_In in Hp.
  apply filter_In in Hp. destruct Hp as [Hp Hr].
  split; [exact Hp|]. split; [exact Hr|].
  rewrite E1 in Hp. apply in_map_iff in Hp.
  destruct Hp as (si & <- & Hsi). split.
  - now apply (listed_items_subreddit get_posts).
  - cbn [make_post_info pi_body]. rewrite length_firstn. apply Nat.le_min_l.
Qed.

(** X16.  Only relevant posts feed the insights of [run_research]: every
    fragment reported for a family was extracted for that family from a
    listed post in which a keyword occurs; a bucket holds no fragment twice
    and at most 30; and when no listed post is relevant, the run reports no
    relevant post and no fragment. *)
Theorem watermark_insights_from_relevant
        (set_to_list : list text -> list text)
        (set_to_list_NoDup : forall xs, NoDup (set_to_list xs))
        (set_to_list_In : forall xs x, In x (set_to_list xs) <-> In x xs)
        (get_posts : text -> text -> listing_response) :
  let report := run_research set_to_list get_posts in
  let listed := listed_items get_posts in
  (forall ty x,
      In x (bucket ty (w_insights report)) ->
      exists si, In si listed /\ is_relevant (item_data (snd si)) = true /\
                 In x (bucket ty (analyze_post (item_data (snd si))))) /\
  (forall ty, NoDup (bucket ty (w_insights report)) /\
              List.length (bucket ty (w_insights report)) <= 30) /\
  ((forall si, In si listed -> is_relevant (item_data (snd si)) = false) ->
   w_relevant_posts report = 0 /\ w_top_relevant_posts report = [] /\
   w_insights report = no_insights).
Proof.
  cbv zeta.
  destruct (run_research_state get_posts) as [E1 E2]. cbv zeta in E1, E2.
  assert (Hb : forall ty,
             bucket ty (w_insights (run_research set_to_list get_posts)) =
             dedup_cap set_to_list 30
               (flat_map
                  (fun si => if is_relevant (item_data (snd si))
                             then bucket ty (analyze_post (item_data (snd si)))
                             else []) (listed_items get_posts))).
  { intros ty. rewrite <- E2. now destruct ty. }
  split; [|split].
  - intros ty x Hx. rewrite Hb in Hx. unfold dedup_cap in Hx.
    apply In_firstn in Hx. apply (proj1 (set_to_list_In _ _)) in Hx.
    apply in_flat_map in Hx. destruct Hx as (si & Hsi & Hx).
    exists si. destruct (is_relevant (item_data (snd si))); [|destruct Hx].
    auto.
  - intros ty. rewrite Hb. split.
    + now apply dedup_cap_NoDup.
    + rewrite (dedup_cap_length set_to_list set_to_list_NoDup set_to_list_In).
      apply Nat.le_min_l.
  - intros Hnone.
    destruct (watermark_run_posts_counts set_to_list get_posts) as (Hr & Ht).
    assert (Hf : filter (fun si => is_relevant (item_data (snd si)))
                        (listed_items get_posts) = []).
    { clear -Hnone. induction (listed_items get_posts) as [|si l IH];
        [reflexivity|]. simpl. rewrite (Hnone si (or_introl eq_refl)).
      apply IH. intros s Hs. apply Hnone. now right. }
    split; [now rewrite Hr, Hf|].
    split; [apply length_zero_iff_nil; rewrite Ht, Hr, Hf; reflexivity|].
    apply insights_eq. intros ty. rewrite Hb.
    rewrite flat_map_all_nil.
    + rewrite (dedup_cap_nil set_to_list 30 set_to_list_In). now destruct ty.
    + intros si Hsi. now rewrite (Hnone si Hsi).
Qed.

Lemma watermark_insights_from_relevant_witness :
  bucket pain (w_insights (run_research distinct_in_order editors_listing)) =
    [str "I can't afford the license"] /\
  NoDup (bucket pain
           (w_insights (run_research distinct_in_order editors_listing))).
Proof.
  split; [reflexivity|].
  apply (watermark_insights_from_relevant
           distinct_in_order
           (fun xs => NoDup_nodup text_eq_dec xs)
           (fun xs x => nodup_In text_eq_dec xs x)
           editors_listing).
Defined.

(** ** Keywords *)

Lemma starts_with_spec (p s : text) :
  starts_with p s = true <-> exists rest, s = p ++ rest.
Proof.
  revert s. induction p as [|a p IH]; intros s; simpl.
  - split; [now exists s|reflexivity].
  - destruct s as [|c s].
    + split; [discriminate|intros (r & E); discriminate].
    + rewrite andb_true_iff, Ascii.eqb_eq, IH. split.
      * intros [-> (r & ->)]. now exists r.
      * intros (r & E). injection E as -> ->. split; [reflexivity|now exists r].
Qed.

Lemma contains_spec (p s : text) : contains p s = true <-> part_of p s.
Proof.
  unfold part_of. induction s as [|c s IH]; cbn [contains].
  - rewrite orb_false_r, starts_with_spec. split.
    + intros (r & E). exists [], r. exact E.
    + intros (a & b & E). destruct a; [now exists b|discriminate].
  - rewrite orb_true_iff, starts_with_spec, IH. split.
    + intros [(r & E)|(a & b & E)].
      * exists [], r. exact E.
      * exists (c :: a), b. simpl. now rewrite E.
    + intros (a & b & E). destruct a as [|x a].
      * left. now exists b.
      * right. injection E as -> ->. now exists a, b.
Qed.

Lemma contains_trans (a b s : text) :
  contains a b = true -> contains b s = true -> contains a s = true.
Proof.
  rewrite !contains_spec. apply part_of_trans.
Qed.

Lemma existsb_coarser {A : Type} (f : A -> bool) (l l' : list A) :
  (forall x, In x l -> f x = true -> exists y, In y l' /\ f y = true) ->
  existsb f l = true -> existsb f l' = true.
Proof.
  intros H. rewrite !existsb_exists. intros (x & Hx & Hf).
  destruct (H x Hx Hf) as (y & Hy & Hfy). now exists y.
Qed.

(** X17.  Six of the thirteen keywords of [run_research] never decide
    anything: ["shutterstock"], ["adobe stock"], ["istock"], ["stock photo"],
    ["stock image"] and ["stock footage"] all hold ["stock"], so a post is
    relevant exactly when one of the other seven keywords occurs in its
    lowercased title or [selftext].  Relevance ignores letter case and never
    looks at a [body] key. *)
Theorem relevance_by_core_keywords (post_data : post) :
  is_relevant post_data =
    existsb (fun kw =>
               contains kw (lower (get (p_title post_data) [])) ||
               contains kw (lower (get (p_selftext post_data) [])))
            core_keywords /\
  (forall other,
      lower (get (p_title other) []) = lower (get (p_title post_data) []) ->
      lower (get (p_selftext other) []) =
        lower (get (p_selftext post_data) []) ->
      is_relevant other = is_relevant post_data).
Proof.
  split.
  - unfold is_relevant. cbv zeta.
    set (t := lower (get (p_title post_data) [])).
    set (b := lower (get (p_selftext post_data) [])).
    set (f := fun kw => contains kw t || contains kw b).
    assert (Hto : existsb f watermark_keywords = true ->
                  existsb f core_keywords = true).
    { apply existsb_coarser. intros kw Hkw Hf.
      assert (Hcore : exists c, In c core_keywords /\ contains c kw = true).
      { apply existsb_exists.
        assert (Hall : forallb (fun kw => existsb (fun c => contains c kw)
                                                  core_keywords)
                               watermark_keywords = true) by reflexivity.
        rewrite forallb_forall in Hall. now apply Hall. }
      destruct Hcore as (c & Hc & Hck). exists c. split; [exact Hc|].
      unfold f in *. apply orb_true_iff in Hf. apply orb_true_iff.
      destruct Hf as [Hf|Hf]; [left|right];
        now apply (contains_trans c kw). }
    assert (Hfrom : existsb f core_keywords = true ->
                    existsb f watermark_keywords = true).
    { apply existsb_coarser. intros c Hc Hf. exists c. split; [|exact Hf].
      assert (Hall : forallb (fun c => existsb (text_eqb c) watermark_keywords)
                             core_keywords = true) by reflexivity.
      rewrite forallb_forall in Hall. specialize (Hall c Hc).
      apply existsb_exists in Hall. destruct Hall as (k & Hk & E).
      apply text_eqb_eq in E. now subst. }
    destruct (existsb f watermark_keywords), (existsb f core_keywords);
      try reflexivity.
    + symmetry. now apply Hto.
    + now apply Hfrom.
  - intros other Ht Hs. unfold is_relevant. cbv zeta. now rewrite Ht, Hs.
Qed.

(** * Patterns and segments *)

Lemma search_question_end_In (s : text) :
  search_question_end s = true -> In "?"%char s.
Proof.
  induction s as [|c s IH]; simpl; [discriminate|].
  intros H. apply orb_true_iff in H. destruct H as [H|H].
  - apply andb_true_iff in H. destruct H as [H _].
    apply Ascii.eqb_eq in H. now left.
  - right. now apply IH.
Qed.

Lemma segment_no_question_end (s seg : text) :
  In seg (segments s) -> search QuestionMarkAtEnd seg = false.
Proof.
  intros Hseg. destruct (segment_shape s seg Hseg) as (_ & _ & Hsep & _).
  destruct (search QuestionMarkAtEnd seg) eqn:E; [|reflexivity].
  apply search_question_end_In in E. apply Hsep in E. discriminate.
Qed.

(** X18.  The last question pattern, [\?$], never selects a fragment: the
    text is split at every ['?'], so no segment holds one.  The questions
    bucket is decided by the six phrase patterns alone, and a sentence is
    not a question for ending in a question mark: a title such as
    ["Really?"] has the intent [question] and leaves the bucket empty. *)
Theorem question_mark_pattern_is_dead (s : text) :
  (forall seg, In seg (segments s) -> search QuestionMarkAtEnd seg = false) /\
  _extract_sentence_with_pattern s question =
    filter (fun seg => existsb (fun p => search p seg)
                               (removelast QUESTION_PATTERNS))
           (segments s) /\
  last QUESTION_PATTERNS QuestionMarkAtEnd = QuestionMarkAtEnd /\
  categorize_post_by_intent (titled "Really?") = str "question" /\
  i_questions (analyze_post (titled "Really?")) = [].
Proof.
  split; [intros seg; apply segment_no_question_end|].
  split; [|split; [reflexivity|split; reflexivity]].
  rewrite extract_as_filter. apply filter_ext_in. intros seg Hseg.
  unfold _matches_patterns.
  change (compiled_patterns question)
    with (removelast QUESTION_PATTERNS ++ [QuestionMarkAtEnd]).
  rewrite existsb_app. cbn [existsb].
  now rewrite (segment_no_question_end s seg Hseg), !orb_false_r.
Qed.

(** ** Phrase patterns see one sentence at a time *)

Lemma phrase_patterns_clean (ty : pattern_type) :
  forallb phrase_pattern (phrase_patterns ty) = true.
Proof. destruct ty; reflexivity. Qed.

Lemma space_not_word (c : ascii) : is_space c = true -> is_word c = false.
Proof.
  destruct c as [[|] [|] [|] [|] [|] [|] [|] [|]]; simpl; intros H;
    first [reflexivity | discriminate H].
Qed.

Lemma separator_not_word (c : ascii) :
  is_sentence_end c = true -> is_word c = false /\ lower_char c = c.
Proof.
  destruct c as [[|] [|] [|] [|] [|] [|] [|] [|]]; simpl; intros H;
    first [split; reflexivity | discriminate H].
Qed.

Lemma existsb_same {A : Type} (f g : A -> bool) (l : list A) :
  (forall x, In x l -> f x = g x) -> existsb f l = existsb g l.
Proof.
  induction l as [|x l IH]; intros H; [reflexivity|]. simpl.
  rewrite (H x (or_introl eq_refl)), IH; [reflexivity|].
  intros y Hy. apply H. now right.
Qed.

Section PhraseSearch.

Variable alts : list text.
Hypothesis alts_clean : clean_alts alts = true.

Lemma alt_clean (alt : text) :
  In alt alts ->
  alt <> [] /\
  (forall x, In x alt -> is_sentence_end (lower_char x) = false) /\
  is_word (last alt " "%char) = true.
Proof.
  intros Hin. unfold clean_alts in alts_clean.
  rewrite forallb_forall in alts_clean. specialize (alts_clean alt Hin).
  unfold clean_alt in alts_clean.
  apply andb_true_iff in alts_clean. destruct alts_clean as [H12 H3].
  apply andb_true_iff in H12. destruct H12 as [H1 H2].
  split; [intros E; now rewrite E in H1|]. split; [|exact H3].
  intros x Hx. rewrite forallb_forall in H2. specialize (H2 x Hx).
  now apply negb_true_iff in H2.
Qed.

Lemma match_literal_prev (alt : text) (prev prev' : option ascii) (s : text) :
  alt <> [] -> match_literal alt prev s = match_literal alt prev' s.
Proof. destruct alt as [|a alt]; [contradiction|reflexivity]. Qed.

Lemma match_literal_nil (alt : text) (prev : option ascii) :
  alt <> [] -> match_literal alt prev [] = None.
Proof. destruct alt as [|a alt]; [contradiction|reflexivity]. Qed.

Lemma match_words_here_prev (prev prev' : option ascii) (s : text) :
  opt_word prev = opt_word prev' ->
  match_words_here alts prev s = match_words_here alts prev' s.
Proof.
  intros E. unfold match_words_here, word_boundary. rewrite E. f_equal.
  apply existsb_same. intros alt Hin.
  destruct (alt_clean alt Hin) as (Hne & _).
  now rewrite (match_literal_prev alt prev prev' s Hne).
Qed.

Lemma search_words_prev (prev prev' : option ascii) (s : text) :
  opt_word prev = opt_word prev' ->
  search_words alts prev s = search_words alts prev' s.
Proof.
  intros E. destruct s as [|c s]; cbn [search_words];
    now rewrite (match_words_here_prev prev prev' _ E).
Qed.

Lemma match_words_here_nil (prev : option ascii) :
  match_words_here alts prev [] = false.
Proof.
  unfold match_words_here. apply andb_false_iff. right.
  apply not_true_is_false. intros H. apply existsb_exists in H.
  destruct H as (alt & Hin & H).
  destruct (alt_clean alt Hin) as (Hne & _).
  now rewrite (match_literal_nil alt prev Hne) in H.
Qed.

Lemma search_words_nil (prev : option ascii) : search_words alts prev [] = false.
Proof. simpl. now rewrite match_words_here_nil. Qed.

End PhraseSearch.

Lemma match_literal_before (alt : text) (prev : option ascii)
      (u : text) (c : ascii) (b : text) :
  (forall x, In x alt -> lower_char x <> lower_char c) ->
  match_literal alt prev (u ++ c :: b) =
  option_map (fun r => (fst r, snd r ++ c :: b)) (match_literal alt prev u).
Proof.
  revert prev u. induction alt as [|a alt IH]; intros prev u Hc.
  - reflexivity.
  - destruct u as [|x u]; cbn [match_literal app].
    + destruct (Ascii.eqb (lower_char a) (lower_char c)) eqn:E; [|reflexivity].
      apply Ascii.eqb_eq in E. exfalso. now apply (Hc a (or_introl eq_refl)).
    + destruct (Ascii.eqb (lower_char a) (lower_char x)); [|reflexivity].
      apply IH. intros y Hy. apply Hc. now right.
Qed.

Lemma match_literal_before_last (alt : text) (prev : option ascii)
      (u : text) (c : ascii) :
  alt <> [] -> lower_char (last alt " "%char) <> lower_char c ->
  match_literal alt prev (u ++ [c]) =
  option_map (fun r => (fst r, snd r ++ [c])) (match_literal alt prev u).
Proof.
  revert prev u. induction alt as [|a alt IH]; intros prev u Hne Hc;
    [contradiction|].
  destruct alt as [|a2 alt].
  - destruct u as [|x u]; cbn [match_literal app].
    + destruct (Ascii.eqb (lower_char a) (lower_char c)) eqn:E; [|reflexivity].
      apply Ascii.eqb_eq in E. exfalso. now apply Hc.
    + now destruct (Ascii.eqb (lower_char a) (lower_char x)).
  - destruct u as [|x u]; cbn [match_literal app].
    + now destruct (Ascii.eqb (lower_char a) (lower_char c)).
    + destruct (Ascii.eqb (lower_char a) (lower_char x)); [|reflexivity].
      apply (IH (Some x) u); [discriminate|exact Hc].
Qed.

Lemma hd_error_before (rest : text) (c : ascii) (b : text) (last : option ascii) :
  is_word c = false ->
  word_boundary last (hd_error (rest ++ c :: b)) =
  word_boundary last (hd_error rest).
Proof.
  intros Hc. destruct rest; [|reflexivity].
  unfold word_boundary. simpl. now rewrite Hc.
Qed.

Section PhraseContext.

Variable alts : list text.
Hypothesis alts_clean : clean_alts alts = true.

Lemma alt_not_separator (alt : text) (c : ascii) :
  In alt alts -> is_sentence_end c = true ->
  forall x, In x alt -> lower_char x <> lower_char c.
Proof.
  intros Hin Hc x Hx E.
  destruct (alt_clean alts alts_clean alt Hin) as (_ & Hsep & _).
  destruct (separator_not_word c Hc) as [_ Hl]. rewrite Hl in E.
  specialize (Hsep x Hx). rewrite E in Hsep. congruence.
Qed.

Lemma alt_last_not (alt : text) (c : ascii) :
  In alt alts -> is_word c = false ->
  lower_char (last alt " "%char) <> lower_char c.
Proof.
  intros Hin Hc E.
  destruct (alt_clean alts alts_clean alt Hin) as (_ & _ & Hw).
  rewrite <- is_word_lower_char, E, is_word_lower_char in Hw. congruence.
Qed.

(** What follows a separator does not change a match that starts before
    it. *)
Lemma match_words_here_before (prev : option ascii) (u : text) (c : ascii)
      (b : text) :
  is_sentence_end c = true ->
  match_words_here alts prev (u ++ c :: b) = match_words_here alts prev u.
Proof.
  intros Hc. destruct (separator_not_word c Hc) as [Hw _].
  destruct u as [|x u].
  - rewrite (match_words_here_nil alts alts_clean).
    unfold match_words_here. apply andb_false_iff. right.
    apply not_true_is_false. intros H. apply existsb_exists in H.
    destruct H as (alt & Hin & H).
    rewrite (match_literal_before alt prev [] c b
               (alt_not_separator alt c Hin Hc)) in H.
    destruct (alt_clean alts alts_clean alt Hin) as (Hne & _).
    now rewrite (match_literal_nil alt prev Hne) in H.
  - unfold match_words_here. f_equal. apply existsb_same. intros alt Hin.
    rewrite (match_literal_before alt prev (x :: u) c b
               (alt_not_separator alt c Hin Hc)).
    destruct (match_literal alt prev (x :: u)) as [[last rest]|];
      [|reflexivity].
    cbn [option_map fst snd]. now apply hd_error_before.
Qed.

Lemma match_words_here_before_last (prev : option ascii) (u : text)
      (c : ascii) :
  is_word c = false ->
  match_words_here alts prev (u ++ [c]) = match_words_here alts prev u.
Proof.
  intros Hw. destruct u as [|x u].
  - rewrite (match_words_here_nil alts alts_clean).
    unfold match_words_here. apply andb_false_iff. right.
    apply not_true_is_false. intros H. apply existsb_exists in H.
    destruct H as (alt & Hin & H).
    destruct (alt_clean alts alts_clean alt Hin) as (Hne & _).
    rewrite (match_literal_before_last alt prev [] c Hne
               (alt_last_not alt c Hin Hw)) in H.
    now rewrite (match_literal_nil alt prev Hne) in H.
  - unfold match_words_here. f_equal. apply existsb_same. intros alt Hin.
    destruct (alt_clean alts alts_clean alt Hin) as (Hne & _).
    rewrite (match_literal_before_last alt prev (x :: u) c Hne
               (alt_last_not alt c Hin Hw)).
    destruct (match_literal alt prev (x :: u)) as [[last rest]|];
      [|reflexivity].
    cbn [option_map fst snd]. now apply hd_error_before.
Qed.

(** A search does not cross a separator. *)
Lemma search_words_separator (prev : option ascii) (a : text) (c : ascii)
      (b : text) :
  is_sentence_end c = true ->
  search_words alts prev (a ++ c :: b) =
  search_words alts prev a || search_words alts None b.
Proof.
  intros Hc. destruct (separator_not_word c Hc) as [Hw _].
  revert prev. induction a as [|x a IH]; intros prev.
  - pose proof (match_words_here_before prev [] c b Hc) as E.
    cbn [app] in *. cbn [search_words]. rewrite E.
    rewrite (search_words_prev alts alts_clean (Some c) None b)
      by (simpl; exact Hw).
    now rewrite orb_false_r.
  - change ((x :: a) ++ c :: b) with (x :: (a ++ c :: b)).
    cbn [search_words].
    change (x :: (a ++ c :: b)) with ((x :: a) ++ c :: b).
    rewrite (match_words_here_before prev (x :: a) c b Hc), IH.
    now rewrite orb_assoc.
Qed.

Lemma search_words_leading (c : ascii) (s : text) :
  is_word c = false ->
  search_words alts None (c :: s) = search_words alts None s.
Proof.
  intros Hw. cbn [search_words].
  assert (E : match_words_here alts None (c :: s) = false).
  { unfold match_words_here, word_boundary. simpl. now rewrite Hw. }
  rewrite E. apply (search_words_prev alts alts_clean). simpl. exact Hw.
Qed.

Lemma search_words_trailing (prev : option ascii) (s : text) (c : ascii) :
  is_word c = false ->
  search_words alts prev (s ++ [c]) = search_words alts prev s.
Proof.
  intros Hw. revert prev. induction s as [|x s IH]; intros prev.
  - pose proof (match_words_here_before_last prev [] c Hw) as E.
    cbn [app] in *. cbn [search_words]. rewrite E.
    now rewrite !(match_words_here_nil alts alts_clean).
  - change ((x :: s) ++ [c]) with (x :: (s ++ [c])).
    cbn [search_words].
    change (x :: (s ++ [c])) with ((x :: s) ++ [c]).
    now rewrite (match_words_here_before_last prev (x :: s) c Hw), IH.
Qed.

Lemma search_words_lstrip (s : text) :
  search_words alts None (lstrip s) = search_words alts None s.
Proof.
  unfold lstrip. induction s as [|c s IH]; [reflexivity|]. simpl.
  destruct (is_space c) eqn:Hc; [|reflexivity].
  rewrite IH. symmetry. apply search_words_leading. now apply space_not_word.
Qed.

Lemma search_words_rstrip (s : text) :
  search_words alts None (rstrip s) = search_words alts None s.
Proof.
  unfold rstrip. rewrite <- (rev_involutive s) at 2.
  induction (rev s) as [|c r IH]; [reflexivity|]. simpl.
  destruct (is_space c) eqn:Hc.
  - rewrite IH. symmetry. apply search_words_trailing.
    now apply space_not_word.
  - reflexivity.
Qed.

Lemma search_words_strip (s : text) :
  search_words alts None (strip s) = search_words alts None s.
Proof. unfold strip. now rewrite search_words_rstrip, search_words_lstrip. Qed.

Lemma search_words_pieces (q s : text) :
  search_words alts None (q ++ s) =
  existsb (search_words alts None)
          (match re_split s with
           | p :: ps => (q ++ p) :: ps
           | [] => []
           end).
Proof.
  revert q. induction s as [|c s IH]; intros q.
  - simpl. now rewrite orb_false_r.
  - cbn [re_split]. destruct (is_sentence_end c) eqn:Hc.
    + rewrite (search_words_separator None q c s Hc), app_nil_r.
      cbn [existsb]. f_equal. specialize (IH []). cbn [app] in IH.
      rewrite IH. now destruct (re_split s).
    + specialize (IH (q ++ [c])). rewrite <- app_assoc in IH. cbn [app] in IH.
      rewrite IH. pose proof (re_split_not_nil s) as Hn.
      destruct (re_split s) as [|p ps]; [contradiction|].
      now rewrite <- app_assoc.
Qed.

Lemma search_words_segments (s : text) :
  search_words alts None s =
  existsb (search_words alts None) (segments s).
Proof.
  transitivity (existsb (search_words alts None) (re_split s)).
  { pose proof (search_words_pieces [] s) as E. cbn [app] in E.
    rewrite E. now destruct (re_split s). }
  unfold segments.
  induction (re_split s) as [|p ps IH]; [reflexivity|].
  cbn [existsb map filter]. rewrite IH.
  destruct (nonempty (strip p)) eqn:Hne; cbn [existsb].
  - now rewrite search_words_strip.
  - rewrite <- (search_words_strip p).
    destruct (strip p); [|discriminate].
    now rewrite (search_words_nil alts alts_clean).
Qed.

End PhraseContext.

(** ** Pattern families on a text and on its segments *)

Lemma phrase_search_segments (p : pattern) (s : text) :
  phrase_pattern p = true ->
  search p s = existsb (search p) (segments s).
Proof.
  destruct p as [alts|]; [|discriminate]. intros H.
  exact (search_words_segments alts H s).
Qed.

Lemma existsb_swap {A B : Type} (f : A -> B -> bool)
      (la : list A) (lb : list B) :
  existsb (fun a => existsb (f a) lb) la =
  existsb (fun b => existsb (fun a => f a b) la) lb.
Proof.
  apply eq_true_iff_eq. split; intros H;
    apply existsb_exists in H; destruct H as (x & Hx & H);
    apply existsb_exists in H; destruct H as (y & Hy & H);
    apply existsb_exists; exists y; (split; [exact Hy|]);
    apply existsb_exists; exists x; (split; [exact Hx|exact H]).
Qed.

Lemma phrase_family_segments (ps : list pattern) (s : text) :
  forallb phrase_pattern ps = true ->
  existsb (fun p => search p s) ps =
  existsb (fun seg => existsb (fun p => search p seg) ps) (segments s).
Proof.
  intros H. rewrite <- (existsb_swap (fun p seg => search p seg)).
  apply existsb_same. intros p Hp. rewrite forallb_forall in H.
  now apply phrase_search_segments, H.
Qed.

Lemma filter_existsb {A : Type} (f : A -> bool) (l : list A) :
  match filter f l with [] => false | _ :: _ => true end = existsb f l.
Proof.
  induction l as [|x l IH]; [reflexivity|]. simpl.
  now destruct (f x).
Qed.

Lemma matches_has_fragment (s : text) (ty : pattern_type) :
  _matches_patterns s ty =
  has_fragment s ty ||
  match ty with question => search QuestionMarkAtEnd s | _ => false end.
Proof.
  unfold has_fragment. rewrite extract_as_filter, filter_existsb.
  destruct ty;
    try (rewrite orb_false_r; unfold _matches_patterns;
         apply phrase_family_segments; reflexivity).
  unfold _matches_patterns.
  change (compiled_patterns question)
    with (removelast QUESTION_PATTERNS ++ [QuestionMarkAtEnd]).
  rewrite existsb_app. cbn [existsb]. rewrite orb_false_r. f_equal.
  rewrite phrase_family_segments by reflexivity.
  apply existsb_same. intros seg Hseg.
  rewrite existsb_app. cbn [existsb].
  now rewrite (segment_no_question_end s seg Hseg), !orb_false_r.
Qed.




(** X19.  Looking for a pattern family in a whole text and selecting
    fragments of it agree: no alternative of a phrase pattern holds a
    separator, each ends in a word character and begins at a word boundary,
    so a phrase is found in a text exactly when it is found in one of its
    segments.  Hence [_matches_patterns] holds of a text if and only if
    [_extract_sentence_with_pattern] selects a fragment of it, with one
    exception: the question family also holds of a text that ends in a
    question mark, which selects nothing. *)
Theorem match_iff_fragment (s : text) (ty : pattern_type) :
  (forall p, In p (phrase_patterns ty) ->
             search p s = existsb (search p) (segments s)) /\
  (_matches_patterns s ty = true <->
   _extract_sentence_with_pattern s ty <> [] \/
   (ty = question /\ search QuestionMarkAtEnd s = true)).
Proof.
  split.
  - intros p Hp. apply phrase_search_segments.
    pose proof (phrase_patterns_clean ty) as H.
    rewrite forallb_forall in H. now apply H.
  - rewrite matches_has_fragment, orb_true_iff. unfold has_fragment.
    split.
    + intros [H|H].
      * left. now destruct (_extract_sentence_with_pattern s ty).
      * right. destruct ty; try discriminate. now split.
    + intros [H|[-> H]].
      * left. now destruct (_extract_sentence_with_pattern s ty).
      * now right.
Qed.

